(** * Bytebase: the backup task executor and the pipeline store

    A shallow embedding of
      - [server/task_executor_database_backup.go] (module [Server]) and
      - [store/pipeline.go] (module [Store]),
    with the parts of the Go standard library they call ([path/filepath],
    [fmt], [github.com/pkg/errors]) in module [Go].  The properties of the
    executor are in module [ServerFacts], those of the pipeline service in
    module [StoreFacts].

    Further modules cover more of the same sources:
      - the layout of the backup files ([Paths], [PathFacts]);
      - the runs of the executor function by function ([ServerNotions],
        [ServerLemmas], [BackupRuns]);
      - the calls of the pipeline service ([StoreNotions], [StoreLemmas],
        [PipelineCalls]);
      - the schema synchronisation of the ClickHouse driver, which is the
        second half of [store/pipeline.go] ([ClickHouse],
        [ClickHouseFacts]);
      - the advisor of
        [backend/plugin/advisor/pg/advisor_index_primary_key_type_allowlist.go]
        ([Advisor], [AdvisorFacts]).

    Side effects are explicit: every function takes the state of the world
    it can touch and returns the new one.  Each state carries a trace of
    the calls made to the outside (file system, object storage, SQL
    transactions, cache), oldest first, so that statements such as
    "no file is created" or "the store is not touched" are statements
    about that trace.  What an external collaborator answers (does the
    driver fail, how much disk space is left, does the commit fail) is
    given by an environment record read by the function.

    The local file system is a finite map from paths to contents:
    [os.Open] and [os.Remove] fail when the file is missing and only then,
    while [os.Create] fails when the environment says so (directories are
    not part of the map). *)

From stdpp Require Import base strings gmap list pretty.
From Stdlib Require Import ZArith Ascii String Lia.

Open Scope string_scope.
Open Scope Z_scope.
Open Scope list_scope.
Open Scope stdpp_scope.

(** ** Go library functions used by the sources *)
Module Go.

(** Results of fallible calls: Go's [(value, err)] pairs. *)
Inductive result (E A : Type) : Type :=
| Ok (a : A)
| Err (e : E).
Arguments Ok {E A} a.
Arguments Err {E A} e.

(** [strings.Join]. *)
Fixpoint strings_Join (elems : list string) (sep : string) : string :=
  match elems with
  | [] => EmptyString
  | [e] => e
  | e :: rest => e +:+ sep +:+ strings_Join rest sep
  end.

(** The elements of a path: the pieces between the separators. *)
Fixpoint path_elements (path : string) : list string :=
  match path with
  | EmptyString => [EmptyString]
  | String c rest =>
      if Ascii.eqb c "/"%char then EmptyString :: path_elements rest
      else match path_elements rest with
           | [] => [String c EmptyString]
           | e :: es => String c e :: es
           end
  end.

(** One round of the loop of [filepath.Clean], on a whole path element.
    [out] holds the elements kept so far, the last one first.  An empty
    element and [.] are skipped; [..] removes the last kept element when
    there is one that is not itself a [..], is dropped at the root, and is
    kept otherwise. *)
Definition clean_element (rooted : bool) (out : list string) (e : string)
  : list string :=
  if String.eqb e EmptyString then out
  else if String.eqb e "." then out
  else if String.eqb e ".." then
    match out with
    | top :: below =>
        if String.eqb top ".." then (if rooted then out else e :: out)
        else below
    | [] => if rooted then [] else [e]
    end
  else e :: out.

Definition is_rooted (path : string) : bool :=
  match path with
  | String c _ => Ascii.eqb c "/"%char
  | EmptyString => false
  end.

(** [filepath.Clean] (Unix). *)
Definition filepath_Clean (path : string) : string :=
  if String.eqb path EmptyString then "."
  else
    let rooted := is_rooted path in
    let out := fold_left (clean_element rooted) (path_elements path) [] in
    let body := strings_Join (rev out) "/" in
    if rooted then "/" +:+ body
    else if String.eqb body EmptyString then "." else body.

(** [filepath.Join]: the elements from the first non-empty one on, joined
    with the separator and cleaned; the empty string when all are empty. *)
Fixpoint filepath_Join (elem : list string) : string :=
  match elem with
  | [] => EmptyString
  | e :: rest =>
      if String.eqb e EmptyString then filepath_Join rest
      else filepath_Clean (strings_Join elem "/")
  end.

(** The part of [path] up to and including its last separator. *)
Fixpoint up_to_last_separator (path : string) : string :=
  match path with
  | EmptyString => EmptyString
  | String c rest =>
      let r := up_to_last_separator rest in
      if String.eqb r EmptyString then
        (if Ascii.eqb c "/"%char then String c EmptyString else EmptyString)
      else String c r
  end.

(** [filepath.Dir] (Unix: no volume name). *)
Definition filepath_Dir (path : string) : string :=
  filepath_Clean (up_to_last_separator path).

(** The verb [%d] of [fmt]. *)
Definition fmt_d (n : Z) : string := pretty n.

Definition hex_digit (n : N) : ascii :=
  match n with
  | 0%N => "0" | 1%N => "1" | 2%N => "2" | 3%N => "3" | 4%N => "4"
  | 5%N => "5" | 6%N => "6" | 7%N => "7" | 8%N => "8" | 9%N => "9"
  | 10%N => "a" | 11%N => "b" | 12%N => "c" | 13%N => "d" | 14%N => "e"
  | _ => "f"
  end%char.

Definition double_quote : ascii := "034"%char.
Definition backslash : ascii := "092"%char.

(** One byte of [strconv.Quote].  The quote and the backslash are
    escaped, printable ASCII is copied, control characters get their
    escape.  Bytes from 0x80 on are copied: that is what Go does with the
    bytes of a printable rune, and no path or name of the examples below
    has any. *)
Definition quote_byte (c : ascii) : string :=
  let n := N_of_ascii c in
  if Ascii.eqb c double_quote then String backslash (String c EmptyString)
  else if Ascii.eqb c backslash then String backslash (String c EmptyString)
  else if ((32 <=? n) && (n <? 127))%N then String c EmptyString
  else if (128 <=? n)%N then String c EmptyString
  else match n with
       | 7%N => String backslash "a"
       | 8%N => String backslash "b"
       | 12%N => String backslash "f"
       | 10%N => String backslash "n"
       | 13%N => String backslash "r"
       | 9%N => String backslash "t"
       | 11%N => String backslash "v"
       | _ => String backslash
                (String "x" (String (hex_digit (n / 16))
                               (String (hex_digit (n mod 16)) EmptyString)))
       end.

Fixpoint quote_bytes (s : string) : string :=
  match s with
  | EmptyString => EmptyString
  | String c rest => quote_byte c +:+ quote_bytes rest
  end.

(** The verb [%q] of [fmt] on a string. *)
Definition fmt_q (s : string) : string :=
  String double_quote (quote_bytes s +:+ String double_quote EmptyString).

(** Errors of [github.com/pkg/errors]: a message, or a cause with a
    message put in front of it. *)
Inductive error : Type :=
| errors_New (msg : string)
| errors_Wrap (cause : error) (msg : string).

(** The method [Error()]. *)
Fixpoint Error (e : error) : string :=
  match e with
  | errors_New msg => msg
  | errors_Wrap cause msg => msg +:+ ": " +:+ Error cause
  end.

End Go.

(** ** server/task_executor_database_backup.go *)
Module Server.
Import Go.

(** *** Data of package [api] used by the executor *)

(** Modelled from the spec: the constants of package [api], which is not
    among the sources.  The storage backend is one of LOCAL and S3, the
    status of a backup one of PENDING, DONE and FAILED. *)
Definition BackupStorageBackendLocal : string := "LOCAL".
Definition BackupStorageBackendS3 : string := "S3".
Definition BackupStatusDone : string := "DONE".
Definition BackupStatusFailed : string := "FAILED".

(** [api.Backup], the fields the spec lists. *)
Record Backup : Type := {
  Backup_ID : Z;
  Backup_DatabaseID : Z;
  Backup_Name : string;
  Backup_Status : string;
  Backup_StorageBackend : string;
  Backup_Path : string;
  Backup_Comment : string;
  Backup_Payload : string;
  Backup_UpdaterID : Z
}.

(** [api.BackupPatch]: the pointer fields are options. *)
Record BackupPatch : Type := {
  BackupPatch_ID : Z;
  BackupPatch_Status : option string;
  BackupPatch_UpdaterID : Z;
  BackupPatch_Comment : option string;
  BackupPatch_Payload : option string
}.

Record Instance : Type := { Instance_Name : string }.
Record Database : Type := { Database_Name : string }.

(** [api.Task], the fields [RunOnce] reads. *)
Record Task : Type := {
  Task_Payload : string;
  Task_Instance : Instance;
  Task_Database : Database
}.

Record TaskRunResultPayload : Type := { Detail : string }.

(** [config.Profile], the field the executor reads. *)
Record Profile : Type := { DataDir : string }.

(** *** The world of the executor *)

(** The calls that leave the process.  Debug logging and the closing of
    file handles are left out. *)
Inductive Event : Type :=
| EvGetBackupByID (id : Z)
| EvStatfs (path : string)
| EvGetAdminDatabaseDriver (instance database : string)
| EvDriverClose
| EvCreate (path : string)
| EvDump (database path : string)
| EvOpen (path : string)
| EvUploadObject (key : string)
| EvRemove (path : string)
| EvPatchBackup (patch : BackupPatch)
| EvLogWarn (msg : string).

Record World : Type := {
  files : gmap string string;      (* local files: path to content *)
  backups : list Backup;           (* the backup table of the store *)
  objects : gmap string string;    (* the bucket: key to content *)
  trace : list Event               (* calls made so far, oldest first *)
}.

(** What the collaborators answer during one run. *)
Record Env : Type := {
  (* json.Unmarshal of the task payload, giving payload.BackupID *)
  json_Unmarshal : string -> result error Z;
  (* the store fails to read the backup *)
  GetBackupByID_fails : option error;
  (* unix.Statfs: the fields Bavail (uint64) and Bsize (int64) *)
  unix_Statfs : string -> result error (Z * Z);
  (* the driver factory fails *)
  GetAdminDatabaseDriver_fails : option error;
  (* os.Create fails, say because the directory is missing *)
  os_Create_fails : option error;
  (* driver.Dump: the bytes it wrote and its payload or its error *)
  driver_Dump : string -> string * result error string;
  (* the upload fails *)
  UploadObject_fails : option error;
  (* the store fails to write the backup *)
  PatchBackup_fails : option error
}.

Definition emit (ev : Event) (w : World) : World :=
  {| files := files w; backups := backups w; objects := objects w;
     trace := trace w ++ [ev] |}.

Definition set_files (fs : gmap string string) (w : World) : World :=
  {| files := fs; backups := backups w; objects := objects w;
     trace := trace w |}.

Definition set_backups (bs : list Backup) (w : World) : World :=
  {| files := files w; backups := bs; objects := objects w;
     trace := trace w |}.

Definition set_objects (os : gmap string string) (w : World) : World :=
  {| files := files w; backups := backups w; objects := os;
     trace := trace w |}.

(** [os.Create]: the file exists and is empty afterwards. *)
Definition os_Create (env : Env) (path : string) (w : World)
  : option error * World :=
  let w := emit (EvCreate path) w in
  match os_Create_fails env with
  | Some err => (Some err, w)
  | None => (None, set_files (<[path := EmptyString]> (files w)) w)
  end.

(** [os.Open] followed by reading: fails when there is no such file. *)
Definition os_Open (path : string) (w : World)
  : result error string * World :=
  let w := emit (EvOpen path) w in
  match files w !! path with
  | Some content => (Ok content, w)
  | None =>
      (Err (errors_New ("open " +:+ path +:+ ": no such file or directory")), w)
  end.

(** [os.Remove]: fails when there is no such file. *)
Definition os_Remove (path : string) (w : World) : option error * World :=
  let w := emit (EvRemove path) w in
  match files w !! path with
  | Some _ => (None, set_files (delete path (files w)) w)
  | None =>
      (Some (errors_New
               ("remove " +:+ path +:+ ": no such file or directory")), w)
  end.

(** [driver.Dump] into the file at [path], which [os.Create] has made. *)
Definition Dump (env : Env) (databaseName path : string) (w : World)
  : (string * option error) * World :=
  let w := emit (EvDump databaseName path) w in
  let '(written, r) := driver_Dump env databaseName in
  let w := set_files (<[path := written]> (files w)) w in
  match r with
  | Ok payload => ((payload, None), w)
  | Err err => ((EmptyString, Some err), w)
  end.

(** [s3Client.UploadObject]. *)
Definition UploadObject (env : Env) (key content : string) (w : World)
  : option error * World :=
  let w := emit (EvUploadObject key) w in
  match UploadObject_fails env with
  | Some err => (Some err, w)
  | None => (None, set_objects (<[key := content]> (objects w)) w)
  end.

(** Modelled from the spec: [store.GetBackupByID], which is not among the
    sources.  It loads the Backup entity with this id, and gives [nil]
    when there is none. *)
Definition GetBackupByID (env : Env) (id : Z) (w : World)
  : result error (option Backup) * World :=
  let w := emit (EvGetBackupByID id) w in
  match GetBackupByID_fails env with
  | Some err => (Err err, w)
  | None => (Ok (List.find (fun b => (Backup_ID b =? id)%Z) (backups w)), w)
  end.

Definition apply_patch (patch : BackupPatch) (b : Backup) : Backup :=
  {| Backup_ID := Backup_ID b;
     Backup_DatabaseID := Backup_DatabaseID b;
     Backup_Name := Backup_Name b;
     Backup_Status := default (Backup_Status b) (BackupPatch_Status patch);
     Backup_StorageBackend := Backup_StorageBackend b;
     Backup_Path := Backup_Path b;
     Backup_Comment := default (Backup_Comment b) (BackupPatch_Comment patch);
     Backup_Payload := default (Backup_Payload b) (BackupPatch_Payload patch);
     Backup_UpdaterID := BackupPatch_UpdaterID patch |}.

Definition patch_row (patch : BackupPatch) (b : Backup) : Backup :=
  if (Backup_ID b =? BackupPatch_ID patch)%Z then apply_patch patch b else b.

(** Modelled from the spec: [store.PatchBackup], which is not among the
    sources.  One patch call sets the status, the comment and the payload
    of the Backup entity with the id of the patch. *)
Definition PatchBackup (env : Env) (patch : BackupPatch) (w : World)
  : result error Backup * World :=
  let w := emit (EvPatchBackup patch) w in
  match PatchBackup_fails env with
  | Some err => (Err err, w)
  | None =>
      match List.find (fun b => (Backup_ID b =? BackupPatch_ID patch)%Z)
                      (backups w) with
      | None =>
          (Err (errors_New ("backup ID not found: "
                              +:+ fmt_d (BackupPatch_ID patch))), w)
      | Some b =>
          (Ok (apply_patch patch b),
           set_backups (List.map (patch_row patch) (backups w)) w)
      end
  end.

(** *** The executor *)

(** Do not dump backup file when the available file system space is less
    than 500MB. *)
Definition minAvailableFSBytes : Z := 500 * 1024 * 1024.

Definition uint64 (n : Z) : Z := n mod 2 ^ 64.

(** Get backup dir relative to the data dir. *)
Definition getBackupRelativeDir (databaseID : Z) : string :=
  filepath_Join ["backup"; "db"; fmt_d databaseID].

Definition getBackupRelativeFilePath (databaseID : Z) (name : string)
  : string :=
  let dir := getBackupRelativeDir databaseID in
  filepath_Join [dir; name +:+ ".sql"].

Definition getBackupAbsFilePath (dataDir : string) (databaseID : Z)
  (name : string) : string :=
  let path := getBackupRelativeFilePath databaseID name in
  filepath_Join [dataDir; path].

Section Executor.

(** The executor holds its profile and the handles of its collaborators;
    [env] says what the collaborators answer.  [SystemBotID] is the
    constant of package [api], which is not among the sources. *)
Variable SystemBotID : Z.
Variable env : Env.
Variable profile : Profile.

Definition removeLocalBackupFile (dataDir : string) (backup : Backup)
  (w : World) : option error * World :=
  if negb (String.eqb (Backup_StorageBackend backup)
                      BackupStorageBackendLocal)
  then (None, w)
  else
    let backupFilePath :=
      getBackupAbsFilePath dataDir (Backup_DatabaseID backup)
                           (Backup_Name backup) in
    match os_Remove backupFilePath w with
    | (Some err, w) =>
        (Some (errors_Wrap err ("failed to delete the local backup file "
                                  +:+ backupFilePath)), w)
    | (None, w) => (None, w)
    end.

(** The free space of the mounted file system, in bytes:
    [stat.Bavail * uint64(stat.Bsize)] in 64-bit arithmetic. *)
Definition getAvailableFSSpace (path : string) (w : World)
  : (Z * option error) * World :=
  let w := emit (EvStatfs path) w in
  match unix_Statfs env path with
  | Err err => ((0, Some (errors_Wrap err "failed to call syscall statfs")), w)
  | Ok (Bavail, Bsize) => ((uint64 (Bavail * uint64 Bsize), None), w)
  end.

Definition dumpBackupFile (databaseName backupFilePath : string) (w : World)
  : (string * option error) * World :=
  match os_Create env backupFilePath w with
  | (Some _, w) =>
      ((EmptyString,
        Some (errors_New ("failed to open backup path "
                            +:+ fmt_q backupFilePath))), w)
  | (None, w) =>
      match Dump env databaseName backupFilePath w with
      | ((_, Some err), w) =>
          ((EmptyString,
            Some (errors_Wrap err
                    ("failed to dump database " +:+ fmt_q databaseName
                       +:+ " to local backup file "
                       +:+ fmt_q backupFilePath))), w)
      | ((payload, None), w) => ((payload, None), w)
      end
  end.

(** backupDatabase will take a backup of a database.  The deferred
    [driver.Close] is the last event of every path past the acquisition
    of the driver. *)
Definition backupDatabase (instance : Instance) (databaseName : string)
  (backup : Backup) (w : World) : (string * option error) * World :=
  let w := emit (EvGetAdminDatabaseDriver (Instance_Name instance)
                                          databaseName) w in
  match GetAdminDatabaseDriver_fails env with
  | Some err => ((EmptyString, Some err), w)
  | None =>
      let backupFilePathLocal :=
        filepath_Join [DataDir profile; Backup_Path backup] in
      match dumpBackupFile databaseName backupFilePathLocal w with
      | ((_, Some err), w) =>
          ((EmptyString,
            Some (errors_Wrap err ("failed to dump backup file "
                                     +:+ fmt_q backupFilePathLocal))),
           emit EvDriverClose w)
      | ((payload, None), w) =>
          if String.eqb (Backup_StorageBackend backup)
                        BackupStorageBackendLocal
          then ((payload, None), emit EvDriverClose w)
          else if String.eqb (Backup_StorageBackend backup)
                             BackupStorageBackendS3
          then
            match os_Open backupFilePathLocal w with
            | (Err err, w) =>
                ((EmptyString,
                  Some (errors_Wrap err
                          ("failed to open backup file "
                             +:+ fmt_q backupFilePathLocal
                             +:+ " for uploading to s3 bucket"))),
                 emit EvDriverClose w)
            | (Ok bucketFileToUpload, w) =>
                match UploadObject env (Backup_Path backup)
                                   bucketFileToUpload w with
                | (Some err, w) =>
                    ((EmptyString,
                      Some (errors_Wrap err
                              "failed to upload backup to AWS S3")),
                     emit EvDriverClose w)
                | (None, w) =>
                    match os_Remove backupFilePathLocal w with
                    | (Some _, w) =>
                        ((payload, None),
                         emit EvDriverClose
                           (emit (EvLogWarn "Failed to remove the local backup file after uploading to s3 bucket.") w))
                    | (None, w) => ((payload, None), emit EvDriverClose w)
                    end
                end
            end
          else
            ((EmptyString,
              Some (errors_New ("backup to " +:+ Backup_StorageBackend backup
                                  +:+ " not implemented yet"))),
             emit EvDriverClose w)
      end
  end.

(** [RunOnce] from the start of the backup on (from the call of
    [backupDatabase] to the end of the function). *)
Definition RunOnce_backup (task : Task) (backup : Backup) (w : World)
  : (bool * option TaskRunResultPayload * option error) * World :=
  let '((backupPayload, backupErr), w) :=
    backupDatabase (Task_Instance task) (Database_Name (Task_Database task))
                   backup w in
  let '(backupStatus, comment, w) :=
    match backupErr with
    | Some e =>
        match removeLocalBackupFile (DataDir profile) backup w with
        | (Some err, w) =>
            (BackupStatusFailed, Error e, emit (EvLogWarn (Error err)) w)
        | (None, w) => (BackupStatusFailed, Error e, w)
        end
    | None => (BackupStatusDone, EmptyString, w)
    end in
  let backupPatch :=
    {| BackupPatch_ID := Backup_ID backup;
       BackupPatch_Status := Some backupStatus;
       BackupPatch_UpdaterID := SystemBotID;
       BackupPatch_Comment := Some comment;
       BackupPatch_Payload := Some backupPayload |} in
  match PatchBackup env backupPatch w with
  | (Err err, w) =>
      ((true, None, Some (errors_Wrap err "failed to patch backup")), w)
  | (Ok _, w) =>
      match backupErr with
      | Some e => ((true, None, Some e), w)
      | None =>
          ((true,
            Some {| Detail := "Backup database "
                                +:+ fmt_q (Database_Name
                                             (Task_Database task)) |},
            None), w)
      end
  end.

(** RunOnce will run database backup once.  The result is the triple
    [(terminated, result, err)]. *)
Definition RunOnce (task : Task) (w : World)
  : (bool * option TaskRunResultPayload * option error) * World :=
  match json_Unmarshal env (Task_Payload task) with
  | Err err =>
      ((true, None, Some (errors_Wrap err "invalid database backup payload")),
       w)
  | Ok BackupID =>
      match GetBackupByID env BackupID w with
      | (Err err, w) =>
          ((true, None,
            Some (errors_Wrap err ("failed to find backup with ID "
                                     +:+ fmt_d BackupID))), w)
      | (Ok None, w) =>
          ((true, None,
            Some (errors_New ("backup " +:+ fmt_d BackupID
                                +:+ " not found"))), w)
      | (Ok (Some backup), w) =>
          if String.eqb (Backup_StorageBackend backup)
                        BackupStorageBackendLocal
          then
            let backupFileDir :=
              filepath_Dir (filepath_Join [DataDir profile;
                                           Backup_Path backup]) in
            match getAvailableFSSpace backupFileDir w with
            | ((_, Some err), w) =>
                ((true, None,
                  Some (errors_Wrap err
                          ("failed to get available file system space, backup file dir is "
                             +:+ backupFileDir))), w)
            | ((availableBytes, None), w) =>
                if (availableBytes <? minAvailableFSBytes)%Z
                then
                  ((true, None,
                    Some (errors_New
                            ("the available file system space "
                               +:+ fmt_d (availableBytes / 1024 / 1024)
                               +:+ "MB is less than the minimal threshold "
                               +:+ fmt_d (minAvailableFSBytes / 1024 / 1024)
                               +:+ "MB"))), w)
                else RunOnce_backup task backup w
            end
          else RunOnce_backup task backup w
      end
  end.

End Executor.

(** *** Reading the outcome of a run *)

Definition terminated_of {A B W : Type} (r : (bool * A * B) * W) : bool :=
  fst (fst (fst r)).
Definition result_of {A B W : Type} (r : (bool * A * B) * W) : A :=
  snd (fst (fst r)).
Definition err_of {A B W : Type} (r : (bool * A * B) * W) : B :=
  snd (fst r).

(** The calls made between the world [w] and the later world [w']. *)
Definition events_of (w w' : World) : list Event :=
  drop (List.length (trace w)) (trace w').

(** The Backup entity with this id, as the store has it. *)
Definition backup_by_id (id : Z) (w : World) : option Backup :=
  List.find (fun b => (Backup_ID b =? id)%Z) (backups w).

(** The space check of [RunOnce] lets the run go on. *)
Definition space_check_passes (env : Env) (profile : Profile)
  (backup : Backup) : bool :=
  match unix_Statfs env
          (filepath_Dir (filepath_Join [DataDir profile;
                                        Backup_Path backup])) with
  | Ok (Bavail, Bsize) =>
      negb (uint64 (Bavail * uint64 Bsize) <? minAvailableFSBytes)%Z
  | Err _ => false
  end.

Definition is_Statfs (ev : Event) : bool :=
  match ev with
  | EvStatfs _ => true
  | _ => false
  end.

(** The same collaborators, with another answer about the free space. *)
Definition with_Statfs (statfs : string -> result error (Z * Z)) (env : Env)
  : Env :=
  {| json_Unmarshal := json_Unmarshal env;
     GetBackupByID_fails := GetBackupByID_fails env;
     unix_Statfs := statfs;
     GetAdminDatabaseDriver_fails := GetAdminDatabaseDriver_fails env;
     os_Create_fails := os_Create_fails env;
     driver_Dump := driver_Dump env;
     UploadObject_fails := UploadObject_fails env;
     PatchBackup_fails := PatchBackup_fails env |}.


(** The file of a call that creates or fills a local file. *)
Definition written_file (ev : Event) : option string :=
  match ev with
  | EvCreate path => Some path
  | EvDump _ path => Some path
  | _ => None
  end.

(** *** Sample runs *)

(** The payload of a backup task: a JSON document with the id of the
    backup, here 7. *)
Definition sample_payload : string :=
  "{" +:+ String double_quote
            ("BackupID" +:+ String double_quote ":7}").

Definition sample_Unmarshal (payload : string) : result error Z :=
  if String.eqb payload sample_payload then Ok 7
  else Err (errors_New "invalid character").

Definition sample_dump : string := "CREATE TABLE orders (id INT);".

(** Collaborators that report [blocks] free blocks of 4096 bytes, whose
    driver writes [written] and answers [dumped], and whose upload fails
    as [upload_fails] says; nothing else fails. *)
Definition sample_env (blocks : Z) (written : string)
  (dumped : result error string) (upload_fails : option error) : Env :=
  {| json_Unmarshal := sample_Unmarshal;
     GetBackupByID_fails := None;
     unix_Statfs := fun _ => Ok (blocks, 4096);
     GetAdminDatabaseDriver_fails := None;
     os_Create_fails := None;
     driver_Dump := fun _ => (written, dumped);
     UploadObject_fails := upload_fails;
     PatchBackup_fails := None |}.

(** 4000 MiB free, and everything works. *)
Definition healthy_env : Env :=
  sample_env 1024000 sample_dump (Ok "binlog.000007") None.

(** 100 MiB free. *)
Definition low_space_env : Env :=
  sample_env 25600 sample_dump (Ok "binlog.000007") None.



Definition sample_profile : Profile := {| DataDir := "/var/opt/bytebase" |}.

Definition sample_task : Task :=
  {| Task_Payload := sample_payload;
     Task_Instance := {| Instance_Name := "prod" |};
     Task_Database := {| Database_Name := "shop" |} |}.

(** The backup 7 of database 3, named nightly. *)
Definition sample_backup (backend path : string) : Backup :=
  {| Backup_ID := 7;
     Backup_DatabaseID := 3;
     Backup_Name := "nightly";
     Backup_Status := "PENDING";
     Backup_StorageBackend := backend;
     Backup_Path := path;
     Backup_Comment := EmptyString;
     Backup_Payload := EmptyString;
     Backup_UpdaterID := 101 |}.

Definition local_backup : Backup :=
  sample_backup "LOCAL" "backup/db/3/nightly.sql".

Definition s3_backup : Backup :=
  sample_backup "S3" "backup/db/3/nightly.sql".

(** A LOCAL backup whose path is not the one of the layout. *)
Definition adhoc_backup : Backup :=
  sample_backup "LOCAL" "adhoc/nightly.sql".

(** A world with no file, no object and this one backup in the store. *)
Definition world_with (backup : Backup) : World :=
  {| files := ∅; backups := [backup]; objects := ∅; trace := [] |}.

End Server.

(** ** store/pipeline.go *)
Module Store.
Import Go.

(** *** Data of packages [api] and [bytebase] used by the service *)

(** [api.Pipeline]. *)
Record Pipeline : Type := {
  Pipeline_ID : Z;
  Pipeline_CreatorId : Z;
  Pipeline_CreatedTs : Z;
  Pipeline_UpdaterId : Z;
  Pipeline_UpdatedTs : Z;
  Pipeline_Name : string;
  Pipeline_Status : string
}.

Record PipelineCreate : Type := {
  PipelineCreate_CreatorId : Z;
  PipelineCreate_Name : string
}.

(** [api.PipelineFind]: the pointer fields are options. *)
Record PipelineFind : Type := {
  PipelineFind_ID : option Z;
  PipelineFind_Status : option string
}.

Record PipelinePatch : Type := {
  PipelinePatch_ID : Z;
  PipelinePatch_UpdaterId : Z;
  PipelinePatch_Status : option string
}.

(** The codes of [bytebase.Error] that the service sets. *)
Inductive ErrorCode : Type :=
| ENOTFOUND
| ECONFLICT.

(** An error is a [bytebase.Error] or an error that comes from a
    collaborator ([database/sql], the cache). *)
Inductive error : Type :=
| bytebase_Error (Code : ErrorCode) (Message : string)
| external_error (text : string).

(** *** The SQL statements of the service and their meaning *)

Inductive Condition : Type :=
| always_true                      (* 1 = 1 *)
| id_is (v : Z)                    (* id = ? *)
| status_is (v : string).          (* `status` = ? *)

Inductive Assignment : Type :=
| set_updater_id (v : Z)           (* updater_id = ? *)
| set_status (v : string).         (* status = ? *)

Inductive Statement : Type :=
| INSERT_pipeline (creator_id updater_id : Z) (name : string)
| SELECT_pipeline (where_ : list Condition)
| UPDATE_pipeline (set : list Assignment) (id : Z).

Definition holds (c : Condition) (row : Pipeline) : bool :=
  match c with
  | always_true => true
  | id_is v => (Pipeline_ID row =? v)%Z
  | status_is v => String.eqb (Pipeline_Status row) v
  end.

Definition assign (row : Pipeline) (a : Assignment) : Pipeline :=
  match a with
  | set_updater_id v =>
      {| Pipeline_ID := Pipeline_ID row;
         Pipeline_CreatorId := Pipeline_CreatorId row;
         Pipeline_CreatedTs := Pipeline_CreatedTs row;
         Pipeline_UpdaterId := v;
         Pipeline_UpdatedTs := Pipeline_UpdatedTs row;
         Pipeline_Name := Pipeline_Name row;
         Pipeline_Status := Pipeline_Status row |}
  | set_status v =>
      {| Pipeline_ID := Pipeline_ID row;
         Pipeline_CreatorId := Pipeline_CreatorId row;
         Pipeline_CreatedTs := Pipeline_CreatedTs row;
         Pipeline_UpdaterId := Pipeline_UpdaterId row;
         Pipeline_UpdatedTs := Pipeline_UpdatedTs row;
         Pipeline_Name := Pipeline_Name row;
         Pipeline_Status := v |}
  end.

(** The rows a statement returns and the table it leaves.  A new row
    gets the id and the time stamps the engine picks, [new_id] and [now].
    An update touches the columns it names in the rows it selects. *)
Definition run_statement (new_id now : Z) (stmt : Statement)
  (table : list Pipeline) : list Pipeline * list Pipeline :=
  match stmt with
  | INSERT_pipeline creator_id updater_id name =>
      let row := {| Pipeline_ID := new_id;
                    Pipeline_CreatorId := creator_id;
                    Pipeline_CreatedTs := now;
                    Pipeline_UpdaterId := updater_id;
                    Pipeline_UpdatedTs := now;
                    Pipeline_Name := name;
                    Pipeline_Status := "OPEN" |} in
      ([row], table ++ [row])
  | SELECT_pipeline where_ =>
      (List.filter (fun row => forallb (fun c => holds c row) where_) table,
       table)
  | UPDATE_pipeline set id =>
      let updated row :=
        if (Pipeline_ID row =? id)%Z then fold_left assign set row
        else row in
      (List.map updated
         (List.filter (fun row => (Pipeline_ID row =? id)%Z) table),
       List.map updated table)
  end.

(** *** The world of the service *)

Inductive Event : Type :=
| EvBeginTx
| EvQuery (stmt : Statement)
| EvCommit
| EvRollback
| EvFindCache (id : Z)
| EvUpsertCache (id : Z) (pipeline : Pipeline).

Record State : Type := {
  db : list Pipeline;              (* the committed rows of table pipeline *)
  cache : gmap Z Pipeline;         (* the pipeline entries of the cache *)
  trace : list Event               (* calls made so far, oldest first *)
}.

(** What the collaborators answer during one call of the service. *)
Record Env : Type := {
  BeginTx_fails : option error;
  QueryContext_fails : option error;
  Scan_fails : option error;       (* a row cannot be scanned *)
  rows_Err : option error;         (* the iteration over the rows failed *)
  Commit_fails : option error;
  FindCache_fails : option error;
  UpsertCache_fails : option error;
  new_id : Z;                      (* the id the engine gives a new row *)
  now : Z                          (* the time stamp it gives a new row *)
}.

Definition emit (ev : Event) (s : State) : State :=
  {| db := db s; cache := cache s; trace := trace s ++ [ev] |}.

Definition set_db (rows : list Pipeline) (s : State) : State :=
  {| db := rows; cache := cache s; trace := trace s |}.

Definition set_cache (c : gmap Z Pipeline) (s : State) : State :=
  {| db := db s; cache := c; trace := trace s |}.

(** A transaction: the table as the transaction sees it. *)
Definition Tx : Type := list Pipeline.

(** [db.BeginTx]. *)
Definition BeginTx (env : Env) (s : State) : result error Tx * State :=
  let s := emit EvBeginTx s in
  match BeginTx_fails env with
  | Some err => (Err err, s)
  | None => (Ok (db s), s)
  end.

(** [tx.QueryContext]: the rows returned, and the transaction after. *)
Definition QueryContext (env : Env) (tx : Tx) (stmt : Statement) (s : State)
  : result error (list Pipeline) * Tx * State :=
  let s := emit (EvQuery stmt) s in
  match QueryContext_fails env with
  | Some err => (Err err, tx, s)
  | None =>
      let '(rows, tx) := run_statement (new_id env) (now env) stmt tx in
      (Ok rows, tx, s)
  end.

(** [tx.Commit]: what the transaction sees becomes the committed table. *)
Definition Commit (env : Env) (tx : Tx) (s : State) : option error * State :=
  let s := emit EvCommit s in
  match Commit_fails env with
  | Some err => (Some err, s)
  | None => (None, set_db tx s)
  end.

(** The deferred [tx.Rollback]: the transaction is dropped, the committed
    table stays as it is (after a commit there is nothing left to drop). *)
Definition Rollback (s : State) : State := emit EvRollback s.

(** Modelled from the spec: [api.CacheService], which is not among the
    sources.  The cache is a key/value cache keyed by entity type and id;
    these are its entries of type pipeline.  [FindCache] tells whether
    there is an entry and reads it. *)
Definition FindCache (env : Env) (id : Z) (s : State)
  : result error (option Pipeline) * State :=
  let s := emit (EvFindCache id) s in
  match FindCache_fails env with
  | Some err => (Err err, s)
  | None => (Ok (cache s !! id), s)
  end.

(** Modelled from the spec: [api.CacheService], which is not among the
    sources.  [UpsertCache] puts the entity under its id. *)
Definition UpsertCache (env : Env) (id : Z) (pipeline : Pipeline) (s : State)
  : option error * State :=
  let s := emit (EvUpsertCache id pipeline) s in
  match UpsertCache_fails env with
  | Some err => (Some err, s)
  | None => (None, set_cache (<[id := pipeline]> (cache s)) s)
  end.

(** *** The service *)

Section PipelineService.

(** [FormatError] of package [store] is not among the sources: it is a
    parameter.  So is the rendering of a filter with the verb [%+v],
    which prints the addresses its pointers hold. *)
Variable FormatError : error -> error.
Variable fmt_plus_v : PipelineFind -> string.
Variable env : Env.

(** [row.Scan] on the first row of a result. *)
Definition Scan (rows : list Pipeline) : result error Pipeline :=
  match Scan_fails env with
  | Some err => Err err
  | None =>
      match rows with
      | row :: _ => Ok row
      | [] => Err (external_error "sql: Rows are closed")
      end
  end.

(** createPipeline creates a new pipeline. *)
Definition createPipeline (tx : Tx) (create : PipelineCreate) (s : State)
  : result error Pipeline * Tx * State :=
  match QueryContext env tx
          (INSERT_pipeline (PipelineCreate_CreatorId create)
                           (PipelineCreate_CreatorId create)
                           (PipelineCreate_Name create)) s with
  | (Err err, tx, s) => (Err (FormatError err), tx, s)
  | (Ok row, tx, s) =>
      match Scan row with
      | Err err => (Err (FormatError err), tx, s)
      | Ok pipeline => (Ok pipeline, tx, s)
      end
  end.

(** The loop [for rows.Next()] of findPipelineList: scan each row and
    append it to the list. *)
Fixpoint scan_rows (rows : list Pipeline) (scanned : list Pipeline)
  : result error (list Pipeline) :=
  match rows with
  | [] => Ok scanned
  | row :: rest =>
      match Scan_fails env with
      | Some err => Err (FormatError err)
      | None => scan_rows rest (scanned ++ [row])
      end
  end.

(** The WHERE clause that findPipelineList builds. *)
Definition where_clause (find : PipelineFind) : list Condition :=
  let where_ := [always_true] in
  let where_ := match PipelineFind_ID find with
                | Some v => where_ ++ [id_is v]
                | None => where_
                end in
  match PipelineFind_Status find with
  | Some v => where_ ++ [status_is v]
  | None => where_
  end.

Definition findPipelineList (tx : Tx) (find : PipelineFind) (s : State)
  : result error (list Pipeline) * Tx * State :=
  match QueryContext env tx (SELECT_pipeline (where_clause find)) s with
  | (Err err, tx, s) => (Err (FormatError err), tx, s)
  | (Ok rows, tx, s) =>
      match scan_rows rows [] with
      | Err err => (Err err, tx, s)
      | Ok list =>
          match rows_Err env with
          | Some err => (Err (FormatError err), tx, s)
          | None => (Ok list, tx, s)
          end
      end
  end.

(** The SET clause that patchPipeline builds. *)
Definition set_clause (patch : PipelinePatch) : list Assignment :=
  let set := [set_updater_id (PipelinePatch_UpdaterId patch)] in
  match PipelinePatch_Status patch with
  | Some v => set ++ [set_status v]
  | None => set
  end.

(** patchPipeline updates a pipeline by ID. Returns the new state of the
    pipeline after update. *)
Definition patchPipeline (tx : Tx) (patch : PipelinePatch) (s : State)
  : result error Pipeline * Tx * State :=
  match QueryContext env tx
          (UPDATE_pipeline (set_clause patch) (PipelinePatch_ID patch)) s with
  | (Err err, tx, s) => (Err (FormatError err), tx, s)
  | (Ok row, tx, s) =>
      match row with
      | _ :: _ =>
          match Scan row with
          | Err err => (Err (FormatError err), tx, s)
          | Ok pipeline => (Ok pipeline, tx, s)
          end
      | [] =>
          (Err (bytebase_Error ENOTFOUND
                  ("pipeline ID not found: "
                     +:+ fmt_d (PipelinePatch_ID patch))), tx, s)
      end
  end.

(** CreatePipeline creates a new pipeline. *)
Definition CreatePipeline (create : PipelineCreate) (s : State)
  : result error Pipeline * State :=
  match BeginTx env s with
  | (Err err, s) => (Err (FormatError err), s)
  | (Ok tx, s) =>
      match createPipeline tx create s with
      | (Err err, _, s) => (Err err, Rollback s)
      | (Ok pipeline, tx, s) =>
          match Commit env tx s with
          | (Some err, s) => (Err (FormatError err), Rollback s)
          | (None, s) =>
              match UpsertCache env (Pipeline_ID pipeline) pipeline s with
              | (Some err, s) => (Err err, Rollback s)
              | (None, s) => (Ok pipeline, Rollback s)
              end
          end
      end
  end.

(** The loop of FindPipelineList that refreshes the cache per row. *)
Fixpoint upsert_each (list : list Pipeline) (s : State)
  : option error * State :=
  match list with
  | [] => (None, s)
  | pipeline :: rest =>
      match UpsertCache env (Pipeline_ID pipeline) pipeline s with
      | (Some err, s) => (Some err, s)
      | (None, s) => upsert_each rest s
      end
  end.

(** FindPipelineList retrieves a list of pipelines based on find. *)
Definition FindPipelineList (find : PipelineFind) (s : State)
  : result error (list Pipeline) * State :=
  match BeginTx env s with
  | (Err err, s) => (Err (FormatError err), s)
  | (Ok tx, s) =>
      match findPipelineList tx find s with
      | (Err err, _, s) => (Err err, Rollback s)
      | (Ok list, _, s) =>
          match upsert_each list s with
          | (Some err, s) => (Err err, Rollback s)
          | (None, s) => (Ok list, Rollback s)
          end
      end
  end.

(** [FindPipeline] from [BeginTx] on (after the probe of the cache). *)
Definition FindPipeline_store (find : PipelineFind) (s : State)
  : result error Pipeline * State :=
  match BeginTx env s with
  | (Err err, s) => (Err (FormatError err), s)
  | (Ok tx, s) =>
      match findPipelineList tx find s with
      | (Err err, _, s) => (Err err, Rollback s)
      | (Ok list, _, s) =>
          match list with
          | [] =>
              (Err (bytebase_Error ENOTFOUND
                      ("pipeline not found: " +:+ fmt_plus_v find)),
               Rollback s)
          | first :: others =>
              match others with
              | _ :: _ =>
                  (Err (bytebase_Error ECONFLICT
                          ("found "
                             +:+ fmt_d (Z.of_nat (List.length list))
                             +:+ " pipelines with filter "
                             +:+ fmt_plus_v find +:+ ", expect 1")),
                   Rollback s)
              | [] =>
                  match UpsertCache env (Pipeline_ID first) first s with
                  | (Some err, s) => (Err err, Rollback s)
                  | (None, s) => (Ok first, Rollback s)
                  end
              end
          end
      end
  end.

(** FindPipeline retrieves a single pipeline based on find.
    Returns ENOTFOUND if no matching record.
    Returns ECONFLICT if finding more than 1 matching records. *)
Definition FindPipeline (find : PipelineFind) (s : State)
  : result error Pipeline * State :=
  match PipelineFind_ID find with
  | Some id =>
      match FindCache env id s with
      | (Err err, s) => (Err err, s)
      | (Ok (Some pipeline), s) => (Ok pipeline, s)
      | (Ok None, s) => FindPipeline_store find s
      end
  | None => FindPipeline_store find s
  end.

(** PatchPipeline updates an existing pipeline by ID.
    Returns ENOTFOUND if pipeline does not exist. *)
Definition PatchPipeline (patch : PipelinePatch) (s : State)
  : result error Pipeline * State :=
  match BeginTx env s with
  | (Err err, s) => (Err (FormatError err), s)
  | (Ok tx, s) =>
      match patchPipeline tx patch s with
      | (Err err, _, s) => (Err (FormatError err), Rollback s)
      | (Ok pipeline, tx, s) =>
          match Commit env tx s with
          | (Some err, s) => (Err (FormatError err), Rollback s)
          | (None, s) =>
              match UpsertCache env (Pipeline_ID pipeline) pipeline s with
              | (Some err, s) => (Err err, Rollback s)
              | (None, s) => (Ok pipeline, Rollback s)
              end
          end
      end
  end.

End PipelineService.

(** The calls made between the state [s] and the later state [s']. *)
Definition events_of (s s' : State) : list Event :=
  drop (List.length (trace s)) (trace s').

(** The rows of the committed table that a filter selects. *)
Definition selected (find : PipelineFind) (s : State) : list Pipeline :=
  List.filter (fun row => forallb (fun c => holds c row) (where_clause find))
              (db s).

(** The probe of the cache does not answer the lookup: the filter has no
    id, or the cache has no entry for the id. *)
Definition goes_to_store (env : Env) (find : PipelineFind) (s : State)
  : Prop :=
  match PipelineFind_ID find with
  | Some id => FindCache_fails env = None /\ cache s !! id = None
  | None => True
  end.

Definition is_FindCache (ev : Event) : bool :=
  match ev with
  | EvFindCache _ => true
  | _ => false
  end.


(** *** Sample calls *)

(** A [FormatError] that leaves every error as it is. *)
Definition sample_FormatError (err : error) : error := err.

(** What [%+v] prints for a filter by status alone. *)
Definition sample_fmt_plus_v (find : PipelineFind) : string :=
  "&{ID:<nil> Status:0xc00021e0f0}".

(** Nothing fails; a new row gets the id 1. *)
Definition healthy_env : Env :=
  {| BeginTx_fails := None;
     QueryContext_fails := None;
     Scan_fails := None;
     rows_Err := None;
     Commit_fails := None;
     FindCache_fails := None;
     UpsertCache_fails := None;
     new_id := 1;
     now := 1700000000 |}.

Definition sample_pipeline (id : Z) (status : string) : Pipeline :=
  {| Pipeline_ID := id;
     Pipeline_CreatorId := 101;
     Pipeline_CreatedTs := 1600000000;
     Pipeline_UpdaterId := 101;
     Pipeline_UpdatedTs := 1600000000;
     Pipeline_Name := "Add column";
     Pipeline_Status := status |}.

(** A state with these rows in the table and nothing in the cache. *)
Definition state_with (rows : list Pipeline) : State :=
  {| db := rows; cache := ∅; trace := [] |}.

Definition by_status (v : string) : PipelineFind :=
  {| PipelineFind_ID := None; PipelineFind_Status := Some v |}.

Definition by_id (id : Z) : PipelineFind :=
  {| PipelineFind_ID := Some id; PipelineFind_Status := None |}.

Definition sample_create : PipelineCreate :=
  {| PipelineCreate_CreatorId := 101; PipelineCreate_Name := "Add column" |}.

Definition sample_patch : PipelinePatch :=
  {| PipelinePatch_ID := 1;
     PipelinePatch_UpdaterId := 102;
     PipelinePatch_Status := Some "DONE" |}.

End Store.

(** ** Notions used to state the layout of the backup files *)
Module Paths.
Import Go.

(** The string has no path separator. *)
Fixpoint slash_free (s : string) : bool :=
  match s with
  | EmptyString => true
  | String c rest => negb (Ascii.eqb c "/"%char) && slash_free rest
  end.

(** A path element that [filepath.Clean] keeps as it is: it has no
    separator and is none of the empty string, [.] and [..]. *)
Definition plain_element (e : string) : bool :=
  slash_free e && negb (String.eqb e EmptyString)
    && negb (String.eqb e ".") && negb (String.eqb e "..").

(** The string is made of decimal digits and dashes. *)
Fixpoint decimal (s : string) : bool :=
  match s with
  | EmptyString => true
  | String c rest =>
      (Ascii.eqb c "-"%char
       || (48 <=? N_of_ascii c)%N && (N_of_ascii c <=? 57)%N)
      && decimal rest
  end.

End Paths.

(** ** Notions and sample data for the backup runs *)
Module ServerNotions.
Import Go Server.

Definition is_PatchBackup (ev : Event) : bool :=
  match ev with
  | EvPatchBackup _ => true
  | _ => false
  end.

Definition is_GetAdminDatabaseDriver (ev : Event) : bool :=
  match ev with
  | EvGetAdminDatabaseDriver _ _ => true
  | _ => false
  end.

Definition is_DriverClose (ev : Event) : bool :=
  match ev with
  | EvDriverClose => true
  | _ => false
  end.

(** A call that neither asks for the driver nor patches the store. *)
Definition quiet (ev : Event) : bool :=
  negb (is_PatchBackup ev) && negb (is_GetAdminDatabaseDriver ev).

(** A backup on a backend that the executor does not know. *)
Definition gcs_backup : Backup :=
  sample_backup "GCS" "backup/db/3/nightly.sql".


(** 4000 MiB free; the store refuses the patch. *)
Definition patch_fails_env : Env :=
  {| json_Unmarshal := sample_Unmarshal;
     GetBackupByID_fails := None;
     unix_Statfs := fun _ => Ok (1024000, 4096);
     GetAdminDatabaseDriver_fails := None;
     os_Create_fails := None;
     driver_Dump := fun _ => (sample_dump, Ok "binlog.000007");
     UploadObject_fails := None;
     PatchBackup_fails := Some (errors_New "database is locked") |}.

(** The backup 8 of database 3, done the night before. *)
Definition older_backup : Backup :=
  {| Backup_ID := 8;
     Backup_DatabaseID := 3;
     Backup_Name := "last-night";
     Backup_Status := "DONE";
     Backup_StorageBackend := "LOCAL";
     Backup_Path := "backup/db/3/last-night.sql";
     Backup_Comment := EmptyString;
     Backup_Payload := "binlog.000006";
     Backup_UpdaterID := 1 |}.

(** A world with the dump of the older backup on disk and both backups in
    the store. *)
Definition world_with_older (backup : Backup) : World :=
  {| files :=
       {["/var/opt/bytebase/backup/db/3/last-night.sql" := sample_dump]};
     backups := [older_backup; backup];
     objects := ∅;
     trace := [] |}.

End ServerNotions.

(** ** Notions and sample data for the pipeline service *)
Module StoreNotions.
Import Go Store.

(** The filter admits the row: each field that the filter sets is the
    field of the row. *)
Definition admits (find : PipelineFind) (row : Pipeline) : bool :=
  match PipelineFind_ID find with
  | Some v => (Pipeline_ID row =? v)%Z
  | None => true
  end
  && match PipelineFind_Status find with
     | Some v => String.eqb (Pipeline_Status row) v
     | None => true
     end.

(** No two rows of the table have the same id. *)
Definition unique_ids (rows : list Pipeline) : Prop :=
  NoDup (List.map Pipeline_ID rows).

(** Every entry of the cache is a row of the committed table, kept under
    the id of the row. *)
Definition coherent (s : State) : Prop :=
  forall id pipeline,
    cache s !! id = Some pipeline ->
    Pipeline_ID pipeline = id /\ In pipeline (db s).

(** The cache after the rows of a list have been put into it in turn. *)
Definition cache_with (rows : list Pipeline) (c : gmap Z Pipeline)
  : gmap Z Pipeline :=
  fold_left (fun c row => <[Pipeline_ID row := row]> c) rows c.

Definition upserts (rows : list Pipeline) : list Event :=
  List.map (fun row => EvUpsertCache (Pipeline_ID row) row) rows.

(** The cache refuses every upsert; nothing else fails. *)
Definition cache_fails_env : Env :=
  {| BeginTx_fails := None;
     QueryContext_fails := None;
     Scan_fails := None;
     rows_Err := None;
     Commit_fails := None;
     FindCache_fails := None;
     UpsertCache_fails := Some (external_error "cache: entry too large");
     new_id := 2;
     now := 1700000000 |}.

End StoreNotions.

(** ** The ClickHouse driver: the part of store/pipeline.go after the service *)
Module ClickHouse.
Import Go.

(** *** Metadata of package [storepb] that the driver fills *)

(** The default of a column: none, a value, or the null default. *)
Inductive DefaultValue : Type :=
| no_default
| ColumnMetadata_Default (Default : string)
| ColumnMetadata_DefaultNull.

Record ColumnMetadata : Type := {
  Column_Name : string;
  Column_Position : Z;
  Column_DefaultValue : DefaultValue;
  Column_Nullable : bool;
  Column_Type : string;
  Column_CharacterSet : string;
  Column_Collation : string;
  Column_Comment : string
}.

Record TableMetadata : Type := {
  Table_Name : string;
  Table_Columns : list ColumnMetadata;
  Table_Engine : string;
  Table_RowCount : Z;
  Table_DataSize : Z;
  Table_Comment : string
}.

Record ViewMetadata : Type := {
  View_Name : string;
  View_Definition : string;
  View_Comment : string
}.

Record SchemaMetadata : Type := {
  Schema_Name : string;
  Schema_Tables : list TableMetadata;
  Schema_Views : list ViewMetadata
}.

Record DatabaseSchemaMetadata : Type := {
  Database_Name : string;
  Database_Schemas : list SchemaMetadata
}.

(** *** The rows of the two queries of SyncDBSchema *)

(** A row of the query on [information_schema.COLUMNS], in the order of
    the selected columns; the default is a [sql.NullString]. *)
Record ColumnRow : Type := {
  row_tableName : string;
  row_columnName : string;
  row_position : Z;
  row_defaultStr : option string;
  row_nullable : string;
  row_type : string;
  row_characterSet : string;
  row_collation : string;
  row_comment : string
}.

(** A row of the query on [system.tables]. *)
Record TableRow : Type := {
  row_name : string;
  row_engine : string;
  row_rowCount : Z;
  row_totalBytes : Z;
  row_lastUpdatedTime : Z;
  row_definition : string;
  row_tableComment : string
}.

(** The two queries, told apart by name; their text is in the source. *)
Inductive Query : Type :=
| columnQuery
| tableQuery.

(** What the database answers during one call. *)
Record Env : Type := {
  (* the rows of the query on the columns, or the error of the query *)
  column_rows : result error (list ColumnRow);
  (* a row of the columns that cannot be scanned *)
  column_Scan_fails : ColumnRow -> option error;
  (* the iteration over the rows of the columns failed *)
  column_rows_Err : option error;
  table_rows : result error (list TableRow);
  table_Scan_fails : TableRow -> option error;
  table_rows_Err : option error
}.

Section Driver.

(** [util.ConvertYesNo] and [util.FormatErrorWithQuery] of package
    [util] are not among the sources: they are parameters.
    [databaseName] is the field of the driver. *)
Variable ConvertYesNo : string -> result error bool.
Variable FormatErrorWithQuery : error -> Query -> error.
Variable databaseName : string.
Variable env : Env.

(** The column that one round of the first loop makes of a row. *)
Definition column_of_row (row : ColumnRow) (nullableBool : bool)
  : ColumnMetadata :=
  {| Column_Name := row_columnName row;
     Column_Position := row_position row;
     Column_DefaultValue :=
       match row_defaultStr row with
       | Some v => ColumnMetadata_Default v
       | None =>
           if nullableBool then ColumnMetadata_DefaultNull else no_default
       end;
     Column_Nullable := nullableBool;
     Column_Type := row_type row;
     Column_CharacterSet := row_characterSet row;
     Column_Collation := row_collation row;
     Column_Comment := row_comment row |}.

(** The first loop of SyncDBSchema: tableName -> columnList map. *)
Fixpoint scan_columns (rows : list ColumnRow)
  (columnMap : gmap string (list ColumnMetadata))
  : result error (gmap string (list ColumnMetadata)) :=
  match rows with
  | [] => Ok columnMap
  | row :: rest =>
      match column_Scan_fails env row with
      | Some err => Err err
      | None =>
          match ConvertYesNo (row_nullable row) with
          | Err err => Err err
          | Ok nullableBool =>
              let column := column_of_row row nullableBool in
              scan_columns rest
                (<[row_tableName row :=
                     default [] (columnMap !! row_tableName row) ++ [column]]>
                   columnMap)
          end
      end
  end.

(** The second loop of SyncDBSchema: a row is a table, or a view when its
    engine is View. *)
Fixpoint scan_tables (rows : list TableRow)
  (columnMap : gmap string (list ColumnMetadata))
  (schemaMetadata : SchemaMetadata) : result error SchemaMetadata :=
  match rows with
  | [] => Ok schemaMetadata
  | row :: rest =>
      match table_Scan_fails env row with
      | Some err => Err err
      | None =>
          if negb (String.eqb (row_engine row) "View")
          then
            scan_tables rest columnMap
              {| Schema_Name := Schema_Name schemaMetadata;
                 Schema_Tables :=
                   Schema_Tables schemaMetadata ++
                   [{| Table_Name := row_name row;
                       Table_Columns :=
                         default [] (columnMap !! row_name row);
                       Table_Engine := row_engine row;
                       Table_RowCount := row_rowCount row;
                       Table_DataSize := row_totalBytes row;
                       Table_Comment := row_tableComment row |}];
                 Schema_Views := Schema_Views schemaMetadata |}
          else
            scan_tables rest columnMap
              {| Schema_Name := Schema_Name schemaMetadata;
                 Schema_Tables := Schema_Tables schemaMetadata;
                 Schema_Views :=
                   Schema_Views schemaMetadata ++
                   [{| View_Name := row_name row;
                       View_Definition := row_definition row;
                       View_Comment := row_tableComment row |}] |}
      end
  end.

(** SyncDBSchema syncs a single database schema. *)
Definition SyncDBSchema : result error DatabaseSchemaMetadata :=
  let schemaMetadata :=
    {| Schema_Name := EmptyString; Schema_Tables := []; Schema_Views := [] |} in
  match column_rows env with
  | Err err => Err (FormatErrorWithQuery err columnQuery)
  | Ok columnRows =>
      match scan_columns columnRows ∅ with
      | Err err => Err err
      | Ok columnMap =>
          match column_rows_Err env with
          | Some err => Err (FormatErrorWithQuery err columnQuery)
          | None =>
              match table_rows env with
              | Err err => Err (FormatErrorWithQuery err tableQuery)
              | Ok tableRows =>
                  match scan_tables tableRows columnMap schemaMetadata with
                  | Err err => Err err
                  | Ok schemaMetadata =>
                      match table_rows_Err env with
                      | Some err => Err (FormatErrorWithQuery err tableQuery)
                      | None =>
                          Ok {| Database_Name := databaseName;
                                Database_Schemas := [schemaMetadata] |}
                      end
                  end
              end
          end
      end
  end.

(** SyncSlowQuery syncs the slow query. *)
Definition SyncSlowQuery : result error unit :=
  Err (errors_New "not implemented").

(** CheckSlowQueryLogEnabled checks if slow query log is enabled. *)
Definition CheckSlowQueryLogEnabled : option error :=
  Some (errors_New "not implemented").

End Driver.

Definition is_view (row : TableRow) : bool := String.eqb (row_engine row) "View".

(** The columns that the rows of one table give, in the order of the
    rows, for a reading [nullable] of the YES/NO column. *)
Definition columns_of_table (nullable : string -> bool)
  (rows : list ColumnRow) (tableName : string) : list ColumnMetadata :=
  List.map (fun row => column_of_row row (nullable (row_nullable row)))
    (List.filter (fun row => String.eqb (row_tableName row) tableName) rows).

(** The reading of the YES/NO column that [ConvertYesNo] gives. *)
Definition reading (ConvertYesNo : string -> result error bool)
  (s : string) : bool :=
  match ConvertYesNo s with
  | Ok b => b
  | Err _ => false
  end.

(** *** Sample data *)

Definition sample_ConvertYesNo (s : string) : result error bool :=
  if String.eqb s "YES" then Ok true
  else if String.eqb s "NO" then Ok false
  else Err (errors_New ("unrecognized isNullable type " +:+ fmt_q s)).

Definition sample_FormatErrorWithQuery (err : error) (query : Query)
  : error :=
  errors_Wrap err "failed to execute query".

Definition sample_column (tableName columnName : string) (position : Z)
  (defaultStr : option string) (nullable : string) : ColumnRow :=
  {| row_tableName := tableName;
     row_columnName := columnName;
     row_position := position;
     row_defaultStr := defaultStr;
     row_nullable := nullable;
     row_type := "UInt64";
     row_characterSet := EmptyString;
     row_collation := EmptyString;
     row_comment := EmptyString |}.

Definition sample_table (name engine definition : string) : TableRow :=
  {| row_name := name;
     row_engine := engine;
     row_rowCount := 1200;
     row_totalBytes := 65536;
     row_lastUpdatedTime := 1700000000;
     row_definition := definition;
     row_tableComment := EmptyString |}.

(** A database with the table [orders] of two columns and the view
    [recent_orders]. *)
Definition sample_columns : list ColumnRow :=
  [sample_column "orders" "id" 1 None "NO";
   sample_column "orders" "note" 2 None "YES";
   sample_column "recent_orders" "id" 1 (Some "0") "NO"].

Definition sample_tables : list TableRow :=
  [sample_table "orders" "MergeTree" "CREATE TABLE shop.orders";
   sample_table "recent_orders" "View" "CREATE VIEW shop.recent_orders"].

Definition sample_env (columns : list ColumnRow) : Env :=
  {| column_rows := Ok columns;
     column_Scan_fails := fun _ => None;
     column_rows_Err := None;
     table_rows := Ok sample_tables;
     table_Scan_fails := fun _ => None;
     table_rows_Err := None |}.

End ClickHouse.

(** ** backend/plugin/advisor/pg/advisor_index_primary_key_type_allowlist.go *)
Module Advisor.
Import Go.

(** *** Data of packages [ast] and [advisor] used by the advisor *)

(** The kinds of constraint: the primary key, and the others. *)
Inductive ConstraintType : Type :=
| ConstraintTypePrimary
| ConstraintTypeOther (kind : nat).

Record ConstraintDef : Type := {
  Constraint_Type : ConstraintType;
  Constraint_KeyList : list string
}.

(** The status of an advice and the codes this advisor gives. *)
Inductive Status : Type :=
| Status_Success
| Status_Warn
| Status_Error.

Inductive Code : Type :=
| Code_Ok
| Code_IndexPKType.

Record Advice : Type := {
  Advice_Status : Status;
  Advice_Code : Code;
  Advice_Title : string;
  Advice_Content : string;
  Advice_Line : Z
}.

Section PrimaryKeyTypeAllowlist.

(** The data types of package [ast], their method [EquivalentType] and
    the deparser of package [parser] are not among the sources: they are
    parameters.  So are the two decoders of package [advisor], and the
    order in which [ast.Walk] hands the nodes of a statement to a visitor
    that never stops the walk. *)
Variable DataType : Type.
Variable EquivalentType : DataType -> string -> bool.
Variable Deparse : DataType -> result error string.
Variable NewStatusBySQLReviewRuleLevel : string -> result error Status.
Variable UnmarshalStringArrayTypeRulePayload
  : string -> result error (list string).

(** [ast.ColumnDef], with the value of its method [LastLine]. *)
Record ColumnDef : Type := {
  ColumnName : string;
  Column_Type : DataType;
  Column_ConstraintList : list ConstraintDef;
  Column_LastLine : Z
}.

Record CreateTableStmt : Type := {
  ColumnList : list ColumnDef;
  ConstraintList : list ConstraintDef
}.

(** A node is a CREATE TABLE statement or a node of another kind. *)
Inductive Node : Type :=
| Node_CreateTableStmt (node : CreateTableStmt)
| Node_other (text : string).

Variable Walk_nodes : Node -> list Node.

Record indexPrimaryKeyTypeAllowlistChecker : Type := {
  adviceList : list Advice;
  level : Status;
  title : string;
  allowlist : list string
}.

Fixpoint allowType (allowlist : list string) (columnType : DataType) : bool :=
  match allowlist with
  | [] => false
  | tp :: rest =>
      if EquivalentType columnType tp then true else allowType rest columnType
  end.

Fixpoint has_primary (constraints : list ConstraintDef) : bool :=
  match constraints with
  | [] => false
  | constraint :: rest =>
      match Constraint_Type constraint with
      | ConstraintTypePrimary => true
      | ConstraintTypeOther _ => has_primary rest
      end
  end.

Definition isPKColumn (column : ColumnDef) : bool :=
  has_primary (Column_ConstraintList column).

(** The first loop of Visit: the map from names to columns and the
    columns that are primary keys themselves. *)
Fixpoint collect_columns (columns : list ColumnDef)
  (columnMap : gmap string ColumnDef) (columnList : list ColumnDef)
  : gmap string ColumnDef * list ColumnDef :=
  match columns with
  | [] => (columnMap, columnList)
  | column :: rest =>
      let columnMap := <[ColumnName column := column]> columnMap in
      if isPKColumn column
      then collect_columns rest columnMap (columnList ++ [column])
      else collect_columns rest columnMap columnList
  end.

(** The keys of one primary key constraint of the table. *)
Fixpoint collect_keys (keys : list string) (columnMap : gmap string ColumnDef)
  (columnList : list ColumnDef) : list ColumnDef :=
  match keys with
  | [] => columnList
  | key :: rest =>
      match columnMap !! key with
      | Some column => collect_keys rest columnMap (columnList ++ [column])
      | None => collect_keys rest columnMap columnList
      end
  end.

(** The second loop of Visit, over the constraints of the table. *)
Fixpoint collect_constraints (constraints : list ConstraintDef)
  (columnMap : gmap string ColumnDef) (columnList : list ColumnDef)
  : list ColumnDef :=
  match constraints with
  | [] => columnList
  | constraint :: rest =>
      match Constraint_Type constraint with
      | ConstraintTypePrimary =>
          collect_constraints rest columnMap
            (collect_keys (Constraint_KeyList constraint) columnMap columnList)
      | ConstraintTypeOther _ =>
          collect_constraints rest columnMap columnList
      end
  end.

(** The content of an advice: the name of the column and the text of its
    type, each between double quotes. *)
Definition advice_content (columnName typeText : string) : string :=
  "The column " +:+ String double_quote columnName
    +:+ String double_quote " is one of the primary key, but its type "
    +:+ String double_quote typeText
    +:+ String double_quote " is not in allowlist".

(** The last loop of Visit (the warning logged when the type cannot be
    deparsed is left out). *)
Fixpoint check_columns (columnList : list ColumnDef)
  (checker : indexPrimaryKeyTypeAllowlistChecker)
  : indexPrimaryKeyTypeAllowlistChecker :=
  match columnList with
  | [] => checker
  | column :: rest =>
      if negb (allowType (allowlist checker) (Column_Type column))
      then
        let typeText :=
          match Deparse (Column_Type column) with
          | Ok typeText => typeText
          | Err _ => EmptyString
          end in
        check_columns rest
          {| adviceList :=
               adviceList checker ++
               [{| Advice_Status := level checker;
                   Advice_Code := Code_IndexPKType;
                   Advice_Title := title checker;
                   Advice_Content :=
                     advice_content (ColumnName column) typeText;
                   Advice_Line := Column_LastLine column |}];
             level := level checker;
             title := title checker;
             allowlist := allowlist checker |}
      else check_columns rest checker
  end.

(** Visit implements ast.Visitor interface. *)
Definition Visit (checker : indexPrimaryKeyTypeAllowlistChecker) (in_ : Node)
  : indexPrimaryKeyTypeAllowlistChecker :=
  let columnList :=
    match in_ with
    | Node_CreateTableStmt node =>
        let '(columnMap, columnList) :=
          collect_columns (ColumnList node) ∅ [] in
        collect_constraints (ConstraintList node) columnMap columnList
    | Node_other _ => []
    end in
  check_columns columnList checker.

(** [ast.Walk] with this checker, which never stops the walk. *)
Definition Walk (checker : indexPrimaryKeyTypeAllowlistChecker) (stmt : Node)
  : indexPrimaryKeyTypeAllowlistChecker :=
  fold_left Visit (Walk_nodes stmt) checker.

(** [advisor.Context]: the AST, when it is a list of nodes, and the rule. *)
Record Context : Type := {
  AST : option (list Node);
  Rule_Level : string;
  Rule_Payload : string;
  Rule_Type : string
}.

(** Check checks for primary key type allowlist. *)
Definition Check (ctx : Context) : result error (list Advice) :=
  match AST ctx with
  | None => Err (errors_New "failed to convert to Node")
  | Some stmtList =>
      match NewStatusBySQLReviewRuleLevel (Rule_Level ctx) with
      | Err err => Err err
      | Ok level =>
          match UnmarshalStringArrayTypeRulePayload (Rule_Payload ctx) with
          | Err err => Err err
          | Ok payload_List =>
              let checker :=
                {| adviceList := [];
                   level := level;
                   title := Rule_Type ctx;
                   allowlist := payload_List |} in
              let checker := fold_left Walk stmtList checker in
              match adviceList checker with
              | [] =>
                  Ok [{| Advice_Status := Status_Success;
                         Advice_Code := Code_Ok;
                         Advice_Title := "OK";
                         Advice_Content := EmptyString;
                         Advice_Line := 0 |}]
              | _ :: _ => Ok (adviceList checker)
              end
          end
      end
  end.

(** The columns that make the primary key of a table: those declared
    so themselves, then those named by the primary key constraints of the
    table. *)
Definition primary_key_columns (node : CreateTableStmt) : list ColumnDef :=
  let '(columnMap, columnList) := collect_columns (ColumnList node) ∅ [] in
  collect_constraints (ConstraintList node) columnMap columnList.

(** The advice that the checker gives for a column. *)
Definition advice_for (checker : indexPrimaryKeyTypeAllowlistChecker)
  (column : ColumnDef) : Advice :=
  {| Advice_Status := level checker;
     Advice_Code := Code_IndexPKType;
     Advice_Title := title checker;
     Advice_Content :=
       advice_content (ColumnName column)
         match Deparse (Column_Type column) with
         | Ok typeText => typeText
         | Err _ => EmptyString
         end;
     Advice_Line := Column_LastLine column |}.

(** The column that a key names: the last column of that name. *)
Definition column_named (columns : list ColumnDef) (key : string)
  : option ColumnDef :=
  last (List.filter (fun column => String.eqb (ColumnName column) key)
                    columns).

(** The columns that the keys of the primary key constraints name. *)
Definition constraint_columns (node : CreateTableStmt) : list ColumnDef :=
  flat_map
    (fun constraint =>
       match Constraint_Type constraint with
       | ConstraintTypePrimary =>
           omap (column_named (ColumnList node))
                (Constraint_KeyList constraint)
       | ConstraintTypeOther _ => []
       end)
    (ConstraintList node).

(** An advice of this advisor for a column, at a level and with a title. *)
Definition reported (level : Status) (title : string) (advice : Advice)
  : Prop :=
  Advice_Status advice = level /\
  Advice_Code advice = Code_IndexPKType /\
  Advice_Title advice = title.

(** The advice that says that there is nothing to report. *)
Definition advice_OK : Advice :=
  {| Advice_Status := Status_Success;
     Advice_Code := Code_Ok;
     Advice_Title := "OK";
     Advice_Content := EmptyString;
     Advice_Line := 0 |}.

End PrimaryKeyTypeAllowlist.

Arguments ColumnName {DataType} _.
Arguments Column_Type {DataType} _.
Arguments Column_ConstraintList {DataType} _.
Arguments Column_LastLine {DataType} _.
Arguments ColumnList {DataType} _.
Arguments ConstraintList {DataType} _.
Arguments Node_CreateTableStmt {DataType} _.
Arguments Node_other {DataType} _.
Arguments allowType {DataType} _ _ _.
Arguments isPKColumn {DataType} _.
Arguments collect_columns {DataType} _ _ _.
Arguments collect_keys {DataType} _ _ _.
Arguments collect_constraints {DataType} _ _ _.
Arguments check_columns {DataType} _ _ _ _.
Arguments Visit {DataType} _ _ _ _.
Arguments Walk {DataType} _ _ _ _ _.
Arguments AST {DataType} _.
Arguments Rule_Level {DataType} _.
Arguments Rule_Payload {DataType} _.
Arguments Rule_Type {DataType} _.
Arguments Check {DataType} _ _ _ _ _ _.
Arguments primary_key_columns {DataType} _.
Arguments advice_for {DataType} _ _ _.
Arguments column_named {DataType} _ _.
Arguments constraint_columns {DataType} _.

(** *** Sample data: data types by name *)

Definition sample_EquivalentType (columnType tp : string) : bool :=
  String.eqb columnType tp.

Definition sample_Deparse (columnType : string) : result error string :=
  Ok columnType.

Definition primary_key (keys : list string) : ConstraintDef :=
  {| Constraint_Type := ConstraintTypePrimary; Constraint_KeyList := keys |}.

(** [CREATE TABLE t (id text PRIMARY KEY, name text, PRIMARY KEY (id))]. *)
Definition sample_id : ColumnDef string :=
  {| ColumnName := "id";
     Column_Type := "text";
     Column_ConstraintList := [primary_key []];
     Column_LastLine := 1 |}.

Definition sample_name : ColumnDef string :=
  {| ColumnName := "name";
     Column_Type := "text";
     Column_ConstraintList := [];
     Column_LastLine := 2 |}.

Definition sample_stmt : CreateTableStmt string :=
  {| ColumnList := [sample_id; sample_name];
     ConstraintList := [primary_key ["id"]] |}.

(** A checker that allows the integer types. *)
Definition sample_checker : indexPrimaryKeyTypeAllowlistChecker :=
  {| adviceList := [];
     level := Status_Warn;
     title := "index.primary-key-type-allowlist";
     allowlist := ["int"; "bigint"] |}.

End Advisor.

(** ** The library functions on examples *)
Module GoExamples.
Import Go.

Example Clean_inner_dotdot : filepath_Clean "a//b/../c/." = "a/c".
Proof. reflexivity. Qed.

Example Clean_rooted_dotdot : filepath_Clean "/../a" = "/a".
Proof. reflexivity. Qed.

Example Clean_leading_dotdot : filepath_Clean "../../a/.." = "../..".
Proof. reflexivity. Qed.

Example Clean_empty : filepath_Clean EmptyString = ".".
Proof. reflexivity. Qed.

Example Clean_to_dot : filepath_Clean "a/.." = ".".
Proof. reflexivity. Qed.

Example Clean_root : filepath_Clean "//" = "/".
Proof. reflexivity. Qed.

Example Join_skips_empty :
  filepath_Join [EmptyString; "a"; EmptyString; "b/"] = "a/b".
Proof. reflexivity. Qed.

Example Join_all_empty : filepath_Join [EmptyString; EmptyString] = EmptyString.
Proof. reflexivity. Qed.

Example Dir_file : filepath_Dir "/data/backup/db/1/b.sql" = "/data/backup/db/1".
Proof. reflexivity. Qed.

Example Dir_no_separator : filepath_Dir "b.sql" = ".".
Proof. reflexivity. Qed.

Example Dir_root_file : filepath_Dir "/b.sql" = "/".
Proof. reflexivity. Qed.

Example fmt_d_negative : fmt_d (-42) = "-42".
Proof. reflexivity. Qed.

Example fmt_q_plain :
  fmt_q "db1" = String double_quote ("db1" +:+ String double_quote EmptyString).
Proof. reflexivity. Qed.

Example Error_of_wrap :
  Error (errors_Wrap (errors_New "disk full") "failed to dump") =
  "failed to dump: disk full".
Proof. reflexivity. Qed.

End GoExamples.

(** ** The layout of local backups on examples *)
Module LayoutExamples.
Import Go Server.

Example relative_dir_of_database_3 : getBackupRelativeDir 3 = "backup/db/3".
Proof. reflexivity. Qed.

Example relative_path_of_nightly :
  getBackupRelativeFilePath 3 "nightly" = "backup/db/3/nightly.sql".
Proof. reflexivity. Qed.

Example absolute_path_of_nightly :
  getBackupAbsFilePath "/var/opt/bytebase/" 3 "nightly"
  = "/var/opt/bytebase/backup/db/3/nightly.sql".
Proof. reflexivity. Qed.

Example threshold_in_MB : minAvailableFSBytes / 1024 / 1024 = 500.
Proof. reflexivity. Qed.

Example uint64_wraps : uint64 (2 ^ 64 + 5) = 5.
Proof. reflexivity. Qed.

End LayoutExamples.

(** ** Proof steps shared by the two developments *)

(** Case analysis on a scrutinee of the goal that has no match inside. *)
Ltac case_on x :=
  lazymatch x with
  | context [match ?y with _ => _ end] => case_on y
  | _ => destruct x eqn:?
  end.

Ltac case_step :=
  match goal with
  | |- context [match ?x with _ => _ end] => case_on x
  end.

(** An event of another kind is not in an explicit list of events. *)
Ltac not_in_events :=
  let H := fresh in
  intros H; apply list_elem_of_In in H; cbn [In] in H;
  repeat (destruct H as [H|H]; [discriminate H|]); exact H.

(** ** Properties of the backup executor *)
Module ServerFacts.
Import Go Server.


Lemma events_of_app (w w' : World) (evs : list Event) :
  trace w' = trace w ++ evs -> events_of w w' = evs.
Proof.
  intros H. unfold events_of. rewrite H. apply drop_app_length.
Qed.

Lemma backup_by_id_ID (id : Z) (w : World) (backup : Backup) :
  backup_by_id id w = Some backup -> Backup_ID backup = id.
Proof.
  unfold backup_by_id. intros H. apply find_some in H as [_ H].
  simpl in H. by apply Z.eqb_eq in H.
Qed.

Lemma find_patch_row (patch : BackupPatch) (bs : list Backup) (b : Backup) :
  List.find (fun b => (Backup_ID b =? BackupPatch_ID patch)%Z) bs = Some b ->
  List.find (fun b => (Backup_ID b =? BackupPatch_ID patch)%Z)
            (List.map (patch_row patch) bs) = Some (apply_patch patch b).
Proof.
  induction bs as [|x bs IH]; simpl; [discriminate|].
  unfold patch_row at 1.
  destruct (Backup_ID x =? BackupPatch_ID patch)%Z eqn:E.
  - intros [= ->]. simpl. rewrite E. unfold patch_row. by rewrite E.
  - rewrite E. exact IH.
Qed.

Section ExecutorFacts.

Variable SystemBotID : Z.
Variable env : Env.
Variable profile : Profile.



#[local] Opaque filepath_Join filepath_Dir fmt_q fmt_d String.append.

Ltac unfold_executor :=
  unfold RunOnce, RunOnce_backup, backupDatabase, dumpBackupFile,
    removeLocalBackupFile, getAvailableFSSpace, PatchBackup, GetBackupByID,
    UploadObject, Dump, os_Remove, os_Open, os_Create.

(** C2.  A LOCAL backup whose target directory has less than 500 MiB
    of available space: [RunOnce] returns [terminated = true] and an error,
    and all it has done by then is to read the Backup entity and to ask for
    the free space.  No file is created or written: the local files are
    what they were. *)
Theorem RunOnce_low_space_fails_before_any_write
  (task : Task) (w : World) (id : Z) (backup : Backup) (Bavail Bsize : Z) :
  json_Unmarshal env (Task_Payload task) = Ok id ->
  GetBackupByID_fails env = None ->
  backup_by_id id w = Some backup ->
  Backup_StorageBackend backup = BackupStorageBackendLocal ->
  unix_Statfs env (filepath_Dir (filepath_Join [DataDir profile;
                                                Backup_Path backup]))
    = Ok (Bavail, Bsize) ->
  uint64 (Bavail * uint64 Bsize) < minAvailableFSBytes ->
  let r := RunOnce SystemBotID env profile task w in
  terminated_of r = true /\
  result_of r = None /\
  err_of r =
    Some (errors_New
            ("the available file system space "
               +:+ fmt_d (uint64 (Bavail * uint64 Bsize) / 1024 / 1024)
               +:+ "MB is less than the minimal threshold "
               +:+ fmt_d (minAvailableFSBytes / 1024 / 1024) +:+ "MB")) /\
  files (snd r) = files w /\
  backups (snd r) = backups w /\
  objects (snd r) = objects w /\
  events_of w (snd r) =
    [EvGetBackupByID id;
     EvStatfs (filepath_Dir (filepath_Join [DataDir profile;
                                            Backup_Path backup]))].
Proof.
  intros Hjson Hget Hfind Hlocal Hstat Hlow r. subst r.
  unfold backup_by_id in Hfind.
  unfold RunOnce, GetBackupByID, getAvailableFSSpace.
  rewrite Hjson, Hget. cbn [emit backups]. rewrite Hfind, Hlocal.
  cbn [String.eqb BackupStorageBackendLocal Ascii.eqb Bool.eqb].
  rewrite Hstat.
  apply Z.ltb_lt in Hlow. rewrite Hlow.
  unfold terminated_of, result_of, err_of. cbn [fst snd files backups objects emit].
  repeat split.
  apply events_of_app. cbn [trace emit]. by rewrite <- app_assoc.
Qed.

(** From the backup on, [RunOnce] never asks for the free space. *)
Lemma RunOnce_backup_events (task : Task) (backup : Backup) (w : World) :
  exists evs,
    trace (snd (RunOnce_backup SystemBotID env profile task backup w))
      = trace w ++ evs /\
    forallb (fun ev => negb (is_Statfs ev)) evs = true.
Proof.
  unfold_executor.
  repeat (case_step; cbn [fst snd trace emit set_files set_backups set_objects]);
    rewrite <- ?app_assoc; eexists; (split; [reflexivity|reflexivity]).
Qed.

Lemma RunOnce_not_local (task : Task) (w : World) (id : Z) (backup : Backup) :
  json_Unmarshal env (Task_Payload task) = Ok id ->
  GetBackupByID_fails env = None ->
  backup_by_id id w = Some backup ->
  Backup_StorageBackend backup <> BackupStorageBackendLocal ->
  RunOnce SystemBotID env profile task w =
  RunOnce_backup SystemBotID env profile task backup
                 (emit (EvGetBackupByID id) w).
Proof.
  intros Hjson Hget Hfind Hbackend. unfold backup_by_id in Hfind.
  unfold RunOnce, GetBackupByID. rewrite Hjson, Hget.
  cbn [emit backups]. rewrite Hfind.
  apply String.eqb_neq in Hbackend. by rewrite Hbackend.
Qed.

(** C10.  The space check belongs to the LOCAL backend alone.  For any
    other backend the run makes no call for the free space, and its
    outcome is the same whatever the free space is; for LOCAL the call
    comes right after the Backup entity is read.  An S3 run whose driver
    is acquired goes straight on to create the local dump file. *)
Theorem RunOnce_checks_space_only_for_local
  (task : Task) (w : World) (id : Z) (backup : Backup) :
  json_Unmarshal env (Task_Payload task) = Ok id ->
  GetBackupByID_fails env = None ->
  backup_by_id id w = Some backup ->
  let r := RunOnce SystemBotID env profile task w in
  let local := filepath_Join [DataDir profile; Backup_Path backup] in
  (Backup_StorageBackend backup <> BackupStorageBackendLocal ->
     (forall path, EvStatfs path ∉ events_of w (snd r)) /\
     (forall statfs,
        RunOnce SystemBotID (with_Statfs statfs env) profile task w = r)) /\
  (Backup_StorageBackend backup = BackupStorageBackendLocal ->
     exists rest,
       events_of w (snd r) =
       [EvGetBackupByID id; EvStatfs (filepath_Dir local)] ++ rest) /\
  (Backup_StorageBackend backup = BackupStorageBackendS3 ->
     GetAdminDatabaseDriver_fails env = None ->
     exists rest,
       events_of w (snd r) =
       [EvGetBackupByID id;
        EvGetAdminDatabaseDriver (Instance_Name (Task_Instance task))
                                 (Database_Name (Task_Database task));
        EvCreate local] ++ rest).
Proof.
  intros Hjson Hget Hfind r local. subst r local.
  split; [|split].
  - intros Hbackend. split.
    + intros path.
      rewrite (RunOnce_not_local task w id backup) by done.
      destruct (RunOnce_backup_events task backup
                  (emit (EvGetBackupByID id) w)) as (evs & Htrace & Hevs).
      cbn [trace emit] in Htrace. rewrite <- app_assoc in Htrace.
      rewrite (events_of_app _ _ _ Htrace).
      intros Hin. apply elem_of_app in Hin as [Hin|Hin].
      * apply list_elem_of_singleton in Hin. discriminate.
      * apply list_elem_of_In in Hin.
        rewrite forallb_forall in Hevs. by apply Hevs in Hin.
    + intros statfs.
      rewrite (RunOnce_not_local task w id backup) by done.
      unfold RunOnce, GetBackupByID. cbn [with_Statfs json_Unmarshal GetBackupByID_fails].
      rewrite Hjson, Hget. unfold backup_by_id in Hfind.
      cbn [emit backups]. rewrite Hfind.
      apply String.eqb_neq in Hbackend. by rewrite Hbackend.
  - intros Hbackend. unfold backup_by_id in Hfind.
    unfold RunOnce, GetBackupByID, getAvailableFSSpace.
    rewrite Hjson, Hget. cbn [emit backups]. rewrite Hfind, Hbackend.
    cbn [String.eqb BackupStorageBackendLocal Ascii.eqb Bool.eqb].
    destruct (RunOnce_backup_events task backup
      (emit (EvStatfs (filepath_Dir (filepath_Join [DataDir profile;
                                                    Backup_Path backup])))
            (emit (EvGetBackupByID id) w))) as (evs & Htrace & _).
    cbn [trace emit] in Htrace. rewrite <- !app_assoc in Htrace.
    repeat case_step; cbn [snd];
      first [ exists evs; by apply events_of_app
            | exists []; apply events_of_app; cbn [trace emit];
              by rewrite <- app_assoc ].
  - intros Hbackend Hdriver.
    rewrite (RunOnce_not_local task w id backup) by (done || by rewrite Hbackend).
    unfold_executor. rewrite Hdriver, Hbackend.
    cbn [String.eqb BackupStorageBackendLocal BackupStorageBackendS3
           Ascii.eqb Bool.eqb].
    repeat (case_step;
            cbn [fst snd trace emit set_files set_backups set_objects]);
      eexists; apply events_of_app;
      cbn [trace emit set_files set_backups set_objects];
      rewrite <- ?app_assoc; reflexivity.
Qed.

(** What one call of [PatchBackup] does to the world. *)
Lemma PatchBackup_effect (patch : BackupPatch) (w : World) :
  let r := PatchBackup env patch w in
  files (snd r) = files w /\
  objects (snd r) = objects w /\
  trace (snd r) = trace w ++ [EvPatchBackup patch] /\
  (forall b,
     PatchBackup_fails env = None ->
     backup_by_id (BackupPatch_ID patch) w = Some b ->
     fst r = Ok (apply_patch patch b) /\
     backup_by_id (BackupPatch_ID patch) (snd r)
       = Some (apply_patch patch b)).
Proof.
  unfold PatchBackup, backup_by_id. cbn [emit backups].
  destruct (PatchBackup_fails env) as [err|]; cbn [fst snd].
  - do 3 (split; [done|]). intros b Hok. discriminate Hok.
  - destruct (find _ (backups w)) as [b0|] eqn:Hfind; cbn [fst snd].
    + do 3 (split; [done|]). intros b _ [= <-]. split; [done|].
      cbn [set_backups backups]. by apply find_patch_row.
    + do 3 (split; [done|]). intros b _ Hb. discriminate Hb.
Qed.



Lemma RunOnce_space_ok (task : Task) (w : World) (id : Z) (backup : Backup) :
  json_Unmarshal env (Task_Payload task) = Ok id ->
  GetBackupByID_fails env = None ->
  backup_by_id id w = Some backup ->
  Backup_StorageBackend backup = BackupStorageBackendLocal ->
  space_check_passes env profile backup = true ->
  RunOnce SystemBotID env profile task w =
  RunOnce_backup SystemBotID env profile task backup
    (emit (EvStatfs (filepath_Dir (filepath_Join [DataDir profile;
                                                  Backup_Path backup])))
          (emit (EvGetBackupByID id) w)).
Proof.
  intros Hjson Hget Hfind Hlocal Hspace. unfold backup_by_id in Hfind.
  unfold space_check_passes in Hspace.
  unfold RunOnce, GetBackupByID, getAvailableFSSpace.
  rewrite Hjson, Hget. cbn [emit backups]. rewrite Hfind, Hlocal.
  cbn [String.eqb BackupStorageBackendLocal Ascii.eqb Bool.eqb].
  destruct (unix_Statfs env _) as [[Bavail Bsize]|err]; [|discriminate].
  by destruct (_ <? _)%Z.
Qed.



(** C8, as the code has it.  The one local file a run creates and dumps
    into is the path of the Backup entity joined to the data directory.
    A run that gets its driver does create that file.  The file is the
    layout path [<dataDir>/backup/db/<databaseID>/<name>.sql] whenever the
    path of the backup is the relative layout path. *)
Theorem RunOnce_dumps_into_backup_path
  (task : Task) (w : World) (id : Z) (backup : Backup) :
  json_Unmarshal env (Task_Payload task) = Ok id ->
  GetBackupByID_fails env = None ->
  backup_by_id id w = Some backup ->
  let r := RunOnce SystemBotID env profile task w in
  let local := filepath_Join [DataDir profile; Backup_Path backup] in
  (forall ev path,
     ev ∈ events_of w (snd r) -> written_file ev = Some path ->
     path = local) /\
  ((Backup_StorageBackend backup = BackupStorageBackendLocal ->
    space_check_passes env profile backup = true) ->
   GetAdminDatabaseDriver_fails env = None ->
   EvCreate local ∈ events_of w (snd r)) /\
  (Backup_Path backup =
     getBackupRelativeFilePath (Backup_DatabaseID backup)
                               (Backup_Name backup) ->
   local = getBackupAbsFilePath (DataDir profile)
             (Backup_DatabaseID backup) (Backup_Name backup)).
Proof.
  intros Hjson Hget Hfind r local. subst r local.
  split; [|split].
  - unfold backup_by_id in Hfind. intros ev path.
    unfold_executor. rewrite Hjson, Hget. cbn [emit backups].
    rewrite Hfind.
    repeat (case_step;
            cbn [fst snd trace emit set_files set_backups set_objects]);
      (erewrite events_of_app
         by (cbn [trace emit set_files set_backups set_objects];
             rewrite <- ?app_assoc; reflexivity));
      intros Hin Hfile; apply list_elem_of_In in Hin; cbn [In] in Hin;
      repeat (destruct Hin as [<-|Hin];
              [cbn [written_file] in Hfile; congruence|]);
      destruct Hin.
  - intros Hspace Hdriver.
    assert (Hevents : forall w0,
      exists before after,
        trace (snd (RunOnce_backup SystemBotID env profile task backup w0))
        = trace w0 ++ before
            ++ [EvCreate (filepath_Join [DataDir profile;
                                         Backup_Path backup])] ++ after).
    { intros w0. unfold_executor. rewrite Hdriver.
      eexists [_].
      repeat (case_step;
              cbn [fst snd trace emit set_files set_backups set_objects]);
        rewrite <- ?app_assoc; eexists; reflexivity. }
    destruct (String.eqb_spec (Backup_StorageBackend backup)
                              BackupStorageBackendLocal) as [Hlocal|Hother].
    + rewrite (RunOnce_space_ok task w id backup) by auto.
      destruct (Hevents (emit (EvStatfs (filepath_Dir
                  (filepath_Join [DataDir profile; Backup_Path backup])))
                  (emit (EvGetBackupByID id) w)))
        as (before & after & Htrace).
      cbn [trace emit] in Htrace. rewrite <- !app_assoc in Htrace.
      rewrite (events_of_app _ _ _ Htrace). set_solver.
    + rewrite (RunOnce_not_local task w id backup) by done.
      destruct (Hevents (emit (EvGetBackupByID id) w))
        as (before & after & Htrace).
      cbn [trace emit] in Htrace. rewrite <- !app_assoc in Htrace.
      rewrite (events_of_app _ _ _ Htrace). set_solver.
  - intros Hpath. unfold getBackupAbsFilePath. by rewrite Hpath.
Qed.

End ExecutorFacts.

(** *** The properties on the sample runs *)


Lemma RunOnce_low_space_witness :
  let w := world_with local_backup in
  let r := RunOnce 1 low_space_env sample_profile sample_task w in
  terminated_of r = true /\
  result_of r = None /\
  err_of r =
    Some (errors_New "the available file system space 100MB is less than the minimal threshold 500MB") /\
  files (snd r) = files w /\
  events_of w (snd r) =
    [EvGetBackupByID 7; EvStatfs "/var/opt/bytebase/backup/db/3"].
Proof.
  destruct (RunOnce_low_space_fails_before_any_write 1 low_space_env
              sample_profile sample_task (world_with local_backup) 7
              local_backup 25600 4096
              eq_refl eq_refl eq_refl eq_refl eq_refl eq_refl)
    as (Hterminated & Hresult & Herr & Hfiles & _ & _ & Hevents).
  split; [exact Hterminated|]. split; [exact Hresult|].
  split; [exact Herr|]. split; [exact Hfiles|]. exact Hevents.
Defined.

Lemma RunOnce_checks_space_only_for_local_witness :
  let w := world_with s3_backup in
  let r := RunOnce 1 healthy_env sample_profile sample_task w in
  (forall path, EvStatfs path ∉ events_of w (snd r)) /\
  RunOnce 1 (with_Statfs (fun _ => Ok (0, 4096)) healthy_env)
          sample_profile sample_task w = r /\
  exists rest,
    events_of w (snd r) =
    [EvGetBackupByID 7; EvGetAdminDatabaseDriver "prod" "shop";
     EvCreate "/var/opt/bytebase/backup/db/3/nightly.sql"] ++ rest.
Proof.
  destruct (RunOnce_checks_space_only_for_local 1 healthy_env sample_profile
              sample_task (world_with s3_backup) 7 s3_backup
              eq_refl eq_refl eq_refl)
    as (Hother & _ & Hs3).
  destruct (Hother ltac:(discriminate)) as (Hnone & Hsame).
  split; [exact Hnone|]. split; [exact (Hsame _)|].
  exact (Hs3 eq_refl eq_refl).
Defined.



(** C8 as stated fails on a backup whose path is not the one of the
    layout: the dump goes to the path of the backup under the data
    directory, and the layout path has no file. *)
Lemma adhoc_path_dump_outside_layout :
  let w := world_with adhoc_backup in
  let r := RunOnce 1 healthy_env sample_profile sample_task w in
  getBackupAbsFilePath "/var/opt/bytebase" 3 "nightly"
    = "/var/opt/bytebase/backup/db/3/nightly.sql" /\
  err_of r = None /\
  events_of w (snd r) !! 3%nat
    = Some (EvCreate "/var/opt/bytebase/adhoc/nightly.sql") /\
  events_of w (snd r) !! 4%nat
    = Some (EvDump "shop" "/var/opt/bytebase/adhoc/nightly.sql") /\
  files (snd r) !! "/var/opt/bytebase/adhoc/nightly.sql" = Some sample_dump /\
  files (snd r) !! "/var/opt/bytebase/backup/db/3/nightly.sql" = None.
Proof. vm_compute. by repeat split. Qed.

Lemma RunOnce_dumps_into_backup_path_witness :
  let w := world_with local_backup in
  let r := RunOnce 1 healthy_env sample_profile sample_task w in
  EvCreate "/var/opt/bytebase/backup/db/3/nightly.sql" ∈ events_of w (snd r) /\
  filepath_Join [DataDir sample_profile; Backup_Path local_backup]
    = getBackupAbsFilePath "/var/opt/bytebase" 3 "nightly".
Proof.
  destruct (RunOnce_dumps_into_backup_path 1 healthy_env sample_profile
              sample_task (world_with local_backup) 7 local_backup
              eq_refl eq_refl eq_refl)
    as (_ & Hcreated & Hlayout).
  split; [exact (Hcreated (fun _ => eq_refl) eq_refl)|].
  exact (Hlayout eq_refl).
Defined.

End ServerFacts.

(** ** Properties of the pipeline service *)
Module StoreFacts.
Import Go Store.



Lemma trace_events_of (s s' : State) (evs : list Event) :
  trace s' = trace s ++ evs -> events_of s s' = evs.
Proof.
  intros H. unfold events_of. rewrite H. apply drop_app_length.
Qed.

Section PipelineFacts.

Variable FormatError : error -> error.
Variable fmt_plus_v : PipelineFind -> string.

Ltac unfold_service :=
  unfold FindPipeline, FindPipeline_store, CreatePipeline, PatchPipeline,
    createPipeline, patchPipeline, findPipelineList, Scan, BeginTx,
    QueryContext, Commit, Rollback, FindCache, UpsertCache.

Ltac reduce_state :=
  cbn [fst snd db cache trace emit set_db set_cache run_statement].

Lemma scan_rows_all (env : Env) (rows scanned : list Pipeline) :
  Scan_fails env = None ->
  scan_rows FormatError env rows scanned = Ok (scanned ++ rows).
Proof.
  intros Hscan. revert scanned.
  induction rows as [|row rows IH]; intros scanned; cbn [scan_rows].
  - by rewrite app_nil_r.
  - rewrite Hscan, IH. by rewrite <- app_assoc.
Qed.


(** From [BeginTx] on, [FindPipeline] makes no probe of the cache, and
    its first two calls are [BeginTx] and, when that succeeds, the SELECT
    with the WHERE clause of the filter. *)
Lemma FindPipeline_store_events (env : Env) (find : PipelineFind) (s : State) :
  exists rest,
    trace (snd (FindPipeline_store FormatError fmt_plus_v env find s))
      = trace s ++ EvBeginTx :: rest /\
    forallb (fun ev => negb (is_FindCache ev)) rest = true /\
    (BeginTx_fails env = None ->
     exists rest', rest = EvQuery (SELECT_pipeline (where_clause find))
                            :: rest').
Proof.
  unfold_service. reduce_state.
  repeat (case_step; reduce_state); rewrite <- ?app_assoc; cbn [app];
    eexists; (split; [reflexivity|]); (split; [reflexivity|]);
    intros Hbegin; try discriminate Hbegin; eexists; reflexivity.
Qed.

(** C7.  The cache is probed exactly when the filter has an id, once
    and first.  On a hit the cached pipeline is returned at once: the
    probe is the only call made, no transaction is begun, and the state is
    otherwise untouched.  A filter without an id always goes to the store:
    the call begins a transaction and, when that succeeds, runs the SELECT
    of the filter. *)
Theorem FindPipeline_cache_probe
  (env : Env) (find : PipelineFind) (s : State) :
  let r := FindPipeline FormatError fmt_plus_v env find s in
  (forall id pipeline,
     PipelineFind_ID find = Some id ->
     FindCache_fails env = None ->
     cache s !! id = Some pipeline ->
     r = (Ok pipeline, emit (EvFindCache id) s)) /\
  (forall id,
     PipelineFind_ID find = Some id ->
     exists rest,
       events_of s (snd r) = EvFindCache id :: rest /\
       forallb (fun ev => negb (is_FindCache ev)) rest = true) /\
  (PipelineFind_ID find = None ->
     exists rest,
       events_of s (snd r) = EvBeginTx :: rest /\
       forallb (fun ev => negb (is_FindCache ev)) rest = true /\
       (BeginTx_fails env = None ->
        exists rest', rest = EvQuery (SELECT_pipeline (where_clause find))
                               :: rest')).
Proof.
  intros r. subst r. split; [|split].
  - intros id pipeline Hid Hok Hhit.
    unfold FindPipeline, FindCache. rewrite Hid, Hok.
    cbn [emit cache]. by rewrite Hhit.
  - intros id Hid. unfold FindPipeline, FindCache. rewrite Hid.
    destruct (FindCache_fails env) as [err|].
    + exists []. split; [|done]. apply trace_events_of. reduce_state. done.
    + cbn [emit cache]. destruct (cache s !! id) as [pipeline|].
      * exists []. split; [|done]. apply trace_events_of. reduce_state. done.
      * destruct (FindPipeline_store_events env find (emit (EvFindCache id) s))
          as (rest & Htrace & Hrest & _).
        cbn [trace emit] in Htrace. rewrite <- app_assoc in Htrace.
        exists (EvBeginTx :: rest). split; [|done].
        by apply trace_events_of.
  - intros Hid. unfold FindPipeline. rewrite Hid.
    destruct (FindPipeline_store_events env find s)
      as (rest & Htrace & Hrest & Hquery).
    exists rest. split; [by apply trace_events_of|]. by split.
Qed.

Lemma FindPipeline_goes_to_store
  (env : Env) (find : PipelineFind) (s : State) :
  goes_to_store env find s ->
  exists s0,
    FindPipeline FormatError fmt_plus_v env find s
      = FindPipeline_store FormatError fmt_plus_v env find s0 /\
    db s0 = db s /\ cache s0 = cache s /\
    exists before, trace s0 = trace s ++ before.
Proof.
  unfold goes_to_store, FindPipeline, FindCache.
  destruct (PipelineFind_ID find) as [id|].
  - intros [-> Hmiss]. cbn [emit cache]. rewrite Hmiss.
    exists (emit (EvFindCache id) s). repeat split. by eexists.
  - intros _. exists s. repeat split. exists []. by rewrite app_nil_r.
Qed.

(** C3.  A lookup that the cache does not answer (there is no id in the
    filter, or no entry for the id) and whose query goes through.  The
    SELECT of the filter is run.  When it selects no row the call fails
    with ENOTFOUND, when it selects two rows or more the call fails with
    ECONFLICT, and when it selects one row the call returns that row (once
    the cache has taken it). *)
Theorem FindPipeline_by_result_set
  (env : Env) (find : PipelineFind) (s : State) :
  goes_to_store env find s ->
  BeginTx_fails env = None ->
  QueryContext_fails env = None ->
  Scan_fails env = None ->
  rows_Err env = None ->
  let r := FindPipeline FormatError fmt_plus_v env find s in
  EvQuery (SELECT_pipeline (where_clause find)) ∈ events_of s (snd r) /\
  match selected find s with
  | [] =>
      fst r = Err (bytebase_Error ENOTFOUND
                     ("pipeline not found: " +:+ fmt_plus_v find))
  | [pipeline] =>
      UpsertCache_fails env = None -> fst r = Ok pipeline
  | _ :: _ :: _ =>
      fst r = Err (bytebase_Error ECONFLICT
                     ("found "
                        +:+ fmt_d (Z.of_nat (List.length (selected find s)))
                        +:+ " pipelines with filter "
                        +:+ fmt_plus_v find +:+ ", expect 1"))
  end.
Proof.
  intros Hstore Hbegin Hquery Hscan Hrows r. subst r.
  destruct (FindPipeline_goes_to_store env find s Hstore)
    as (s0 & -> & Hdb & _ & before & Htrace).
  unfold selected. rewrite <- Hdb.
  unfold FindPipeline_store, findPipelineList, BeginTx, QueryContext,
    Rollback, UpsertCache.
  rewrite Hbegin, Hquery. reduce_state.
  rewrite (scan_rows_all env _ [] Hscan), Hrows. cbn [app].
  split.
  - repeat (case_step; reduce_state);
      (erewrite trace_events_of
         by (reduce_state; rewrite Htrace, <- ?app_assoc; reflexivity));
      set_solver.
  - destruct (List.filter _ (db s0)) as [|first [|second others]];
      reduce_state.
    + done.
    + intros ->. done.
    + done.
Qed.

(** A mutation that succeeds leaves its entity in the cache, under the
    id of the entity. *)
Lemma CreatePipeline_cached
  (env : Env) (create : PipelineCreate) (s s' : State) (E : Pipeline) :
  CreatePipeline FormatError env create s = (Ok E, s') ->
  cache s' !! Pipeline_ID E = Some E.
Proof.
  unfold_service. reduce_state.
  repeat (case_step; reduce_state); intros [= <- <-]; reduce_state;
    apply lookup_insert_eq.
Qed.

Lemma PatchPipeline_cached
  (env : Env) (patch : PipelinePatch) (s s' : State) (E : Pipeline) :
  PatchPipeline FormatError env patch s = (Ok E, s') ->
  cache s' !! Pipeline_ID E = Some E.
Proof.
  unfold_service. reduce_state.
  repeat (case_step; reduce_state); intros [= <- <-]; reduce_state;
    apply lookup_insert_eq.
Qed.

(** C5.  After a [CreatePipeline] or a [PatchPipeline] that returned
    the entity [E], a [FindPipeline] by the id of [E] in the state the
    mutation left returns [E] itself.  It is answered by the cache: the
    probe is its only call. *)
Theorem FindPipeline_after_write
  (env env' : Env) (create : PipelineCreate) (patch : PipelinePatch)
  (find : PipelineFind) (s s' : State) (E : Pipeline) :
  CreatePipeline FormatError env create s = (Ok E, s') \/
  PatchPipeline FormatError env patch s = (Ok E, s') ->
  PipelineFind_ID find = Some (Pipeline_ID E) ->
  FindCache_fails env' = None ->
  FindPipeline FormatError fmt_plus_v env' find s'
  = (Ok E, emit (EvFindCache (Pipeline_ID E)) s').
Proof.
  intros Hwrite Hid Hprobe.
  assert (Hcached : cache s' !! Pipeline_ID E = Some E).
  { destruct Hwrite as [Hcreate|Hpatch].
    - by apply (CreatePipeline_cached env create s).
    - by apply (PatchPipeline_cached env patch s). }
  unfold FindPipeline, FindCache. rewrite Hid, Hprobe.
  cbn [emit cache]. by rewrite Hcached.
Qed.

End PipelineFacts.

(** *** The properties on the sample calls *)

Lemma FindPipeline_by_result_set_witness :
  let find := by_status "OPEN" in
  let FindPipeline := FindPipeline sample_FormatError sample_fmt_plus_v
                                   healthy_env find in
  fst (FindPipeline (state_with [sample_pipeline 1 "DONE"]))
    = Err (bytebase_Error ENOTFOUND
             "pipeline not found: &{ID:<nil> Status:0xc00021e0f0}") /\
  fst (FindPipeline (state_with [sample_pipeline 1 "DONE";
                                 sample_pipeline 2 "OPEN"]))
    = Ok (sample_pipeline 2 "OPEN") /\
  fst (FindPipeline (state_with [sample_pipeline 1 "OPEN";
                                 sample_pipeline 2 "OPEN"]))
    = Err (bytebase_Error ECONFLICT
             "found 2 pipelines with filter &{ID:<nil> Status:0xc00021e0f0}, expect 1").
Proof.
  split; [|split].
  - exact (proj2 (FindPipeline_by_result_set sample_FormatError
                    sample_fmt_plus_v healthy_env (by_status "OPEN")
                    (state_with [sample_pipeline 1 "DONE"])
                    I eq_refl eq_refl eq_refl eq_refl)).
  - exact (proj2 (FindPipeline_by_result_set sample_FormatError
                    sample_fmt_plus_v healthy_env (by_status "OPEN")
                    (state_with [sample_pipeline 1 "DONE";
                                 sample_pipeline 2 "OPEN"])
                    I eq_refl eq_refl eq_refl eq_refl) eq_refl).
  - exact (proj2 (FindPipeline_by_result_set sample_FormatError
                    sample_fmt_plus_v healthy_env (by_status "OPEN")
                    (state_with [sample_pipeline 1 "OPEN";
                                 sample_pipeline 2 "OPEN"])
                    I eq_refl eq_refl eq_refl eq_refl)).
Defined.

Lemma FindPipeline_after_write_witness :
  let created := CreatePipeline sample_FormatError healthy_env sample_create
                                (state_with []) in
  let patched := PatchPipeline sample_FormatError healthy_env sample_patch
                               (state_with [sample_pipeline 1 "OPEN"]) in
  (exists E,
     fst created = Ok E /\
     fst (FindPipeline sample_FormatError sample_fmt_plus_v healthy_env
                       (by_id 1) (snd created)) = Ok E) /\
  (exists E,
     fst patched = Ok E /\ Pipeline_Status E = "DONE" /\
     fst (FindPipeline sample_FormatError sample_fmt_plus_v healthy_env
                       (by_id 1) (snd patched)) = Ok E).
Proof.
  split.
  - eexists. split; [reflexivity|].
    exact (f_equal fst
             (FindPipeline_after_write sample_FormatError sample_fmt_plus_v
                healthy_env healthy_env sample_create sample_patch (by_id 1)
                (state_with []) _ _ (or_introl eq_refl) eq_refl eq_refl)).
  - eexists. split; [reflexivity|]. split; [reflexivity|].
    exact (f_equal fst
             (FindPipeline_after_write sample_FormatError sample_fmt_plus_v
                healthy_env healthy_env sample_create sample_patch (by_id 1)
                (state_with [sample_pipeline 1 "OPEN"]) _ _
                (or_intror eq_refl) eq_refl eq_refl)).
Defined.

End StoreFacts.

(** ** The layout of the backup files *)
Module PathFacts.
Import Go Paths Server.

Lemma append_cons (x : ascii) (a b : string) :
  String x a +:+ b = String x (a +:+ b).
Proof. reflexivity. Qed.

Lemma append_nil (b : string) : EmptyString +:+ b = b.
Proof. reflexivity. Qed.

Lemma append_assoc (a b c : string) : (a +:+ b) +:+ c = a +:+ (b +:+ c).
Proof.
  induction a as [|x a IH]; [done|]. rewrite !append_cons. by rewrite IH.
Qed.

Lemma length_append (a b : string) :
  String.length (a +:+ b) = (String.length a + String.length b)%nat.
Proof.
  induction a as [|x a IH]; [done|]. rewrite append_cons. simpl.
  by rewrite IH.
Qed.

Lemma append_cancel_r (a b c : string) : a +:+ c = b +:+ c -> a = b.
Proof.
  revert b. induction a as [|x a IH]; intros [|y b] H;
    rewrite ?append_cons, ?append_nil in H.
  - done.
  - apply (f_equal String.length) in H. simpl in H.
    rewrite length_append in H. lia.
  - apply (f_equal String.length) in H. simpl in H.
    rewrite length_append in H. lia.
  - injection H as -> H. f_equal. by apply IH.
Qed.

Lemma slash_free_append (a b : string) :
  slash_free (a +:+ b) = slash_free a && slash_free b.
Proof.
  induction a as [|x a IH]; [done|]. rewrite append_cons. simpl.
  rewrite IH. by rewrite andb_assoc.
Qed.

Lemma path_elements_nonempty (p : string) : path_elements p <> [].
Proof.
  destruct p as [|c p]; simpl; [done|].
  destruct (Ascii.eqb c "/"); [done|]. by destruct (path_elements p).
Qed.

Lemma path_elements_slash_free (e : string) :
  slash_free e = true -> path_elements e = [e].
Proof.
  induction e as [|c e IH]; simpl; [done|].
  intros [Hc He]%andb_true_iff. apply negb_true_iff in Hc. rewrite Hc.
  by rewrite IH.
Qed.

Lemma path_elements_append (e p : string) :
  slash_free e = true ->
  path_elements (e +:+ "/" +:+ p) = e :: path_elements p.
Proof.
  induction e as [|c e IH]; [done|]. rewrite append_cons. simpl.
  intros [Hc He]%andb_true_iff. apply negb_true_iff in Hc. rewrite Hc.
  by rewrite IH.
Qed.

Lemma path_elements_Join (es : list string) :
  es <> [] ->
  Forall (fun e => slash_free e = true) es ->
  path_elements (strings_Join es "/") = es.
Proof.
  intros Hne Hes. induction Hes as [|e es He Hes IH]; [done|].
  destruct es as [|e' es].
  - simpl. by apply path_elements_slash_free.
  - change (strings_Join (e :: e' :: es) "/")
      with (e +:+ "/" +:+ strings_Join (e' :: es) "/").
    rewrite path_elements_append by done. by rewrite IH.
Qed.

Lemma plain_element_slash_free (e : string) :
  plain_element e = true -> slash_free e = true.
Proof. unfold plain_element. by intros [[[? _]%andb_true_iff _]%andb_true_iff _]%andb_true_iff. Qed.

Lemma clean_element_plain (rooted : bool) (out : list string) (e : string) :
  plain_element e = true -> clean_element rooted out e = e :: out.
Proof.
  unfold plain_element, clean_element.
  intros [[[_ H1]%andb_true_iff H2]%andb_true_iff H3]%andb_true_iff.
  apply negb_true_iff in H1, H2, H3. by rewrite H1, H2, H3.
Qed.

Lemma clean_elements_plain (rooted : bool) (es out : list string) :
  Forall (fun e => plain_element e = true) es ->
  fold_left (clean_element rooted) es out = rev es ++ out.
Proof.
  intros Hes. revert out.
  induction Hes as [|e es He Hes IH]; intros out; simpl; [done|].
  rewrite clean_element_plain by done. rewrite IH.
  by rewrite <- app_assoc.
Qed.

Lemma decimal_slash_free (s : string) :
  decimal s = true -> slash_free s = true.
Proof.
  induction s as [|c s IH]; [done|]. simpl.
  intros [Hc Hs]%andb_true_iff. rewrite IH by done.
  rewrite andb_true_r. apply negb_true_iff.
  destruct (Ascii.eqb_spec c "/"%char) as [->|]; [|done].
  by vm_compute in Hc.
Qed.

Lemma decimal_plain_element (s : string) :
  decimal s = true -> s <> EmptyString -> plain_element s = true.
Proof.
  intros Hs Hne. unfold plain_element.
  rewrite decimal_slash_free by done.
  apply String.eqb_neq in Hne. rewrite Hne.
  destruct (String.eqb_spec s ".") as [->|_]; [by vm_compute in Hs|].
  destruct (String.eqb_spec s "..") as [->|_]; [by vm_compute in Hs|].
  done.
Qed.

Lemma pretty_N_char_decimal (x : N) (s : string) :
  decimal s = true -> decimal (String (pretty_N_char x) s) = true.
Proof.
  intros Hs. simpl. rewrite Hs.
  unfold pretty_N_char. by repeat case_match.
Qed.

Lemma pretty_N_go_decimal (x : N) (s : string) :
  decimal s = true ->
  decimal (pretty_N_go x s) = true /\
  (s <> EmptyString \/ (0 < x)%N -> pretty_N_go x s <> EmptyString).
Proof.
  revert s. induction (N.lt_wf_0 x) as [x _ IH]; intros s Hs.
  assert (x = 0 \/ 0 < x)%N as [->|Hpos] by lia.
  - rewrite pretty_N_go_0. split; [done|]. intros [?|?]; [done|lia].
  - rewrite pretty_N_go_step by done.
    destruct (IH (x `div` 10)%N (N.div_lt x 10 Hpos eq_refl)
                 (String (pretty_N_char (x `mod` 10)) s)
                 (pretty_N_char_decimal _ _ Hs)) as [Hd Hne].
    split; [done|]. intros _. apply Hne. by left.
Qed.

Lemma fmt_d_plain_element (n : Z) : plain_element (fmt_d n) = true.
Proof.
  assert (Hpos : forall p : positive,
            decimal (pretty p) = true /\ pretty p <> EmptyString).
  { intros p. unfold pretty, pretty_positive, pretty, pretty_N.
    case_decide; [done|].
    destruct (pretty_N_go_decimal (N.pos p) EmptyString eq_refl) as [Hd Hne].
    split; [done|]. apply Hne. right. lia. }
  unfold fmt_d, pretty, pretty_Z. destruct n as [|p|p].
  - done.
  - destruct (Hpos p). by apply decimal_plain_element.
  - destruct (Hpos p) as [Hd Hne]. apply decimal_plain_element.
    + rewrite append_cons, append_nil. simpl. by rewrite Hd.
    + by rewrite append_cons.
Qed.

Lemma strings_Join_cons (e e' : string) (es : list string) (sep : string) :
  strings_Join (e :: e' :: es) sep = e +:+ sep +:+ strings_Join (e' :: es) sep.
Proof. reflexivity. Qed.

Lemma strings_Join_first (e : string) (es : list string) :
  exists rest, strings_Join (e :: es) "/" = e +:+ rest.
Proof.
  destruct es as [|e' es].
  - exists EmptyString. simpl. induction e as [|c e IH]; [done|].
    rewrite append_cons. by rewrite <- IH.
  - eexists. apply strings_Join_cons.
Qed.

Lemma plain_element_first (e : string) :
  plain_element e = true ->
  exists c rest, e = String c rest /\ Ascii.eqb c "/"%char = false.
Proof.
  unfold plain_element.
  intros [[[Hfree Hne]%andb_true_iff _]%andb_true_iff _]%andb_true_iff.
  destruct e as [|c rest]; [done|]. exists c, rest. split; [done|].
  simpl in Hfree. apply andb_true_iff in Hfree as [Hc _].
  by apply negb_true_iff.
Qed.

(** [filepath.Clean] leaves a relative path made of plain elements as it
    is. *)
Lemma Clean_plain (es : list string) :
  es <> [] ->
  Forall (fun e => plain_element e = true) es ->
  filepath_Clean (strings_Join es "/") = strings_Join es "/".
Proof.
  intros Hne Hes.
  assert (Hfree : Forall (fun e => slash_free e = true) es).
  { eapply Forall_impl; [exact Hes|]. apply plain_element_slash_free. }
  destruct es as [|e es]; [done|].
  destruct (plain_element_first e) as (c & rest & -> & Hc).
  { by inversion Hes. }
  destruct (strings_Join_first (String c rest) es) as [tail Htail].
  unfold filepath_Clean.
  rewrite path_elements_Join by done.
  rewrite clean_elements_plain by done.
  rewrite app_nil_r, rev_involutive.
  rewrite Htail, append_cons. simpl. rewrite Hc. done.
Qed.

(** [filepath.Clean] leaves a rooted path made of plain elements as it
    is. *)
Lemma Clean_rooted_plain (es : list string) :
  Forall (fun e => plain_element e = true) es ->
  filepath_Clean ("/" +:+ strings_Join es "/") = "/" +:+ strings_Join es "/".
Proof.
  intros Hes.
  assert (Hfree : Forall (fun e => slash_free e = true) es).
  { eapply Forall_impl; [exact Hes|]. apply plain_element_slash_free. }
  unfold filepath_Clean. rewrite append_cons, append_nil. simpl.
  destruct es as [|e es]; [done|].
  rewrite path_elements_Join by done.
  change (fold_left (clean_element true) (EmptyString :: e :: es) [])
    with (fold_left (clean_element true) (e :: es) []).
  rewrite clean_elements_plain by done.
  by rewrite app_nil_r, rev_involutive.
Qed.

Lemma strings_Join_app (es fs : list string) :
  es <> [] -> fs <> [] ->
  strings_Join (es ++ fs) "/"
  = strings_Join es "/" +:+ "/" +:+ strings_Join fs "/".
Proof.
  intros Hes Hfs. induction es as [|e es IH]; [done|].
  destruct es as [|e' es].
  - destruct fs as [|f fs]; [done|]. reflexivity.
  - change ((e :: e' :: es) ++ fs) with (e :: (e' :: es) ++ fs).
    change ((e' :: es) ++ fs) with (e' :: es ++ fs) at 1.
    rewrite !strings_Join_cons.
    change (e' :: es ++ fs) with ((e' :: es) ++ fs).
    rewrite IH by done. by rewrite !append_assoc.
Qed.

Lemma sql_file_plain_element (name : string) :
  slash_free name = true -> plain_element (name +:+ ".sql") = true.
Proof.
  intros Hname. unfold plain_element.
  rewrite slash_free_append, Hname.
  assert (Hlen : (4 <= String.length (name +:+ ".sql"))%nat).
  { rewrite length_append. simpl. lia. }
  destruct (String.eqb_spec (name +:+ ".sql") EmptyString) as [E|_];
    [rewrite E in Hlen; simpl in Hlen; lia|].
  destruct (String.eqb_spec (name +:+ ".sql") ".") as [E|_];
    [rewrite E in Hlen; simpl in Hlen; lia|].
  destruct (String.eqb_spec (name +:+ ".sql") "..") as [E|_];
    [rewrite E in Hlen; simpl in Hlen; lia|].
  done.
Qed.

Lemma relative_elements_plain (databaseID : Z) (name : string) :
  slash_free name = true ->
  Forall (fun e => plain_element e = true)
         ["backup"; "db"; fmt_d databaseID; name +:+ ".sql"].
Proof.
  intros Hname. repeat constructor.
  - apply fmt_d_plain_element.
  - by apply sql_file_plain_element.
Qed.

Lemma getBackupRelativeDir_literal (databaseID : Z) :
  getBackupRelativeDir databaseID
  = strings_Join ["backup"; "db"; fmt_d databaseID] "/".
Proof.
  unfold getBackupRelativeDir.
  change (filepath_Join ["backup"; "db"; fmt_d databaseID])
    with (filepath_Clean (strings_Join ["backup"; "db"; fmt_d databaseID] "/")).
  apply Clean_plain; [done|]. repeat constructor. apply fmt_d_plain_element.
Qed.

Lemma getBackupRelativeFilePath_literal (databaseID : Z) (name : string) :
  slash_free name = true ->
  getBackupRelativeFilePath databaseID name
  = strings_Join ["backup"; "db"; fmt_d databaseID; name +:+ ".sql"] "/".
Proof.
  intros Hname. unfold getBackupRelativeFilePath.
  rewrite getBackupRelativeDir_literal.
  change (filepath_Join [strings_Join ["backup"; "db"; fmt_d databaseID] "/";
                         name +:+ ".sql"])
    with (filepath_Clean
            (strings_Join ["backup"; "db"; fmt_d databaseID] "/"
               +:+ "/" +:+ strings_Join [name +:+ ".sql"] "/")).
  rewrite <- (strings_Join_app ["backup"; "db"; fmt_d databaseID]
                [name +:+ ".sql"]) by done.
  apply Clean_plain; [done|]. by apply relative_elements_plain.
Qed.

(** X1.  The layout of local backups.  For a name without a separator the
    relative path of a backup is [backup/db/<databaseID>/<name>.sql]; with
    an empty data directory the absolute path is the relative one, and with
    a rooted data directory made of plain elements it is the data
    directory followed by the relative path. *)
Theorem backup_file_layout
  (dataDirElements : list string) (databaseID : Z) (name : string) :
  slash_free name = true ->
  dataDirElements <> [] ->
  Forall (fun e => plain_element e = true) dataDirElements ->
  let dataDir := "/" +:+ strings_Join dataDirElements "/" in
  let relative := "backup/db/" +:+ fmt_d databaseID +:+ "/" +:+ name +:+ ".sql" in
  getBackupRelativeDir databaseID = "backup/db/" +:+ fmt_d databaseID /\
  getBackupRelativeFilePath databaseID name = relative /\
  getBackupAbsFilePath EmptyString databaseID name = relative /\
  getBackupAbsFilePath dataDir databaseID name = dataDir +:+ "/" +:+ relative.
Proof.
  intros Hname Hne Hdir dataDir relative. subst dataDir relative.
  assert (Hrel : getBackupRelativeFilePath databaseID name
                 = "backup/db/" +:+ fmt_d databaseID +:+ "/" +:+ name +:+ ".sql").
  { by rewrite getBackupRelativeFilePath_literal. }
  split; [by rewrite getBackupRelativeDir_literal|].
  split; [exact Hrel|]. split.
  - unfold getBackupAbsFilePath.
    rewrite getBackupRelativeFilePath_literal by done.
    change (filepath_Join [EmptyString; ?p]) with (filepath_Join [p]).
    change (filepath_Join
              [strings_Join ["backup"; "db"; fmt_d databaseID; name +:+ ".sql"]
                            "/"])
      with (filepath_Clean
              (strings_Join ["backup"; "db"; fmt_d databaseID; name +:+ ".sql"]
                            "/")).
    rewrite Clean_plain; [done|done|]. by apply relative_elements_plain.
  - unfold getBackupAbsFilePath.
    rewrite getBackupRelativeFilePath_literal by done.
    change (filepath_Join ["/" +:+ strings_Join dataDirElements "/"; ?p])
      with (filepath_Clean
              (("/" +:+ strings_Join dataDirElements "/") +:+ "/" +:+ p)).
    rewrite append_assoc.
    rewrite <- (strings_Join_app dataDirElements) by done.
    rewrite Clean_rooted_plain.
    + rewrite strings_Join_app by done. by rewrite !append_assoc.
    + apply Forall_app. split; [done|]. by apply relative_elements_plain.
Qed.

Lemma append_cancel_l (a b c : string) : a +:+ b = a +:+ c -> b = c.
Proof.
  induction a as [|x a IH]; [done|]. rewrite !append_cons.
  intros [= H]. by apply IH.
Qed.

Lemma split_at_separator (a a' x x' : string) :
  slash_free a = true -> slash_free a' = true ->
  a +:+ "/" +:+ x = a' +:+ "/" +:+ x' -> a = a' /\ x = x'.
Proof.
  revert a'. induction a as [|c a IH]; intros [|c' a'] Ha Ha' H;
    rewrite ?append_cons, ?append_nil in H.
  - by injection H as ->.
  - injection H as <- _. by vm_compute in Ha'.
  - injection H as -> _. by vm_compute in Ha.
  - injection H as -> H. simpl in Ha, Ha'.
    apply andb_true_iff in Ha as [_ Ha]. apply andb_true_iff in Ha' as [_ Ha'].
    destruct (IH a' Ha Ha' H) as [-> ->]. done.
Qed.

(** X2.  Two backups share a file only when they are the same backup: for
    names without a separator, the relative path determines the database
    and the name. *)
Theorem backup_file_path_injective
  (databaseID databaseID' : Z) (name name' : string) :
  slash_free name = true ->
  slash_free name' = true ->
  getBackupRelativeFilePath databaseID name
  = getBackupRelativeFilePath databaseID' name' ->
  databaseID = databaseID' /\ name = name'.
Proof.
  intros Hname Hname'.
  rewrite !getBackupRelativeFilePath_literal by done.
  intros H.
  change ("backup/db/" +:+ fmt_d databaseID +:+ "/" +:+ name +:+ ".sql"
          = "backup/db/" +:+ fmt_d databaseID' +:+ "/" +:+ name' +:+ ".sql")
    in H.
  apply append_cancel_l in H.
  apply split_at_separator in H as [Hid Hfile];
    try (apply plain_element_slash_free, fmt_d_plain_element).
  split.
  - unfold fmt_d in Hid. by apply (inj pretty) in Hid.
  - by apply append_cancel_r in Hfile.
Qed.

Lemma backup_file_layout_witness :
  getBackupRelativeDir 3 = "backup/db/3" /\
  getBackupRelativeFilePath 3 "nightly" = "backup/db/3/nightly.sql" /\
  getBackupAbsFilePath EmptyString 3 "nightly" = "backup/db/3/nightly.sql" /\
  getBackupAbsFilePath "/var/opt/bytebase" 3 "nightly"
    = "/var/opt/bytebase/backup/db/3/nightly.sql".
Proof.
  assert (Hne : ["var"; "opt"; "bytebase"] <> ([] : list string))
    by discriminate.
  assert (Hplain : Forall (fun e => plain_element e = true)
                          ["var"; "opt"; "bytebase"])
    by (repeat constructor).
  exact (backup_file_layout ["var"; "opt"; "bytebase"] 3 "nightly"
           eq_refl Hne Hplain).
Defined.

Lemma backup_file_path_injective_witness :
  getBackupRelativeFilePath 3 "nightly" = "backup/db/3/nightly.sql" /\
  (3 = 3 /\ "nightly" = "nightly").
Proof.
  split; [reflexivity|].
  exact (backup_file_path_injective 3 3 "nightly" "nightly"
           eq_refl eq_refl eq_refl).
Defined.

End PathFacts.

(** ** Lemmas on the runs of the executor *)
Module ServerLemmas.
Import Go Server ServerNotions ServerFacts.

Ltac unfold_run :=
  unfold RunOnce, RunOnce_backup, backupDatabase, dumpBackupFile,
    removeLocalBackupFile, getAvailableFSSpace, PatchBackup, GetBackupByID,
    UploadObject, Dump, os_Remove, os_Open, os_Create.

Ltac reduce_world :=
  cbn [fst snd trace files backups objects emit set_files set_backups
         set_objects].

Lemma events_of_same (w : World) : events_of w w = [].
Proof. apply events_of_app. by rewrite app_nil_r. Qed.

Lemma quiet_events (evs : list Event) :
  forallb quiet evs = true ->
  List.filter is_PatchBackup evs = [] /\
  existsb is_GetAdminDatabaseDriver evs = false.
Proof.
  induction evs as [|ev evs IH]; [done|]. cbn [forallb].
  intros [Hev Hevs]%andb_true_iff. destruct (IH Hevs) as [Hf He].
  unfold quiet in Hev. apply andb_true_iff in Hev as [Hp Hg].
  apply negb_true_iff in Hp, Hg. cbn [List.filter existsb].
  by rewrite Hp, Hg, Hf, He.
Qed.


Section Executor.

Variable SystemBotID : Z.
Variable env : Env.
Variable profile : Profile.

#[local] Opaque filepath_Join filepath_Dir fmt_q fmt_d.

(** A run either ends before the backup, with an error and without any
    change to files, store and bucket, or it is the backup of the Backup
    entity that the payload names. *)
Lemma RunOnce_cases (task : Task) (w : World) :
  let r := RunOnce SystemBotID env profile task w in
  (is_Some (err_of r) /\ result_of r = None /\
   files (snd r) = files w /\ backups (snd r) = backups w /\
   objects (snd r) = objects w /\
   forallb quiet (events_of w (snd r)) = true) \/
  (exists id backup w1,
     json_Unmarshal env (Task_Payload task) = Ok id /\
     backup_by_id id w = Some backup /\
     (Backup_StorageBackend backup = BackupStorageBackendLocal ->
      space_check_passes env profile backup = true) /\
     r = RunOnce_backup SystemBotID env profile task backup w1 /\
     files w1 = files w /\ backups w1 = backups w /\
     objects w1 = objects w /\
     exists before,
       trace w1 = trace w ++ before /\ forallb quiet before = true).
Proof.
  intros r. subst r. unfold RunOnce, GetBackupByID, getAvailableFSSpace.
  unfold backup_by_id, space_check_passes.
  destruct (json_Unmarshal env (Task_Payload task)) as [id|e0];
    [|left; reduce_world; rewrite events_of_same; repeat split; by eexists].
  destruct (GetBackupByID_fails env) as [e1|]; reduce_world;
    [left; rewrite (events_of_app _ _ [EvGetBackupByID id]) by done;
     repeat split; by eexists|].
  destruct (find _ (backups w)) as [backup|] eqn:Hfind;
    [|left; rewrite (events_of_app _ _ [EvGetBackupByID id]) by done;
      repeat split; by eexists].
  destruct (String.eqb_spec (Backup_StorageBackend backup)
                            BackupStorageBackendLocal) as [Hlocal|Hother].
  - destruct (unix_Statfs env _) as [[Bavail Bsize]|e2] eqn:Hstat;
      reduce_world.
    + destruct (_ <? _)%Z eqn:Hlow.
      * left. erewrite events_of_app
          by (reduce_world; rewrite <- ?app_assoc; reflexivity).
        repeat split; by eexists.
      * right. eexists id, backup, _.
        do 2 (split; [done|]). split; [intros _; by rewrite Hstat, Hlow|].
        split; [reflexivity|].
        do 3 (split; [done|]). eexists. reduce_world.
        by rewrite <- app_assoc.
    + left. erewrite events_of_app
        by (reduce_world; rewrite <- ?app_assoc; reflexivity).
      repeat split; by eexists.
  - right. eexists id, backup, _.
    do 2 (split; [done|]). split; [done|]. split; [reflexivity|].
    do 3 (split; [done|]). by eexists [_].
Qed.

(** The calls of a backup: it asks for the driver first and patches the
    Backup entity last, and does neither in between. *)
Lemma RunOnce_backup_shape (task : Task) (backup : Backup) (w : World) :
  exists between patch,
    trace (snd (RunOnce_backup SystemBotID env profile task backup w))
    = trace w
        ++ EvGetAdminDatabaseDriver (Instance_Name (Task_Instance task))
                                    (Database_Name (Task_Database task))
        :: between ++ [EvPatchBackup patch] /\
    forallb quiet between = true /\
    BackupPatch_ID patch = Backup_ID backup.
Proof.
  unfold_run. reduce_world.
  repeat (case_step; reduce_world); rewrite <- ?app_assoc; cbn [app];
    match goal with
    | |- exists between patch, _ ++ _ :: ?l = _ /\ _ =>
        exists (removelast l); eexists
    end; cbn [removelast app]; by split.
Qed.


(** The calls of a LOCAL run that finds too little space. *)
Lemma RunOnce_low_space_events
  (task : Task) (w : World) (id : Z) (backup : Backup) (Bavail Bsize : Z) :
  json_Unmarshal env (Task_Payload task) = Ok id ->
  GetBackupByID_fails env = None ->
  backup_by_id id w = Some backup ->
  Backup_StorageBackend backup = BackupStorageBackendLocal ->
  unix_Statfs env (filepath_Dir (filepath_Join [DataDir profile;
                                                Backup_Path backup]))
    = Ok (Bavail, Bsize) ->
  uint64 (Bavail * uint64 Bsize) < minAvailableFSBytes ->
  let r := RunOnce SystemBotID env profile task w in
  events_of w (snd r) =
    [EvGetBackupByID id;
     EvStatfs (filepath_Dir (filepath_Join [DataDir profile;
                                            Backup_Path backup]))] /\
  is_Some (err_of r).
Proof.
  intros Hjson Hget Hfind Hlocal Hstat Hlow r. subst r.
  unfold backup_by_id in Hfind.
  unfold RunOnce, GetBackupByID, getAvailableFSSpace.
  rewrite Hjson, Hget. cbn [emit backups]. rewrite Hfind, Hlocal.
  cbn [String.eqb BackupStorageBackendLocal Ascii.eqb Bool.eqb].
  rewrite Hstat. apply Z.ltb_lt in Hlow. rewrite Hlow.
  split; [|by eexists].
  apply events_of_app. reduce_world. by rewrite <- app_assoc.
Qed.


(** Neither the backup nor the removal of the local file writes to the
    store. *)
Lemma backupDatabase_backups
  (instance : Instance) (databaseName : string) (backup : Backup) (w : World) :
  backups (snd (backupDatabase env profile instance databaseName backup w))
  = backups w.
Proof. unfold_run. reduce_world. by repeat (case_step; reduce_world). Qed.

Lemma removeLocalBackupFile_backups
  (dataDir : string) (backup : Backup) (w : World) :
  backups (snd (removeLocalBackupFile dataDir backup w)) = backups w.
Proof. unfold_run. reduce_world. by repeat (case_step; reduce_world). Qed.

(** Patching leaves the ids of the rows as they are, and the rows with
    another id untouched. *)
Lemma patch_row_ids (patch : BackupPatch) (bs : list Backup) :
  List.map Backup_ID (List.map (patch_row patch) bs) = List.map Backup_ID bs.
Proof.
  induction bs as [|b bs IH]; [done|]. cbn [List.map]. rewrite IH.
  f_equal. unfold patch_row. by case_match.
Qed.

Lemma patch_row_other (patch : BackupPatch) (bs : list Backup) (b : Backup) :
  In b bs -> Backup_ID b <> BackupPatch_ID patch ->
  In b (List.map (patch_row patch) bs).
Proof.
  intros Hin Hid. apply in_map_iff. exists b. split; [|done].
  unfold patch_row. apply Z.eqb_neq in Hid. by rewrite Hid.
Qed.

(** The files, objects and rows a backup may touch. *)
Lemma RunOnce_backup_frame (task : Task) (backup : Backup) (w : World) :
  let r := RunOnce_backup SystemBotID env profile task backup w in
  let local := filepath_Join [DataDir profile; Backup_Path backup] in
  let layout := getBackupAbsFilePath (DataDir profile)
                  (Backup_DatabaseID backup) (Backup_Name backup) in
  (forall p, p <> local -> p <> layout ->
             files (snd r) !! p = files w !! p) /\
  (forall k, k <> Backup_Path backup ->
             objects (snd r) !! k = objects w !! k) /\
  (backups (snd r) = backups w \/
   exists patch, BackupPatch_ID patch = Backup_ID backup /\
                 backups (snd r) = List.map (patch_row patch) (backups w)).
Proof.
  intros r local layout. subst r local layout.
  unfold_run. reduce_world.
  repeat (case_step; reduce_world);
    (split; [intros p Hlocal Hlayout;
             by rewrite ?lookup_delete_ne, ?lookup_insert_ne by done|]);
    (split; [intros k Hk; by rewrite ?lookup_insert_ne by done|]);
    first [ by left | right; eexists; split; [|reflexivity]; done ].
Qed.

End Executor.

End ServerLemmas.

(** ** More on the backup runs *)
Module BackupRuns.
Import Go Server ServerNotions ServerFacts ServerLemmas.

Section Executor.

Variable SystemBotID : Z.
Variable env : Env.
Variable profile : Profile.

#[local] Opaque filepath_Join filepath_Dir fmt_q fmt_d.



(** X4.  [dumpBackupFile] on its own.  It touches no file but the one at its
    path, and neither the store nor the bucket.  When the file cannot be
    created the driver is not asked to dump, and the error is a new one
    that names the path, not the error of [os.Create].  Otherwise the file
    holds what the driver wrote, also when the dump fails; a failed dump
    returns the error of the driver wrapped with the names of the database
    and of the file, and an empty payload. *)
Theorem dumpBackupFile_effect (databaseName path : string) (w : World) :
  let r := dumpBackupFile env databaseName path w in
  (forall p, p <> path -> files (snd r) !! p = files w !! p) /\
  backups (snd r) = backups w /\
  objects (snd r) = objects w /\
  match os_Create_fails env with
  | Some _ =>
      fst r = (EmptyString,
               Some (errors_New ("failed to open backup path "
                                   +:+ fmt_q path))) /\
      files (snd r) = files w /\
      events_of w (snd r) = [EvCreate path]
  | None =>
      files (snd r) !! path = Some (fst (driver_Dump env databaseName)) /\
      events_of w (snd r) = [EvCreate path; EvDump databaseName path] /\
      match snd (driver_Dump env databaseName) with
      | Ok payload => fst r = (payload, None)
      | Err e =>
          fst r = (EmptyString,
                   Some (errors_Wrap e
                           ("failed to dump database " +:+ fmt_q databaseName
                              +:+ " to local backup file " +:+ fmt_q path)))
      end
  end.
Proof.
  intros r. subst r. unfold dumpBackupFile, os_Create, Dump.
  destruct (os_Create_fails env) as [e|]; reduce_world.
  - split; [done|]. do 2 (split; [done|]). split; [done|].
    split; [done|]. by apply events_of_app.
  - destruct (driver_Dump env databaseName) as [written [payload|e]];
      reduce_world;
      (split; [intros p Hp; by rewrite !lookup_insert_ne|]);
      do 2 (split; [done|]); (split; [apply lookup_insert_eq|]);
      (split; [apply events_of_app; reduce_world; by rewrite <- app_assoc
              |done]).
Qed.

(** X5.  The driver is released on every path that acquired it, once and
    last; a run that does not get the driver does nothing else. *)
Theorem backupDatabase_releases_driver
  (instance : Instance) (databaseName : string) (backup : Backup) (w : World) :
  let r := backupDatabase env profile instance databaseName backup w in
  let acquire := EvGetAdminDatabaseDriver (Instance_Name instance)
                                          databaseName in
  match GetAdminDatabaseDriver_fails env with
  | Some e => r = ((EmptyString, Some e), emit acquire w)
  | None =>
      exists between,
        events_of w (snd r) = acquire :: between ++ [EvDriverClose] /\
        forallb (fun ev => negb (is_DriverClose ev)
                           && negb (is_GetAdminDatabaseDriver ev)) between
        = true
  end.
Proof.
  intros r acquire. subst r acquire. unfold_run.
  destruct (GetAdminDatabaseDriver_fails env) as [e|]; [done|].
  reduce_world.
  repeat (case_step; reduce_world);
    (erewrite events_of_app
       by (reduce_world; rewrite <- ?app_assoc; reflexivity));
    cbn [app];
    match goal with
    | |- exists between, ?a :: ?l = _ /\ _ =>
        exists (removelast l)
    end; cbn [removelast app]; by split.
Qed.

(** X6.  A run sends at most one patch to the store.  It sends one, as its
    last call, exactly when it got as far as asking for the driver; a run
    that ends earlier sends none and leaves files, store and bucket as
    they were. *)
Theorem RunOnce_patches_at_most_once (task : Task) (w : World) :
  let r := RunOnce SystemBotID env profile task w in
  let evs := events_of w (snd r) in
  if existsb is_GetAdminDatabaseDriver evs
  then List.length (List.filter is_PatchBackup evs) = 1%nat /\
       exists patch, last evs = Some (EvPatchBackup patch)
  else List.filter is_PatchBackup evs = [] /\
       is_Some (err_of r) /\
       files (snd r) = files w /\
       backups (snd r) = backups w /\
       objects (snd r) = objects w.
Proof.
  intros r evs. subst r evs.
  destruct (RunOnce_cases SystemBotID env profile task w)
    as [(Herr & _ & Hfiles & Hbackups & Hobjects & Hquiet)
       |(id & backup & w1 & _ & _ & _ & -> & _ & _ & _ & before & Hbefore
           & Hquiet)].
  - destruct (quiet_events _ Hquiet) as [-> ->]. done.
  - destruct (RunOnce_backup_shape SystemBotID env profile task backup w1)
      as (between & patch & Htrace & Hbetween & _).
    rewrite Hbefore, <- app_assoc in Htrace.
    rewrite (events_of_app _ _ _ Htrace).
    destruct (quiet_events _ Hquiet) as [Hf1 He1].
    destruct (quiet_events _ Hbetween) as [Hf2 He2].
    rewrite existsb_app. cbn [existsb is_GetAdminDatabaseDriver].
    rewrite orb_true_r. split.
    + rewrite List.filter_app, Hf1. cbn [app List.filter is_PatchBackup].
      rewrite List.filter_app, Hf2. done.
    + exists patch. rewrite app_comm_cons, app_assoc. apply last_snoc.
Qed.




(** X8.  A backend that is neither LOCAL nor S3 is refused only after the
    dump: the run patches the backup as FAILED with the error "not
    implemented yet", and the dump it has written stays on disk. *)
Theorem RunOnce_unsupported_backend
  (task : Task) (w : World) (id : Z) (backup : Backup)
  (written payload : string) :
  json_Unmarshal env (Task_Payload task) = Ok id ->
  GetBackupByID_fails env = None ->
  backup_by_id id w = Some backup ->
  Backup_StorageBackend backup <> BackupStorageBackendLocal ->
  Backup_StorageBackend backup <> BackupStorageBackendS3 ->
  GetAdminDatabaseDriver_fails env = None ->
  os_Create_fails env = None ->
  driver_Dump env (Database_Name (Task_Database task))
    = (written, Ok payload) ->
  let r := RunOnce SystemBotID env profile task w in
  let local := filepath_Join [DataDir profile; Backup_Path backup] in
  let refused := errors_New ("backup to " +:+ Backup_StorageBackend backup
                               +:+ " not implemented yet") in
  files (snd r) !! local = Some written /\
  objects (snd r) = objects w /\
  (forall path, EvRemove path ∉ events_of w (snd r)) /\
  last (events_of w (snd r)) =
    Some (EvPatchBackup
            {| BackupPatch_ID := id;
               BackupPatch_Status := Some BackupStatusFailed;
               BackupPatch_UpdaterID := SystemBotID;
               BackupPatch_Comment := Some (Error refused);
               BackupPatch_Payload := Some EmptyString |}) /\
  (PatchBackup_fails env = None -> err_of r = Some refused).
Proof.
  intros Hjson Hget Hfind Hlocal Hs3 Hdriver Hcreate Hdump r local refused.
  subst r local refused.
  rewrite (RunOnce_not_local SystemBotID env profile task w id backup)
    by done.
  pose proof (backup_by_id_ID _ _ _ Hfind) as Hid.
  unfold RunOnce_backup, backupDatabase, dumpBackupFile, os_Create, Dump,
    removeLocalBackupFile.
  rewrite Hdriver, Hcreate, Hdump.
  apply String.eqb_neq in Hlocal, Hs3. rewrite Hlocal, Hs3.
  cbn [negb emit set_files files]. rewrite Hid.
  match goal with
  | |- context [PatchBackup env ?p ?w1] =>
      pose proof (PatchBackup_effect env p w1)
        as (Hfiles & Hobjects & Htrace & Hpatch);
      destruct (PatchBackup env p w1) as [[b'|err'] w3]
  end;
    cbn [fst snd files objects trace emit set_files] in Hfiles, Hobjects, Htrace, Hpatch;
    rewrite <- ?app_assoc in Htrace; unfold err_of;
    cbn [fst snd]; rewrite Hfiles, Hobjects, (events_of_app _ _ _ Htrace);
    (split; [apply lookup_insert_eq|]); (split; [done|]);
    (split; [intros path; not_in_events|]); (split; [reflexivity|]).
  - done.
  - intros Hok. cbn [BackupPatch_ID] in Hpatch.
    destruct (Hpatch backup Hok Hfind) as [Hres _]. discriminate Hres.
Qed.


(** X10.  When the store refuses the patch, the run returns the error of the
    store wrapped as "failed to patch backup" and no result, whatever the
    backup itself did, and the Backup entities are what they were. *)
Theorem RunOnce_patch_failure
  (task : Task) (w : World) (id : Z) (backup : Backup) (e : error) :
  json_Unmarshal env (Task_Payload task) = Ok id ->
  GetBackupByID_fails env = None ->
  backup_by_id id w = Some backup ->
  (Backup_StorageBackend backup = BackupStorageBackendLocal ->
   space_check_passes env profile backup = true) ->
  PatchBackup_fails env = Some e ->
  let r := RunOnce SystemBotID env profile task w in
  err_of r = Some (errors_Wrap e "failed to patch backup") /\
  result_of r = None /\
  backups (snd r) = backups w.
Proof.
  intros Hjson Hget Hfind Hspace Hfail r. subst r.
  assert (Hbackup : forall w1,
    backups w1 = backups w ->
    let r := RunOnce_backup SystemBotID env profile task backup w1 in
    err_of r = Some (errors_Wrap e "failed to patch backup") /\
    result_of r = None /\ backups (snd r) = backups w).
  { intros w1 Hw1. unfold RunOnce_backup.
    pose proof (backupDatabase_backups env profile (Task_Instance task)
                  (Database_Name (Task_Database task)) backup w1) as Hb.
    destruct (backupDatabase env profile _ _ backup w1)
      as [[payload [e1|]] w2]; cbn [snd] in Hb.
    - pose proof (removeLocalBackupFile_backups (DataDir profile) backup w2)
        as Hr.
      destruct (removeLocalBackupFile _ backup w2) as [[e2|] w3];
        cbn [snd] in Hr; unfold PatchBackup; rewrite Hfail;
        unfold err_of, result_of; reduce_world;
        by rewrite ?Hr, Hb, Hw1.
    - unfold PatchBackup. rewrite Hfail.
      unfold err_of, result_of. reduce_world. by rewrite Hb, Hw1. }
  destruct (String.eqb_spec (Backup_StorageBackend backup)
                            BackupStorageBackendLocal) as [Hlocal|Hother].
  - rewrite (RunOnce_space_ok SystemBotID env profile task w id backup)
      by auto.
    by apply Hbackup.
  - rewrite (RunOnce_not_local SystemBotID env profile task w id backup)
      by done.
    by apply Hbackup.
Qed.

(** X11.  What a run may touch.  The only files that can differ afterwards
    are the dump file and the file at the layout path of the backup, the
    only object is the one under the path of the backup, and the only
    Backup entities those with the id of the payload: every other row of
    the store is still there, and the ids of the rows are the same. *)
Theorem RunOnce_frame
  (task : Task) (w : World) (id : Z) (backup : Backup) :
  json_Unmarshal env (Task_Payload task) = Ok id ->
  GetBackupByID_fails env = None ->
  backup_by_id id w = Some backup ->
  let r := RunOnce SystemBotID env profile task w in
  let local := filepath_Join [DataDir profile; Backup_Path backup] in
  let layout := getBackupAbsFilePath (DataDir profile)
                  (Backup_DatabaseID backup) (Backup_Name backup) in
  (forall p, p <> local -> p <> layout ->
             files (snd r) !! p = files w !! p) /\
  (forall k, k <> Backup_Path backup ->
             objects (snd r) !! k = objects w !! k) /\
  List.map Backup_ID (backups (snd r)) = List.map Backup_ID (backups w) /\
  (forall b, In b (backups w) -> Backup_ID b <> id ->
             In b (backups (snd r))).
Proof.
  intros Hjson Hget Hfind r local layout. subst r local layout.
  pose proof (backup_by_id_ID _ _ _ Hfind) as Hid.
  destruct (RunOnce_cases SystemBotID env profile task w)
    as [(_ & _ & Hfiles & Hbackups & Hobjects & _)
       |(id' & backup' & w1 & Hjson' & Hfind' & _ & -> & Hfiles & Hbackups
           & Hobjects & _)].
  { rewrite Hfiles, Hbackups, Hobjects. by repeat split. }
  rewrite Hjson in Hjson'. injection Hjson' as <-.
  rewrite Hfind in Hfind'. injection Hfind' as <-.
  destruct (RunOnce_backup_frame SystemBotID env profile task backup w1)
    as (Hf & Ho & Hb).
  split; [intros p H1 H2; by rewrite Hf, Hfiles|].
  split; [intros k Hk; by rewrite Ho, Hobjects|].
  destruct Hb as [->|(patch & Hpatch & ->)]; rewrite Hbackups.
  - done.
  - split; [apply patch_row_ids|].
    intros b Hin Hb. apply patch_row_other; [done|]. congruence.
Qed.

(** X12.  The threshold of the space check.  For a LOCAL backup on a file
    system that reports its free space without overflow, the run goes on
    to ask for the driver exactly when at least 500 MiB are free: the
    check refuses 524287999 free bytes and lets 524288000 through. *)
Theorem RunOnce_space_threshold
  (task : Task) (w : World) (id : Z) (backup : Backup) (Bavail Bsize : Z) :
  json_Unmarshal env (Task_Payload task) = Ok id ->
  GetBackupByID_fails env = None ->
  backup_by_id id w = Some backup ->
  Backup_StorageBackend backup = BackupStorageBackendLocal ->
  unix_Statfs env (filepath_Dir (filepath_Join [DataDir profile;
                                                Backup_Path backup]))
    = Ok (Bavail, Bsize) ->
  0 <= Bavail -> 0 <= Bsize -> Bavail * Bsize < 2 ^ 64 ->
  let r := RunOnce SystemBotID env profile task w in
  existsb is_GetAdminDatabaseDriver (events_of w (snd r)) = true
  <-> 524288000 <= Bavail * Bsize.
Proof.
  intros Hjson Hget Hfind Hlocal Hstat Havail Hsize Hsmall r. subst r.
  assert (Hexact : uint64 (Bavail * uint64 Bsize) = Bavail * Bsize).
  { unfold uint64.
    assert (Bsize < 2 ^ 64 \/ Bavail = 0) as [Hs| ->] by nia.
    - rewrite (Z.mod_small Bsize) by lia. apply Z.mod_small. nia.
    - by rewrite !Z.mul_0_l. }
  destruct (Z.ltb_spec (Bavail * Bsize) minAvailableFSBytes) as [Hlow|Hok].
  - destruct (RunOnce_low_space_events SystemBotID env profile task w id backup
                Bavail Bsize Hjson Hget Hfind Hlocal Hstat) as [Hev _].
    { rewrite Hexact. exact Hlow. }
    rewrite Hev. cbn [existsb is_GetAdminDatabaseDriver orb].
    unfold minAvailableFSBytes in Hlow. split; [discriminate|lia].
  - rewrite (RunOnce_space_ok SystemBotID env profile task w id backup);
      [|done..|].
    + destruct (RunOnce_backup_shape SystemBotID env profile task backup
                  (emit (EvStatfs (filepath_Dir
                     (filepath_Join [DataDir profile; Backup_Path backup])))
                     (emit (EvGetBackupByID id) w)))
        as (between & patch & Htrace & _).
      cbn [trace emit] in Htrace. rewrite <- !app_assoc in Htrace.
      rewrite (events_of_app _ _ _ Htrace).
      cbn [app existsb is_GetAdminDatabaseDriver orb].
      unfold minAvailableFSBytes in Hok. split; [lia|done].
    + unfold space_check_passes. rewrite Hstat, Hexact.
      apply negb_true_iff. by apply Z.ltb_ge.
Qed.

End Executor.


Lemma RunOnce_unsupported_backend_witness :
  let r := RunOnce 1 healthy_env sample_profile sample_task
                   (world_with gcs_backup) in
  files (snd r) !! "/var/opt/bytebase/backup/db/3/nightly.sql"
    = Some sample_dump /\
  err_of r = Some (errors_New "backup to GCS not implemented yet").
Proof.
  assert (Hlocal : Backup_StorageBackend gcs_backup
                   <> BackupStorageBackendLocal) by discriminate.
  assert (Hs3 : Backup_StorageBackend gcs_backup <> BackupStorageBackendS3)
    by discriminate.
  destruct (RunOnce_unsupported_backend 1 healthy_env sample_profile
              sample_task (world_with gcs_backup) 7 gcs_backup
              sample_dump "binlog.000007"
              eq_refl eq_refl eq_refl Hlocal Hs3 eq_refl eq_refl eq_refl)
    as (Hfile & _ & _ & _ & Herr).
  split; [exact Hfile|exact (Herr eq_refl)].
Defined.


Lemma RunOnce_patch_failure_witness :
  let r := RunOnce 1 patch_fails_env sample_profile sample_task
                   (world_with local_backup) in
  err_of r
    = Some (errors_Wrap (errors_New "database is locked")
                        "failed to patch backup") /\
  result_of r = None /\
  backups (snd r) = [local_backup].
Proof.
  exact (RunOnce_patch_failure 1 patch_fails_env sample_profile sample_task
           (world_with local_backup) 7 local_backup
           (errors_New "database is locked")
           eq_refl eq_refl eq_refl (fun _ => eq_refl) eq_refl).
Defined.

Lemma RunOnce_frame_witness :
  let w := world_with_older local_backup in
  let r := RunOnce 1 healthy_env sample_profile sample_task w in
  files (snd r) !! "/var/opt/bytebase/backup/db/3/last-night.sql"
    = Some sample_dump /\
  List.map Backup_ID (backups (snd r)) = [8; 7] /\
  In older_backup (backups (snd r)).
Proof.
  destruct (RunOnce_frame 1 healthy_env sample_profile sample_task
              (world_with_older local_backup) 7 local_backup
              eq_refl eq_refl eq_refl)
    as (Hfiles & _ & Hids & Hrows).
  split; [|split; [exact Hids|]].
  - assert (Hlocal : "/var/opt/bytebase/backup/db/3/last-night.sql"
                     <> filepath_Join [DataDir sample_profile;
                                       Backup_Path local_backup])
      by discriminate.
    assert (Hlayout : "/var/opt/bytebase/backup/db/3/last-night.sql"
                      <> getBackupAbsFilePath (DataDir sample_profile)
                           (Backup_DatabaseID local_backup)
                           (Backup_Name local_backup))
      by discriminate.
    exact (Hfiles _ Hlocal Hlayout).
  - assert (Hother : Backup_ID older_backup <> 7) by discriminate.
    exact (Hrows older_backup (or_introl eq_refl) Hother).
Defined.

Lemma RunOnce_space_threshold_witness :
  let w := world_with local_backup in
  existsb is_GetAdminDatabaseDriver
    (events_of w (snd (RunOnce 1 healthy_env sample_profile sample_task w)))
    = true /\
  existsb is_GetAdminDatabaseDriver
    (events_of w (snd (RunOnce 1 low_space_env sample_profile sample_task w)))
    = false.
Proof.
  assert (H0 : 0 <= 4096) by lia.
  assert (H1 : 0 <= 1024000) by lia.
  assert (H2 : 0 <= 25600) by lia.
  assert (H3 : 1024000 * 4096 < 2 ^ 64) by reflexivity.
  assert (H4 : 25600 * 4096 < 2 ^ 64) by reflexivity.
  assert (Hhigh : 524288000 <= 1024000 * 4096) by (cbn; lia).
  assert (Hlow : ~ 524288000 <= 25600 * 4096) by (cbn; lia).
  split.
  - exact (proj2 (RunOnce_space_threshold 1 healthy_env sample_profile
                    sample_task (world_with local_backup) 7 local_backup
                    1024000 4096 eq_refl eq_refl eq_refl eq_refl eq_refl
                    H1 H0 H3) Hhigh).
  - apply not_true_is_false. intros Hev. apply Hlow.
    exact (proj1 (RunOnce_space_threshold 1 low_space_env sample_profile
                    sample_task (world_with local_backup) 7 local_backup
                    25600 4096 eq_refl eq_refl eq_refl eq_refl eq_refl
                    H2 H0 H4) Hev).
Defined.

End BackupRuns.

(** ** Lemmas on the calls of the pipeline service *)
Module StoreLemmas.
Import Go Store StoreNotions StoreFacts.

Ltac unfold_calls :=
  unfold FindPipeline, FindPipeline_store, FindPipelineList, CreatePipeline,
    PatchPipeline, createPipeline, patchPipeline, findPipelineList, Scan,
    BeginTx, QueryContext, Commit, Rollback, FindCache, UpsertCache.

Ltac reduce_store :=
  cbn [fst snd db cache trace emit set_db set_cache run_statement].

Lemma selected_admits (find : PipelineFind) (s : State) :
  selected find s = List.filter (admits find) (db s).
Proof.
  unfold selected. apply filter_ext. intros row.
  unfold where_clause, admits.
  destruct (PipelineFind_ID find), (PipelineFind_Status find);
    cbn [app forallb holds]; by rewrite ?andb_true_r.
Qed.

Section Service.

Variable FormatError : error -> error.
Variable fmt_plus_v : PipelineFind -> string.
Variable env : Env.

(** The loop that refreshes the cache, when the cache takes every row. *)
Lemma upsert_each_all (rows : list Pipeline) (s : State) :
  UpsertCache_fails env = None ->
  upsert_each env rows s
  = (None, {| db := db s;
              cache := cache_with rows (cache s);
              trace := trace s ++ upserts rows |}).
Proof.
  intros Hok. revert s.
  induction rows as [|row rows IH]; intros s; cbn [upsert_each].
  - unfold cache_with, upserts. cbn. rewrite app_nil_r. by destruct s.
  - unfold UpsertCache. rewrite Hok. rewrite IH. reduce_store.
    unfold cache_with, upserts. cbn [fold_left List.map].
    by rewrite <- app_assoc.
Qed.

(** The loop that refreshes the cache never touches the table, and a
    failing cache leaves the state as it was but for the call. *)
Lemma upsert_each_db (rows : list Pipeline) (s : State) :
  db (snd (upsert_each env rows s)) = db s.
Proof.
  revert s. induction rows as [|row rows IH]; intros s; cbn [upsert_each];
    [done|].
  unfold UpsertCache. destruct (UpsertCache_fails env); reduce_store; [done|].
  by rewrite IH.
Qed.

(** The rows that the scanning loop returns are the rows it was given,
    after those it had. *)
Lemma scan_rows_Ok (rows scanned scanned' : list Pipeline) :
  scan_rows FormatError env rows scanned = Ok scanned' ->
  scanned' = scanned ++ rows.
Proof.
  revert scanned. induction rows as [|row rows IH]; intros scanned;
    cbn [scan_rows].
  - intros [= <-]. by rewrite app_nil_r.
  - destruct (Scan_fails env); [discriminate|].
    intros H. apply IH in H. by rewrite <- app_assoc in H.
Qed.

(** Putting rows of the table into the cache keeps the cache coherent. *)
Lemma upsert_each_coherent (rows : list Pipeline) (s : State) :
  (forall row, In row rows -> In row (db s)) ->
  coherent s -> coherent (snd (upsert_each env rows s)).
Proof.
  revert s. induction rows as [|row rows IH]; intros s Hrows Hs;
    cbn [upsert_each]; [done|].
  unfold UpsertCache. destruct (UpsertCache_fails env); reduce_store.
  - intros id p. reduce_store. apply Hs.
  - apply IH; reduce_store.
    + intros row' Hin. apply Hrows. by right.
    + intros id p. reduce_store.
      destruct (decide (Pipeline_ID row = id)) as [<-|Hne].
      * rewrite lookup_insert_eq. intros [= <-]. split; [done|].
        apply Hrows. by left.
      * rewrite lookup_insert_ne by done. apply Hs.
Qed.

End Service.

(** An assignment of the SET clause leaves the id, the creator, the time
    of creation and the name of a row as they are. *)
Lemma assign_keeps (set : list Assignment) (row : Pipeline) :
  let row' := fold_left assign set row in
  Pipeline_ID row' = Pipeline_ID row /\
  Pipeline_CreatorId row' = Pipeline_CreatorId row /\
  Pipeline_CreatedTs row' = Pipeline_CreatedTs row /\
  Pipeline_Name row' = Pipeline_Name row.
Proof.
  revert row. induction set as [|a set IH]; intros row; [done|].
  cbn [fold_left]. destruct (IH (assign row a)) as (H1 & H2 & H3 & H4).
  cbn zeta. rewrite H1, H2, H3, H4. by destruct a.
Qed.

Lemma filter_both_length {A : Type} (f g : A -> bool) (l : list A) :
  (List.length (List.filter (fun x => f x && g x) l)
   <= List.length (List.filter f l))%nat.
Proof.
  induction l as [|x l IH]; [done|]. cbn [List.filter].
  destruct (f x), (g x); cbn [andb List.length]; lia.
Qed.

(** The rows with a given id, when ids are unique. *)
Lemma filter_unique_id (rows : list Pipeline) (id : Z) :
  unique_ids rows ->
  (List.length (List.filter (fun row => (Pipeline_ID row =? id)%Z) rows)
   <= 1)%nat.
Proof.
  unfold unique_ids. induction rows as [|row rows IH]; [cbn; lia|].
  cbn [List.map List.filter]. intros Hnodup.
  apply NoDup_cons in Hnodup as [Hnotin Hnodup].
  destruct (Z.eqb_spec (Pipeline_ID row) id) as [Hid|Hid]; [|by apply IH].
  assert (Hnone : List.filter (fun row => (Pipeline_ID row =? id)%Z) rows
                  = []).
  { clear IH Hnodup. induction rows as [|row' rows IH]; [done|].
    cbn [List.filter].
    destruct (Z.eqb_spec (Pipeline_ID row') id) as [Hid'|Hid'].
    - exfalso. apply Hnotin. cbn [List.map]. rewrite Hid, <- Hid'.
      apply list_elem_of_here.
    - apply IH. intros Hin. apply Hnotin. cbn [List.map].
      by apply list_elem_of_further. }
  rewrite Hnone. cbn. lia.
Qed.

End StoreLemmas.

(** ** More on the pipeline service *)
Module PipelineCalls.
Import Go Store StoreNotions StoreFacts StoreLemmas.

Section Service.

Variable FormatError : error -> error.
Variable fmt_plus_v : PipelineFind -> string.

(** X13.  The WHERE clause that findPipelineList builds selects the rows that
    the filter admits, in the order of the table: a field that the filter
    leaves unset puts no condition on the rows. *)
Theorem where_clause_selects_admitted (find : PipelineFind) (s : State) :
  selected find s = List.filter (admits find) (db s) /\
  (PipelineFind_ID find = None -> PipelineFind_Status find = None ->
   selected find s = db s) /\
  (forall row,
     In row (selected find s) <->
     In row (db s) /\
     (forall v, PipelineFind_ID find = Some v -> Pipeline_ID row = v) /\
     (forall v, PipelineFind_Status find = Some v ->
                Pipeline_Status row = v)).
Proof.
  split; [apply selected_admits|]. split.
  - intros Hid Hstatus. rewrite selected_admits.
    unfold admits. rewrite Hid, Hstatus. cbn [andb].
    induction (db s) as [|row rows IH]; [done|]. cbn. by rewrite IH.
  - intros row. rewrite selected_admits, filter_In. unfold admits.
    split.
    + intros [Hin [Hid Hstatus]%andb_true_iff]. split; [done|]. split.
      * intros v Hv. rewrite Hv in Hid. by apply Z.eqb_eq.
      * intros v Hv. rewrite Hv in Hstatus. by apply String.eqb_eq.
    + intros (Hin & Hid & Hstatus). split; [done|].
      apply andb_true_iff. split.
      * destruct (PipelineFind_ID find) as [v|]; [|done].
        apply Z.eqb_eq. by apply Hid.
      * destruct (PipelineFind_Status find) as [v|]; [|done].
        apply String.eqb_eq. by apply Hstatus.
Qed.

(** X14.  The two lookups only read the table.  [FindPipeline] changes the
    cache by at most the entry of the pipeline it returns, and not at all
    when it returns an error. *)
Theorem lookups_are_read_only (env : Env) (find : PipelineFind) (s : State) :
  let one := FindPipeline FormatError fmt_plus_v env find s in
  let many := FindPipelineList FormatError env find s in
  db (snd one) = db s /\
  db (snd many) = db s /\
  match fst one with
  | Ok pipeline =>
      cache (snd one) = cache s \/
      cache (snd one) = <[Pipeline_ID pipeline := pipeline]> (cache s)
  | Err _ => cache (snd one) = cache s
  end.
Proof.
  intros one many. subst one many. split; [|split].
  - unfold_calls. reduce_store. by repeat (case_step; reduce_store).
  - unfold FindPipelineList, findPipelineList, BeginTx, QueryContext,
      Rollback.
    reduce_store.
    repeat (case_step; reduce_store); try done;
      match goal with
      | H : upsert_each env ?l ?s0 = (_, ?s1) |- _ =>
          pose proof (upsert_each_db env l s0) as Hdb; rewrite H in Hdb;
          exact Hdb
      end.
  - unfold_calls. reduce_store.
    repeat (case_step; reduce_store); auto.
Qed.

(** X15.  [FindPipelineList] when nothing fails: it returns the rows that the
    filter selects, none at all included, and puts each of them into the
    cache.  An empty selection is not an error and leaves the cache as it
    is; every returned row has an entry under its id, which is a returned
    row with that id; the entries of other ids are untouched. *)
Theorem FindPipelineList_result (env : Env) (find : PipelineFind) (s : State) :
  BeginTx_fails env = None ->
  QueryContext_fails env = None ->
  Scan_fails env = None ->
  rows_Err env = None ->
  UpsertCache_fails env = None ->
  let r := FindPipelineList FormatError env find s in
  fst r = Ok (selected find s) /\
  events_of s (snd r) =
    [EvBeginTx; EvQuery (SELECT_pipeline (where_clause find))]
      ++ upserts (selected find s) ++ [EvRollback] /\
  cache (snd r) = cache_with (selected find s) (cache s) /\
  (selected find s = [] -> cache (snd r) = cache s) /\
  (forall row, In row (selected find s) ->
     exists row', In row' (selected find s) /\
                  Pipeline_ID row' = Pipeline_ID row /\
                  cache (snd r) !! Pipeline_ID row = Some row') /\
  (forall id, (forall row, In row (selected find s) -> Pipeline_ID row <> id) ->
     cache (snd r) !! id = cache s !! id).
Proof.
  intros Hbegin Hquery Hscan Hrows Hupsert r. subst r.
  unfold FindPipelineList, findPipelineList, BeginTx, QueryContext, Rollback.
  rewrite Hbegin, Hquery. reduce_store.
  rewrite (scan_rows_all FormatError env _ [] Hscan), Hrows. cbn [app].
  fold (selected find s).
  rewrite upsert_each_all by done. reduce_store.
  split; [done|]. split.
  { apply trace_events_of. reduce_store. by rewrite <- !app_assoc. }
  split; [done|]. split; [by intros ->|].
  generalize (selected find s) (cache s). clear.
  intros rows. unfold cache_with.
  induction rows as [|row rows IH] using rev_ind; intros c.
  - split; [intros row []|done].
  - rewrite fold_left_app. cbn [fold_left]. destruct (IH c) as [IH1 IH2].
    split.
    + intros row' [Hin|[<-|[]]]%in_app_iff.
      * destruct (decide (Pipeline_ID row = Pipeline_ID row')) as [E|E].
        -- exists row. rewrite <- E, lookup_insert_eq.
           split; [apply in_app_iff; right; by left|done].
        -- destruct (IH1 row' Hin) as (q & Hq & Hid & Hc).
           exists q. rewrite lookup_insert_ne by done.
           split; [apply in_app_iff; by left|done].
      * exists row. rewrite lookup_insert_eq.
        split; [apply in_app_iff; right; by left|done].
    + intros id Hid. rewrite lookup_insert_ne.
      * apply IH2. intros row' Hin. apply Hid. apply in_app_iff. by left.
      * apply Hid. apply in_app_iff. right. by left.
Qed.

(** X16.  A pipeline is created OPEN, with its creator as updater, and as a
    new last row of the table. *)
Theorem CreatePipeline_row
  (env : Env) (create : PipelineCreate) (s : State) (E : Pipeline) :
  fst (CreatePipeline FormatError env create s) = Ok E ->
  Pipeline_Status E = "OPEN" /\
  Pipeline_CreatorId E = PipelineCreate_CreatorId create /\
  Pipeline_UpdaterId E = PipelineCreate_CreatorId create /\
  Pipeline_Name E = PipelineCreate_Name create /\
  db (snd (CreatePipeline FormatError env create s)) = db s ++ [E].
Proof.
  unfold_calls. reduce_store.
  repeat (case_step; reduce_store); intros [= <-]; done.
Qed.

(** X17.  Patching an id that no row has: the call fails with what
    [FormatError] makes of ENOTFOUND, without a commit, and table and
    cache are what they were. *)
Theorem PatchPipeline_not_found
  (env : Env) (patch : PipelinePatch) (s : State) :
  BeginTx_fails env = None ->
  QueryContext_fails env = None ->
  (forall row, In row (db s) -> Pipeline_ID row <> PipelinePatch_ID patch) ->
  let r := PatchPipeline FormatError env patch s in
  fst r = Err (FormatError
                 (bytebase_Error ENOTFOUND
                    ("pipeline ID not found: "
                       +:+ fmt_d (PipelinePatch_ID patch)))) /\
  db (snd r) = db s /\
  cache (snd r) = cache s /\
  events_of s (snd r) =
    [EvBeginTx;
     EvQuery (UPDATE_pipeline (set_clause patch) (PipelinePatch_ID patch));
     EvRollback].
Proof.
  intros Hbegin Hquery Hnone r. subst r.
  unfold PatchPipeline, patchPipeline, BeginTx, QueryContext, Rollback.
  rewrite Hbegin, Hquery. reduce_store.
  assert (Hfilter : List.filter
            (fun row => (Pipeline_ID row =? PipelinePatch_ID patch)%Z) (db s)
          = []).
  { induction (db s) as [|row rows IH]; [done|]. cbn [List.filter].
    assert (Hrow : (Pipeline_ID row =? PipelinePatch_ID patch)%Z = false).
    { apply Z.eqb_neq. apply Hnone. by left. }
    rewrite Hrow. apply IH. intros row' Hin. apply Hnone. by right. }
  rewrite Hfilter. cbn [List.map]. reduce_store.
  do 3 (split; [done|]).
  apply trace_events_of. reduce_store. by rewrite <- !app_assoc.
Qed.

(** X18.  What a patch that succeeds has done: the entity it returns is a row
    with the id of the patch, whose updater is the one of the patch and
    whose status is the one of the patch when it sets one; its other
    columns are those of a row the table had under this id.  The table has
    the same ids in the same order, the rows of other ids are untouched,
    and the returned entity is one of its rows. *)
Theorem PatchPipeline_effect
  (env : Env) (patch : PipelinePatch) (s : State) (E : Pipeline) :
  fst (PatchPipeline FormatError env patch s) = Ok E ->
  let s' := snd (PatchPipeline FormatError env patch s) in
  Pipeline_ID E = PipelinePatch_ID patch /\
  Pipeline_UpdaterId E = PipelinePatch_UpdaterId patch /\
  (exists old,
     In old (db s) /\ Pipeline_ID old = PipelinePatch_ID patch /\
     Pipeline_Status E
       = default (Pipeline_Status old) (PipelinePatch_Status patch) /\
     Pipeline_CreatorId E = Pipeline_CreatorId old /\
     Pipeline_CreatedTs E = Pipeline_CreatedTs old /\
     Pipeline_Name E = Pipeline_Name old) /\
  In E (db s') /\
  List.map Pipeline_ID (db s') = List.map Pipeline_ID (db s) /\
  (forall row, In row (db s) ->
               Pipeline_ID row <> PipelinePatch_ID patch -> In row (db s')).
Proof.
  unfold PatchPipeline, patchPipeline, BeginTx, QueryContext, Commit,
    UpsertCache, Rollback, Scan.
  reduce_store.
  repeat (case_step; reduce_store); intros [= <-].
  match goal with
  | H : List.map ?f (List.filter ?g (db s)) = _ :: _ |- _ =>
      set (updated := f) in *; rename H into Hrows
  end.
  destruct (List.filter _ (db s)) as [|old rest] eqn:Hfilter; [done|].
  cbn [List.map] in Hrows. injection Hrows as <- _.
  assert (Hold : In old (db s) /\ Pipeline_ID old = PipelinePatch_ID patch).
  { assert (Hin : In old (old :: rest)) by (by left).
    rewrite <- Hfilter in Hin. apply filter_In in Hin as [Hin Hid].
    split; [done|]. by apply Z.eqb_eq. }
  destruct Hold as [Hin Hid].
  assert (Hupdated : updated old = fold_left assign (set_clause patch) old).
  { subst updated. cbn beta. apply Z.eqb_eq in Hid. by rewrite Hid. }
  destruct (assign_keeps (set_clause patch) old) as (K1 & K2 & K3 & K4).
  rewrite Hupdated.
  split; [by rewrite K1|].
  split; [unfold set_clause; by destruct (PipelinePatch_Status patch)|].
  split.
  { exists old. do 2 (split; [done|]).
    split; [unfold set_clause; by destruct (PipelinePatch_Status patch)|].
    done. }
  split; [rewrite <- Hupdated; by apply in_map|].
  split.
  - rewrite List.map_map. apply map_ext. intros row. subst updated.
    cbn beta. case_match; [|done].
    by destruct (assign_keeps (set_clause patch) row) as (-> & _).
  - intros row Hrow Hne. apply in_map_iff. exists row. split; [|done].
    subst updated. cbn beta. apply Z.eqb_neq in Hne. by rewrite Hne.
Qed.

(** X19.  With unique ids a lookup by id never meets a conflict: when the
    cache does not answer and nothing fails, the call fails with ENOTFOUND
    or returns the one row of the table that has the id, which is then in
    the cache. *)
Theorem FindPipeline_by_unique_id
  (env : Env) (find : PipelineFind) (s : State) (id : Z) :
  unique_ids (db s) ->
  PipelineFind_ID find = Some id ->
  FindCache_fails env = None ->
  cache s !! id = None ->
  BeginTx_fails env = None ->
  QueryContext_fails env = None ->
  Scan_fails env = None ->
  rows_Err env = None ->
  UpsertCache_fails env = None ->
  let r := FindPipeline FormatError fmt_plus_v env find s in
  (selected find s = [] /\
   fst r = Err (bytebase_Error ENOTFOUND
                  ("pipeline not found: " +:+ fmt_plus_v find))) \/
  (exists pipeline,
     selected find s = [pipeline] /\
     fst r = Ok pipeline /\
     In pipeline (db s) /\ Pipeline_ID pipeline = id /\
     cache (snd r) !! id = Some pipeline).
Proof.
  intros Hunique Hid Hprobe Hmiss Hbegin Hquery Hscan Hrows Hupsert r.
  subst r.
  assert (Hlen : (List.length (selected find s) <= 1)%nat).
  { etrans; [|apply (filter_unique_id (db s) id Hunique)].
    rewrite selected_admits. unfold admits. rewrite Hid.
    apply (filter_both_length (fun row => (Pipeline_ID row =? id)%Z)). }
  assert (Hrow : forall p, In p (selected find s) ->
                           In p (db s) /\ Pipeline_ID p = id).
  { intros p Hin. rewrite selected_admits in Hin.
    apply filter_In in Hin as [Hin Hadm]. split; [done|].
    unfold admits in Hadm. rewrite Hid in Hadm.
    apply andb_true_iff in Hadm as [Hadm _]. by apply Z.eqb_eq. }
  unfold FindPipeline, FindCache. rewrite Hid, Hprobe. reduce_store.
  rewrite Hmiss.
  unfold FindPipeline_store, findPipelineList, BeginTx, QueryContext,
    Rollback, UpsertCache.
  rewrite Hbegin, Hquery. reduce_store.
  rewrite (scan_rows_all FormatError env _ [] Hscan), Hrows. cbn [app].
  fold (selected find s).
  destruct (selected find s) as [|p [|q rest]]; reduce_store.
  - by left.
  - right. exists p. rewrite Hupsert. reduce_store.
    destruct (Hrow p) as [Hin Hp]; [by left|].
    do 4 (split; [done|]). rewrite Hp. apply lookup_insert_eq.
  - cbn [List.length] in Hlen. lia.
Qed.

(** X20.  The cache is read-through: a lookup that has returned a pipeline
    leaves it in the cache, so that the same lookup by id, or a lookup by
    the id of the pipeline, is answered by the cache alone. *)
Theorem FindPipeline_read_through
  (env env' : Env) (find find' : PipelineFind) (s s' : State)
  (pipeline : Pipeline) :
  FindPipeline FormatError fmt_plus_v env find s = (Ok pipeline, s') ->
  FindCache_fails env' = None ->
  PipelineFind_ID find'
    = Some (default (Pipeline_ID pipeline) (PipelineFind_ID find)) ->
  FindPipeline FormatError fmt_plus_v env' find' s'
  = (Ok pipeline,
     emit (EvFindCache (default (Pipeline_ID pipeline)
                                (PipelineFind_ID find))) s').
Proof.
  intros Hfirst Hprobe Hid'.
  assert (Hcached :
    cache s' !! default (Pipeline_ID pipeline) (PipelineFind_ID find)
    = Some pipeline).
  { revert Hfirst. unfold FindPipeline, FindCache.
    assert (Hstore : forall s0,
      FindPipeline_store FormatError fmt_plus_v env find s0
        = (Ok pipeline, s') ->
      cache s' !! Pipeline_ID pipeline = Some pipeline /\
      forall id, PipelineFind_ID find = Some id -> Pipeline_ID pipeline = id).
    { intros s0. unfold FindPipeline_store, findPipelineList, BeginTx,
        QueryContext, Rollback, UpsertCache.
      reduce_store.
      repeat (case_step; reduce_store); intros [= -> <-]; reduce_store.
      split; [apply lookup_insert_eq|]. intros id Hid.
      match goal with
      | H : scan_rows _ _ _ _ = Ok _ |- _ =>
          apply scan_rows_Ok in H; cbn [app] in H
      end.
      assert (Hin : In pipeline [pipeline]) by (by left).
      match goal with
      | H : [pipeline] = _ |- _ => rewrite H in Hin
      end.
      apply filter_In in Hin as [_ Hholds].
      unfold where_clause in Hholds. rewrite Hid in Hholds.
      destruct (PipelineFind_Status find);
        cbn [app forallb holds andb] in Hholds;
        apply andb_true_iff in Hholds as [Hholds _]; by apply Z.eqb_eq. }
    destruct (PipelineFind_ID find) as [id|] eqn:Hid; cbn [default].
    - destruct (FindCache_fails env); [discriminate|]. reduce_store.
      destruct (cache s !! id) as [p|] eqn:Hc.
      + intros [= <- <-]. reduce_store. exact Hc.
      + intros H. destruct (Hstore _ H) as [Hc' Hsame].
        by rewrite <- (Hsame id eq_refl).
    - intros H. by destruct (Hstore _ H). }
  unfold FindPipeline, FindCache. rewrite Hid', Hprobe.
  reduce_store. by rewrite Hcached.
Qed.

(** X21.  The cache stays coherent with the committed table.  If every entry
    of the cache is a row of the table under its id, this is so again after
    a creation, after either lookup, and after a patch whenever the cache
    takes the entity of the patch. *)
Theorem cache_stays_coherent
  (env : Env) (create : PipelineCreate) (patch : PipelinePatch)
  (find : PipelineFind) (s : State) :
  coherent s ->
  coherent (snd (CreatePipeline FormatError env create s)) /\
  coherent (snd (FindPipeline FormatError fmt_plus_v env find s)) /\
  coherent (snd (FindPipelineList FormatError env find s)) /\
  (UpsertCache_fails env = None ->
   coherent (snd (PatchPipeline FormatError env patch s))).
Proof.
  intros Hs.
  assert (Hsame : forall s', db s' = db s -> cache s' = cache s ->
                             coherent s').
  { intros s' Hdb Hcache id p. rewrite Hdb, Hcache. apply Hs. }
  assert (Hput : forall s' p,
            In p (db s') -> (forall q, In q (db s) -> In q (db s')) ->
            cache s' = <[Pipeline_ID p := p]> (cache s) -> coherent s').
  { intros s' p Hp Hdb Hcache id q. rewrite Hcache.
    destruct (decide (Pipeline_ID p = id)) as [<-|Hne].
    - rewrite lookup_insert_eq. by intros [= <-].
    - rewrite lookup_insert_ne by done. intros Hq.
      destruct (Hs id q Hq) as [Hid Hin]. split; [done|]. by apply Hdb. }
  split; [|split; [|split]].
  - unfold_calls. reduce_store.
    repeat (case_step; reduce_store);
      first [ by apply Hsame
            | simplify_eq;
              intros id q; reduce_store; intros Hq;
              destruct (Hs id q Hq) as [Hid Hin]; split; [done|];
              apply in_app_iff; by left
            | simplify_eq;
              eapply Hput; reduce_store;
              [apply in_app_iff; right; by left
              |intros q Hq; apply in_app_iff; by left
              |reflexivity] ].
  - unfold FindPipeline, FindPipeline_store, findPipelineList, BeginTx,
      QueryContext, Rollback, FindCache, UpsertCache.
    reduce_store.
    repeat (case_step; reduce_store); try (by apply Hsame);
      match goal with
      | H : scan_rows _ _ _ _ = Ok _ |- _ =>
          apply scan_rows_Ok in H; cbn [app] in H
      end; simplify_eq;
      (eapply Hput; reduce_store; [|done|reflexivity]);
      match goal with
      | H : [?p] = List.filter _ _ |- In ?p _ =>
          assert (Hin : In p [p]) by (by left); rewrite H in Hin;
          by apply filter_In in Hin as [Hin _]
      end.
  - unfold FindPipelineList, findPipelineList, BeginTx, QueryContext,
      Rollback.
    reduce_store.
    repeat (case_step; reduce_store); try (by apply Hsame);
      match goal with
      | H : scan_rows _ _ _ _ = Ok _ |- _ =>
          apply scan_rows_Ok in H; cbn [app] in H
      end; simplify_eq;
      match goal with
      | H : upsert_each env ?l ?s0 = (_, ?s1) |- _ =>
          assert (Hc : coherent (snd (upsert_each env l s0)));
          [apply upsert_each_coherent;
           [intros row Hrow; reduce_store;
            by apply filter_In in Hrow as [Hrow _]
           |by apply Hsame]
          |rewrite H in Hc; intros id q; reduce_store; apply Hc]
      end.
  - intros Hupsert.
    unfold PatchPipeline, patchPipeline, BeginTx, QueryContext, Commit,
      UpsertCache, Rollback, Scan.
    rewrite Hupsert. reduce_store.
    repeat (case_step; reduce_store); try (by apply Hsame).
    simplify_eq.
    match goal with
    | H : List.map ?f (List.filter ?g (db s)) = ?p :: _ |- _ =>
        set (updated := f) in *; rename H into Hrows
    end.
    destruct (List.filter _ (db s)) as [|old rest] eqn:Hfilter; [done|].
    cbn [List.map] in Hrows. injection Hrows as <- _.
    assert (Hold : In old (db s) /\ Pipeline_ID old = PipelinePatch_ID patch).
    { assert (Hin : In old (old :: rest)) by (by left).
      rewrite <- Hfilter in Hin. apply filter_In in Hin as [Hin Hid].
      split; [done|]. by apply Z.eqb_eq. }
    destruct Hold as [Hin Hid].
    assert (Hkeep : Pipeline_ID (updated old) = PipelinePatch_ID patch).
    { subst updated. cbn beta. case_match; [|done].
      by destruct (assign_keeps (set_clause patch) old) as (-> & _). }
    intros id q. reduce_store.
    destruct (decide (Pipeline_ID (updated old) = id)) as [<-|Hne].
    + rewrite lookup_insert_eq. intros [= <-]. split; [done|].
      by apply in_map.
    + rewrite lookup_insert_ne by done. intros Hq.
      destruct (Hs id q Hq) as [Hqid Hqin]. split; [done|].
      apply in_map_iff. exists q. split; [|done].
      subst updated. cbn beta.
      assert (Hother : (Pipeline_ID q =? PipelinePatch_ID patch)%Z = false).
      { apply Z.eqb_neq. congruence. }
      by rewrite Hother.
Qed.

(** X22.  An error of the cache comes after the commit: the call returns the
    error although the mutation is committed.  The new row is in the table
    after such a creation, and the rows of the id are updated after such a
    patch; the cache is what it was. *)
Theorem mutation_committed_despite_cache_error
  (env : Env) (create : PipelineCreate) (patch : PipelinePatch)
  (s : State) (e : error) (old : Pipeline) :
  BeginTx_fails env = None ->
  QueryContext_fails env = None ->
  Scan_fails env = None ->
  Commit_fails env = None ->
  UpsertCache_fails env = Some e ->
  In old (db s) ->
  Pipeline_ID old = PipelinePatch_ID patch ->
  let created := CreatePipeline FormatError env create s in
  let patched := PatchPipeline FormatError env patch s in
  (fst created = Err e /\
   cache (snd created) = cache s /\
   exists row, db (snd created) = db s ++ [row] /\
               Pipeline_Name row = PipelineCreate_Name create) /\
  (fst patched = Err e /\
   cache (snd patched) = cache s /\
   forall row, In row (db (snd patched)) ->
               Pipeline_ID row = PipelinePatch_ID patch ->
               Pipeline_UpdaterId row = PipelinePatch_UpdaterId patch).
Proof.
  intros Hbegin Hquery Hscan Hcommit Hupsert Hin Hid created patched.
  subst created patched. split.
  - unfold_calls. rewrite Hbegin, Hquery, Hscan. reduce_store.
    rewrite Hcommit. reduce_store. rewrite Hupsert. reduce_store.
    do 2 (split; [done|]). by eexists.
  - unfold PatchPipeline, patchPipeline, BeginTx, QueryContext, Commit,
      UpsertCache, Rollback, Scan.
    rewrite Hbegin, Hquery, Hscan. reduce_store.
    destruct (List.filter _ (db s)) as [|first rest] eqn:Hfilter.
    { assert (Hold : In old []).
      { rewrite <- Hfilter. apply filter_In. split; [done|].
        by apply Z.eqb_eq. }
      destruct Hold. }
    cbn [List.map]. rewrite Hcommit. reduce_store. rewrite Hupsert.
    reduce_store. do 2 (split; [done|]).
    intros row [row0 [<- Hrow0]]%in_map_iff.
    destruct (Z.eqb_spec (Pipeline_ID row0) (PipelinePatch_ID patch))
      as [E|E]; [|done].
    intros _. unfold set_clause.
    by destruct (PipelinePatch_Status patch).
Qed.

End Service.

Lemma FindPipelineList_result_witness :
  let s := state_with [sample_pipeline 1 "OPEN"; sample_pipeline 2 "DONE"] in
  let r := FindPipelineList sample_FormatError healthy_env
                            (by_status "OPEN") s in
  fst r = Ok [sample_pipeline 1 "OPEN"] /\
  cache (snd r) !! 1 = Some (sample_pipeline 1 "OPEN") /\
  cache (snd r) !! 2 = None.
Proof.
  destruct (FindPipelineList_result sample_FormatError healthy_env
              (by_status "OPEN")
              (state_with [sample_pipeline 1 "OPEN"; sample_pipeline 2 "DONE"])
              eq_refl eq_refl eq_refl eq_refl eq_refl)
    as (Hresult & _ & _ & _ & _ & Hother).
  split; [exact Hresult|]. split; [reflexivity|].
  apply (Hother 2). intros row [<-|[]]. discriminate.
Defined.

Lemma CreatePipeline_row_witness :
  let r := CreatePipeline sample_FormatError healthy_env sample_create
                          (state_with []) in
  exists E, fst r = Ok E /\ Pipeline_Status E = "OPEN" /\ db (snd r) = [E].
Proof.
  eexists. split; [reflexivity|].
  destruct (CreatePipeline_row sample_FormatError healthy_env sample_create
              (state_with []) _ eq_refl)
    as (Hstatus & _ & _ & _ & Hdb).
  split; [exact Hstatus|exact Hdb].
Defined.

Lemma PatchPipeline_not_found_witness :
  let s := state_with [sample_pipeline 2 "OPEN"] in
  let r := PatchPipeline sample_FormatError healthy_env sample_patch s in
  fst r = Err (bytebase_Error ENOTFOUND "pipeline ID not found: 1") /\
  db (snd r) = db s.
Proof.
  assert (Hnone : forall row,
            In row (db (state_with [sample_pipeline 2 "OPEN"])) ->
            Pipeline_ID row <> PipelinePatch_ID sample_patch).
  { intros row [<-|[]]. discriminate. }
  destruct (PatchPipeline_not_found sample_FormatError healthy_env
              sample_patch (state_with [sample_pipeline 2 "OPEN"])
              eq_refl eq_refl Hnone)
    as (Hresult & Hdb & _).
  split; [exact Hresult|exact Hdb].
Defined.

Lemma PatchPipeline_effect_witness :
  let s := state_with [sample_pipeline 1 "OPEN"; sample_pipeline 2 "OPEN"] in
  let r := PatchPipeline sample_FormatError healthy_env sample_patch s in
  exists E,
    fst r = Ok E /\ Pipeline_ID E = 1 /\ Pipeline_UpdaterId E = 102 /\
    List.map Pipeline_ID (db (snd r)) = [1; 2] /\
    In (sample_pipeline 2 "OPEN") (db (snd r)).
Proof.
  eexists. split; [reflexivity|].
  destruct (PatchPipeline_effect sample_FormatError healthy_env sample_patch
              (state_with [sample_pipeline 1 "OPEN"; sample_pipeline 2 "OPEN"])
              _ eq_refl)
    as (Hid & Hupdater & _ & _ & Hids & Hrows).
  split; [exact Hid|]. split; [exact Hupdater|]. split; [exact Hids|].
  apply Hrows; [right; left; reflexivity|discriminate].
Defined.

Lemma FindPipeline_by_unique_id_witness :
  let s := state_with [sample_pipeline 1 "OPEN"; sample_pipeline 2 "DONE"] in
  let r := FindPipeline sample_FormatError sample_fmt_plus_v healthy_env
                        (by_id 2) s in
  (selected (by_id 2) s = [] /\
   fst r = Err (bytebase_Error ENOTFOUND
                  ("pipeline not found: " +:+ sample_fmt_plus_v (by_id 2)))) \/
  (exists pipeline,
     selected (by_id 2) s = [pipeline] /\
     fst r = Ok pipeline /\
     In pipeline (db s) /\ Pipeline_ID pipeline = 2 /\
     cache (snd r) !! 2 = Some pipeline).
Proof.
  assert (Hunique : unique_ids
            (db (state_with [sample_pipeline 1 "OPEN";
                             sample_pipeline 2 "DONE"]))).
  { unfold unique_ids. cbn. apply NoDup_cons. split.
    - intros [=]%list_elem_of_singleton.
    - apply NoDup_singleton. }
  exact (FindPipeline_by_unique_id sample_FormatError sample_fmt_plus_v
           healthy_env (by_id 2)
           (state_with [sample_pipeline 1 "OPEN"; sample_pipeline 2 "DONE"])
           2 Hunique eq_refl eq_refl eq_refl eq_refl eq_refl eq_refl eq_refl
           eq_refl).
Defined.

Lemma FindPipeline_read_through_witness :
  let s := state_with [sample_pipeline 1 "OPEN"] in
  let first := FindPipeline sample_FormatError sample_fmt_plus_v healthy_env
                            (by_status "OPEN") s in
  fst first = Ok (sample_pipeline 1 "OPEN") /\
  FindPipeline sample_FormatError sample_fmt_plus_v healthy_env (by_id 1)
               (snd first)
  = (Ok (sample_pipeline 1 "OPEN"), emit (EvFindCache 1) (snd first)).
Proof.
  split; [reflexivity|].
  exact (FindPipeline_read_through sample_FormatError sample_fmt_plus_v
           healthy_env healthy_env (by_status "OPEN") (by_id 1)
           (state_with [sample_pipeline 1 "OPEN"]) _ _
           eq_refl eq_refl eq_refl).
Defined.

Lemma cache_stays_coherent_witness :
  let s := state_with [sample_pipeline 1 "OPEN"] in
  coherent (snd (CreatePipeline sample_FormatError healthy_env sample_create
                                s)) /\
  coherent (snd (PatchPipeline sample_FormatError healthy_env sample_patch
                               s)).
Proof.
  assert (Hcoherent : coherent (state_with [sample_pipeline 1 "OPEN"])).
  { intros id pipeline H. cbn in H. by rewrite lookup_empty in H. }
  destruct (cache_stays_coherent sample_FormatError sample_fmt_plus_v
              healthy_env sample_create sample_patch (by_id 1)
              (state_with [sample_pipeline 1 "OPEN"]) Hcoherent)
    as (Hcreate & _ & _ & Hpatch).
  split; [exact Hcreate|exact (Hpatch eq_refl)].
Defined.

Lemma mutation_committed_despite_cache_error_witness :
  let s := state_with [sample_pipeline 1 "OPEN"] in
  let created := CreatePipeline sample_FormatError cache_fails_env
                                sample_create s in
  let patched := PatchPipeline sample_FormatError cache_fails_env
                               sample_patch s in
  fst created = Err (external_error "cache: entry too large") /\
  List.length (db (snd created)) = 2%nat /\
  fst patched = Err (external_error "cache: entry too large") /\
  List.map Pipeline_Status (db (snd patched)) = ["DONE"].
Proof.
  destruct (mutation_committed_despite_cache_error sample_FormatError
              cache_fails_env sample_create sample_patch
              (state_with [sample_pipeline 1 "OPEN"])
              (external_error "cache: entry too large")
              (sample_pipeline 1 "OPEN")
              eq_refl eq_refl eq_refl eq_refl eq_refl
              (or_introl eq_refl) eq_refl)
    as ((Hcreated & _ & _) & (Hpatched & _ & _)).
  split; [exact Hcreated|]. split; [reflexivity|].
  split; [exact Hpatched|reflexivity].
Defined.

End PipelineCalls.

(** ** The synchronisation of a ClickHouse schema *)
Module ClickHouseFacts.
Import Go ClickHouse.

Section Driver.

Variable ConvertYesNo : string -> result error bool.
Variable FormatErrorWithQuery : error -> Query -> error.
Variable databaseName : string.
Variable env : Env.

Lemma scan_columns_Ok
  (rows : list ColumnRow) (columnMap columnMap' : gmap string (list ColumnMetadata)) :
  scan_columns ConvertYesNo env rows columnMap = Ok columnMap' ->
  forall tableName,
    default [] (columnMap' !! tableName)
    = default [] (columnMap !! tableName)
        ++ columns_of_table (reading ConvertYesNo) rows tableName.
Proof.
  revert columnMap. induction rows as [|row rows IH]; intros columnMap;
    cbn [scan_columns].
  - intros [= <-] tableName. unfold columns_of_table. cbn.
    by rewrite app_nil_r.
  - destruct (column_Scan_fails env row); [discriminate|].
    destruct (ConvertYesNo (row_nullable row)) as [b|e] eqn:Hb;
      [|discriminate].
    intros H tableName. rewrite (IH _ H tableName).
    unfold columns_of_table. cbn [List.filter].
    destruct (String.eqb_spec (row_tableName row) tableName) as [<-|Hne].
    + rewrite lookup_insert_eq. cbn [default List.map].
      unfold reading at 2. rewrite Hb. unfold id.
      by rewrite <- app_assoc.
    + by rewrite lookup_insert_ne.
Qed.

Lemma scan_tables_Ok
  (rows : list TableRow) (columnMap : gmap string (list ColumnMetadata))
  (schema schema' : SchemaMetadata) :
  scan_tables env rows columnMap schema = Ok schema' ->
  Schema_Name schema' = Schema_Name schema /\
  Schema_Tables schema'
  = Schema_Tables schema
      ++ List.map (fun row =>
                     {| Table_Name := row_name row;
                        Table_Columns := default [] (columnMap !! row_name row);
                        Table_Engine := row_engine row;
                        Table_RowCount := row_rowCount row;
                        Table_DataSize := row_totalBytes row;
                        Table_Comment := row_tableComment row |})
           (List.filter (fun row => negb (is_view row)) rows) /\
  Schema_Views schema'
  = Schema_Views schema
      ++ List.map (fun row =>
                     {| View_Name := row_name row;
                        View_Definition := row_definition row;
                        View_Comment := row_tableComment row |})
           (List.filter is_view rows).
Proof.
  revert schema. induction rows as [|row rows IH]; intros schema;
    cbn [scan_tables].
  - intros [= <-]. cbn. by rewrite !app_nil_r.
  - destruct (table_Scan_fails env row); [discriminate|].
    change (String.eqb (row_engine row) "View") with (is_view row).
    cbn [List.filter].
    destruct (is_view row); cbn [negb];
      intros H; destruct (IH _ H) as (H1 & H2 & H3);
      cbn [Schema_Name Schema_Tables Schema_Views] in H1, H2, H3;
      rewrite H1, H2, H3; cbn [List.map]; by rewrite <- ?app_assoc.
Qed.

(** X23.  A synchronisation that succeeds returns the database under the name
    of the driver, with one schema of empty name.  Each row of
    [system.tables] is in it once, in the order of the query: as a view
    when its engine is View and as a table otherwise, so that no table has
    the engine View. *)
Theorem SyncDBSchema_tables_and_views (metadata : DatabaseSchemaMetadata) :
  SyncDBSchema ConvertYesNo FormatErrorWithQuery databaseName env
    = Ok metadata ->
  exists tableRows schema,
    table_rows env = Ok tableRows /\
    Database_Name metadata = databaseName /\
    Database_Schemas metadata = [schema] /\
    Schema_Name schema = EmptyString /\
    List.map Table_Name (Schema_Tables schema)
      = List.map row_name
          (List.filter (fun row => negb (is_view row)) tableRows) /\
    List.map View_Name (Schema_Views schema)
      = List.map row_name (List.filter is_view tableRows) /\
    (List.length (Schema_Tables schema) + List.length (Schema_Views schema)
     = List.length tableRows)%nat /\
    (forall table, In table (Schema_Tables schema) ->
                   Table_Engine table <> "View").
Proof.
  unfold SyncDBSchema.
  destruct (column_rows env) as [columnRows|e]; [|discriminate].
  destruct (scan_columns _ _ _ _) as [columnMap|e]; [|discriminate].
  destruct (column_rows_Err env); [discriminate|].
  destruct (table_rows env) as [tableRows|e]; [|discriminate].
  destruct (scan_tables _ _ _ _) as [schema|e] eqn:Hscan; [|discriminate].
  destruct (table_rows_Err env); [discriminate|].
  intros [= <-]. exists tableRows, schema.
  destruct (scan_tables_Ok _ _ _ _ Hscan) as (H1 & H2 & H3).
  cbn [Schema_Name Schema_Tables Schema_Views app] in H1, H2, H3.
  do 4 (split; [done|]). rewrite H2, H3, !List.map_map. cbn.
  do 2 (split; [done|]). split.
  - rewrite !length_map. clear.
    induction tableRows as [|row rows IH]; [done|]. cbn [List.filter].
    destruct (is_view row); cbn [negb List.length]; lia.
  - intros table [row [<- Hrow]]%in_map_iff. cbn.
    apply filter_In in Hrow as [_ Hrow]. unfold is_view in Hrow.
    apply negb_true_iff in Hrow. by apply String.eqb_neq.
Qed.

(** X24.  The columns of a synchronised table are the rows of
    [information_schema.COLUMNS] that carry the name of the table, in the
    order of the query.  A column has the null default only when it has no
    default of its own and is nullable, and no default at all only when it
    is not nullable. *)
Theorem SyncDBSchema_columns (metadata : DatabaseSchemaMetadata) :
  SyncDBSchema ConvertYesNo FormatErrorWithQuery databaseName env
    = Ok metadata ->
  exists columnRows,
    column_rows env = Ok columnRows /\
    forall schema table,
      In schema (Database_Schemas metadata) ->
      In table (Schema_Tables schema) ->
      Table_Columns table
        = columns_of_table (reading ConvertYesNo) columnRows
                           (Table_Name table) /\
      forall column, In column (Table_Columns table) ->
        (Column_DefaultValue column = ColumnMetadata_DefaultNull ->
         Column_Nullable column = true) /\
        (Column_DefaultValue column = no_default ->
         Column_Nullable column = false).
Proof.
  unfold SyncDBSchema.
  destruct (column_rows env) as [columnRows|e]; [|discriminate].
  destruct (scan_columns _ _ _ _) as [columnMap|e] eqn:Hcolumns;
    [|discriminate].
  destruct (column_rows_Err env); [discriminate|].
  destruct (table_rows env) as [tableRows|e]; [|discriminate].
  destruct (scan_tables _ _ _ _) as [schema|e] eqn:Hscan; [|discriminate].
  destruct (table_rows_Err env); [discriminate|].
  intros [= <-]. exists columnRows. split; [done|].
  intros schema' table [<-|[]] Htable.
  destruct (scan_tables_Ok _ _ _ _ Hscan) as (_ & H2 & _).
  cbn [Schema_Tables app] in H2. rewrite H2 in Htable.
  apply in_map_iff in Htable as [row [<- _]]. cbn [Table_Columns Table_Name].
  rewrite (scan_columns_Ok _ _ _ Hcolumns (row_name row)).
  rewrite lookup_empty. cbn [default app]. split; [done|].
  intros column [r [<- _]]%in_map_iff.
  unfold column_of_row. cbn [Column_DefaultValue Column_Nullable].
  destruct (row_defaultStr r), (reading ConvertYesNo (row_nullable r)); done.
Qed.

(** X25.  A row whose YES/NO column [ConvertYesNo] does not read ends the
    synchronisation with the error of [ConvertYesNo], whatever the tables
    are. *)
Theorem SyncDBSchema_unreadable_nullable
  (before after : list ColumnRow) (row : ColumnRow) (e : error) :
  column_rows env = Ok (before ++ row :: after) ->
  (forall r, In r (before ++ [row]) -> column_Scan_fails env r = None) ->
  (forall r, In r before -> exists b, ConvertYesNo (row_nullable r) = Ok b) ->
  ConvertYesNo (row_nullable row) = Err e ->
  SyncDBSchema ConvertYesNo FormatErrorWithQuery databaseName env = Err e.
Proof.
  intros Hrows Hscan Hbefore Hrow. unfold SyncDBSchema. rewrite Hrows.
  clear Hrows.
  assert (H : forall columnMap,
    scan_columns ConvertYesNo env (before ++ row :: after) columnMap = Err e).
  { revert Hscan Hbefore.
    induction before as [|r before IH]; intros Hscan Hbefore columnMap;
      cbn [app scan_columns].
    - rewrite (Hscan row) by (by left). by rewrite Hrow.
    - rewrite (Hscan r) by (by left).
      destruct (Hbefore r) as [b ->]; [by left|]. apply IH.
      + intros r' Hr'. apply Hscan. by right.
      + intros r' Hr'. apply Hbefore. by right. }
  by rewrite H.
Qed.

End Driver.

Lemma SyncDBSchema_tables_and_views_witness :
  exists metadata schema,
    SyncDBSchema sample_ConvertYesNo sample_FormatErrorWithQuery "shop"
                 (sample_env sample_columns) = Ok metadata /\
    Database_Schemas metadata = [schema] /\
    List.map Table_Name (Schema_Tables schema) = ["orders"] /\
    List.map View_Name (Schema_Views schema) = ["recent_orders"].
Proof.
  destruct (SyncDBSchema_tables_and_views sample_ConvertYesNo
              sample_FormatErrorWithQuery "shop" (sample_env sample_columns)
              _ eq_refl)
    as (tableRows & schema & Hrows & _ & Hschemas & _ & Htables & Hviews & _).
  injection Hrows as <-.
  eexists _, schema. split; [reflexivity|]. split; [exact Hschemas|].
  split; [exact Htables|exact Hviews].
Defined.

Lemma SyncDBSchema_columns_witness :
  exists metadata,
    SyncDBSchema sample_ConvertYesNo sample_FormatErrorWithQuery "shop"
                 (sample_env sample_columns) = Ok metadata /\
    forall schema table,
      In schema (Database_Schemas metadata) ->
      In table (Schema_Tables schema) ->
      Table_Columns table
      = columns_of_table (reading sample_ConvertYesNo) sample_columns
                         (Table_Name table).
Proof.
  destruct (SyncDBSchema_columns sample_ConvertYesNo
              sample_FormatErrorWithQuery "shop" (sample_env sample_columns)
              _ eq_refl)
    as (columnRows & Hrows & Hcolumns).
  injection Hrows as <-.
  eexists. split; [reflexivity|].
  intros schema table Hschema Htable.
  exact (proj1 (Hcolumns schema table Hschema Htable)).
Defined.

Lemma SyncDBSchema_unreadable_nullable_witness :
  SyncDBSchema sample_ConvertYesNo sample_FormatErrorWithQuery "shop"
    (sample_env [sample_column "orders" "id" 1 None "NO";
                 sample_column "orders" "note" 2 None "MAYBE";
                 sample_column "recent_orders" "id" 1 (Some "0") "NO"])
  = Err (errors_New ("unrecognized isNullable type " +:+ fmt_q "MAYBE")).
Proof.
  apply (SyncDBSchema_unreadable_nullable sample_ConvertYesNo
           sample_FormatErrorWithQuery "shop" _
           [sample_column "orders" "id" 1 None "NO"]
           [sample_column "recent_orders" "id" 1 (Some "0") "NO"]
           (sample_column "orders" "note" 2 None "MAYBE")).
  - reflexivity.
  - intros r _. reflexivity.
  - intros r [<-|[]]. by exists false.
  - reflexivity.
Defined.

End ClickHouseFacts.

(** ** The primary key type allowlist *)
Module AdvisorFacts.
Import Go Advisor.

Section PrimaryKeyTypeAllowlist.

Variable DataType : Type.
Variable EquivalentType : DataType -> string -> bool.
Variable Deparse : DataType -> result error string.
Variable NewStatusBySQLReviewRuleLevel : string -> result error Status.
Variable UnmarshalStringArrayTypeRulePayload
  : string -> result error (list string).
Variable Walk_nodes : Node DataType -> list (Node DataType).

Lemma check_columns_spec
  (columnList : list (ColumnDef DataType)) (checker : indexPrimaryKeyTypeAllowlistChecker) :
  let checker' := check_columns EquivalentType Deparse columnList checker in
  level checker' = level checker /\
  title checker' = title checker /\
  allowlist checker' = allowlist checker /\
  adviceList checker'
  = adviceList checker
      ++ List.map (advice_for Deparse checker)
           (List.filter
              (fun column => negb (allowType EquivalentType
                                     (allowlist checker)
                                     (Column_Type column)))
              columnList).
Proof.
  revert checker. induction columnList as [|column rest IH]; intros checker;
    cbn [check_columns List.filter].
  - cbn. by rewrite app_nil_r.
  - destruct (negb _); [|apply IH].
    match goal with
    | |- context [check_columns _ _ rest ?c] =>
        destruct (IH c) as (H1 & H2 & H3 & H4)
    end.
    cbn zeta in *. rewrite H1, H2, H3, H4.
    cbn [adviceList level title allowlist List.map].
    unfold advice_for. cbn [level title]. by rewrite <- app_assoc.
Qed.

Lemma collect_columns_spec
  (columns : list (ColumnDef DataType))
  (columnMap : gmap string (ColumnDef DataType))
  (columnList : list (ColumnDef DataType)) :
  let r := collect_columns columns columnMap columnList in
  snd r = columnList ++ List.filter isPKColumn columns /\
  forall key,
    fst r !! key
    = match column_named columns key with
      | Some column => Some column
      | None => columnMap !! key
      end.
Proof.
  revert columnMap columnList.
  induction columns as [|column rest IH]; intros columnMap columnList;
    cbn [collect_columns].
  - cbn. by rewrite app_nil_r.
  - assert (Hkey : forall (m : gmap string (ColumnDef DataType)) key,
      match column_named rest key with
      | Some c => Some c
      | None => <[ColumnName column := column]> m !! key
      end
      = match column_named (column :: rest) key with
        | Some c => Some c
        | None => m !! key
        end).
    { clear IH. intros m key. unfold column_named. cbn [List.filter].
      destruct (String.eqb_spec (ColumnName column) key) as [<-|Hne].
      - rewrite lookup_insert_eq.
        destruct (List.filter _ rest) as [|c l] eqn:Hl; [by cbn|].
        rewrite (last_cons column).
        by destruct (last (c :: l)).
      - by rewrite lookup_insert_ne. }
    cbn [List.filter].
    destruct (isPKColumn column);
      match goal with
      | |- context [collect_columns rest ?m ?l] =>
          destruct (IH m l) as [H1 H2]
      end; cbn zeta in *; rewrite H1; (split; [by rewrite <- ?app_assoc|]);
      intros key; rewrite H2; apply Hkey.
Qed.

Lemma collect_keys_spec
  (keys : list string) (columnMap : gmap string (ColumnDef DataType))
  (columnList : list (ColumnDef DataType)) :
  collect_keys keys columnMap columnList
  = columnList ++ omap (fun key => columnMap !! key) keys.
Proof.
  revert columnList. induction keys as [|key rest IH]; intros columnList;
    cbn [collect_keys omap list_omap].
  - by rewrite app_nil_r.
  - destruct (columnMap !! key); rewrite IH; [|done].
    by rewrite <- app_assoc.
Qed.

Lemma collect_constraints_spec
  (constraints : list ConstraintDef)
  (columnMap : gmap string (ColumnDef DataType))
  (columnList : list (ColumnDef DataType)) :
  collect_constraints constraints columnMap columnList
  = columnList
      ++ flat_map
           (fun constraint =>
              match Constraint_Type constraint with
              | ConstraintTypePrimary =>
                  omap (fun key => columnMap !! key)
                       (Constraint_KeyList constraint)
              | ConstraintTypeOther _ => []
              end)
           constraints.
Proof.
  revert columnList.
  induction constraints as [|constraint rest IH]; intros columnList;
    cbn [collect_constraints flat_map].
  - by rewrite app_nil_r.
  - destruct (Constraint_Type constraint); rewrite IH; [|done].
    rewrite collect_keys_spec. by rewrite <- app_assoc.
Qed.

(** The columns that Visit checks.  They are the columns declared as
    primary key themselves, in the order of the table, followed for each
    primary key constraint of the table by the columns its keys name: a key
    names the last column of that name, and a key that names no column is
    passed over.  A column can so be checked more than once. *)
Lemma primary_key_columns_spec (node : CreateTableStmt DataType) :
  primary_key_columns node
  = List.filter isPKColumn (ColumnList node)
      ++ constraint_columns node.
Proof.
  unfold primary_key_columns, constraint_columns.
  pose proof (collect_columns_spec (ColumnList node) ∅ []) as [H1 H2].
  destruct (collect_columns (ColumnList node) ∅ []) as [columnMap columnList].
  cbn [fst snd app] in H1, H2. rewrite collect_constraints_spec, H1.
  f_equal. apply flat_map_ext. intros constraint.
  destruct (Constraint_Type constraint); [|done].
  induction (Constraint_KeyList constraint) as [|key keys IH]; [done|].
  cbn [omap list_omap]. rewrite H2, lookup_empty, IH.
  by destruct (column_named (ColumnList node) key).
Qed.

(** X26.  The advices that Visit adds.  A node that is no CREATE TABLE statement
    adds none.  A CREATE TABLE statement adds one advice, after those
    already there and in this order, for each column of a type outside the
    allowlist among: the columns declared primary key themselves, then for
    each primary key constraint of the table the columns its keys name (a
    key names the last column of that name, a key that names no column is
    passed over).  The level, the title and the allowlist stay as they
    are. *)
Theorem Visit_advices
  (checker : indexPrimaryKeyTypeAllowlistChecker) (in_ : Node DataType) :
  let checker' := Visit EquivalentType Deparse checker in_ in
  level checker' = level checker /\
  title checker' = title checker /\
  allowlist checker' = allowlist checker /\
  adviceList checker'
  = adviceList checker
      ++ List.map (advice_for Deparse checker)
           (List.filter
              (fun column => negb (allowType EquivalentType
                                     (allowlist checker)
                                     (Column_Type column)))
              match in_ with
              | Node_CreateTableStmt node =>
                  List.filter isPKColumn (ColumnList node)
                    ++ constraint_columns node
              | Node_other _ => []
              end).
Proof.
  destruct in_ as [node|text].
  - rewrite <- primary_key_columns_spec. apply check_columns_spec.
  - cbn. by rewrite app_nil_r.
Qed.

(** X27.  A column of a type outside the allowlist that is declared primary key
    itself and is also named by a key of a primary key constraint of the
    table is reported twice by Visit. *)
Theorem Visit_reports_twice
  (checker : indexPrimaryKeyTypeAllowlistChecker)
  (node : CreateTableStmt DataType) (column : ColumnDef DataType)
  (constraint : ConstraintDef) (key : string) :
  In column (ColumnList node) ->
  isPKColumn column = true ->
  allowType EquivalentType (allowlist checker) (Column_Type column) = false ->
  In constraint (ConstraintList node) ->
  Constraint_Type constraint = ConstraintTypePrimary ->
  In key (Constraint_KeyList constraint) ->
  column_named (ColumnList node) key = Some column ->
  exists first second,
    adviceList (Visit EquivalentType Deparse checker
                  (Node_CreateTableStmt node))
    = adviceList checker ++ first ++ second /\
    In (advice_for Deparse checker column) first /\
    In (advice_for Deparse checker column) second.
Proof.
  intros Hcolumn Hpk Htype Hconstraint Hprimary Hkey Hnamed.
  change (Visit EquivalentType Deparse checker (Node_CreateTableStmt node))
    with (check_columns EquivalentType Deparse (primary_key_columns node)
                        checker).
  destruct (check_columns_spec (primary_key_columns node) checker)
    as (_ & _ & _ & ->).
  rewrite primary_key_columns_spec, List.filter_app, List.map_app.
  eexists _, _. split; [reflexivity|].
  split; apply in_map, filter_In; (split; [|by rewrite Htype]).
  - by apply filter_In.
  - unfold constraint_columns. apply in_flat_map.
    exists constraint. split; [done|]. rewrite Hprimary.
    apply list_elem_of_In, list_elem_of_omap. exists key.
    split; [by apply list_elem_of_In|done].
Qed.

(** What one statement and what a list of statements add: advices of code
    IndexPKType that carry the level and the title of the checker. *)
Lemma fold_Visit_adds
  (nodes : list (Node DataType))
  (checker : indexPrimaryKeyTypeAllowlistChecker) :
  let checker' := fold_left (Visit EquivalentType Deparse) nodes checker in
  level checker' = level checker /\
  title checker' = title checker /\
  allowlist checker' = allowlist checker /\
  exists added,
    adviceList checker' = adviceList checker ++ added /\
    Forall (reported (level checker) (title checker)) added.
Proof.
  revert checker. induction nodes as [|node rest IH]; intros checker;
    cbn [fold_left].
  - repeat split. exists []. by rewrite app_nil_r.
  - destruct (IH (Visit EquivalentType Deparse checker node))
      as (I1 & I2 & I3 & added & I4 & I5).
    cbn zeta. rewrite I1, I2, I3, I4. unfold Visit in *.
    match goal with
    | |- context [check_columns _ _ ?columnList checker] =>
        destruct (check_columns_spec columnList checker)
          as (H1 & H2 & H3 & H4)
    end.
    cbn zeta in H1, H2, H3, H4. rewrite H1, H2, H3, H4.
    repeat split. eexists. rewrite <- app_assoc. split; [reflexivity|].
    apply Forall_app. split; [|by rewrite <- H1, <- H2].
    apply List.Forall_forall. intros advice (column & <- & _)%in_map_iff.
    by repeat split.
Qed.

Lemma fold_Walk_adds
  (stmtList : list (Node DataType))
  (checker : indexPrimaryKeyTypeAllowlistChecker) :
  let checker' :=
    fold_left (Walk EquivalentType Deparse Walk_nodes) stmtList checker in
  level checker' = level checker /\
  title checker' = title checker /\
  allowlist checker' = allowlist checker /\
  exists added,
    adviceList checker' = adviceList checker ++ added /\
    Forall (reported (level checker) (title checker)) added.
Proof.
  revert checker. induction stmtList as [|stmt rest IH]; intros checker;
    cbn [fold_left].
  - repeat split. exists []. by rewrite app_nil_r.
  - destruct (fold_Visit_adds (Walk_nodes stmt) checker)
      as (H1 & H2 & H3 & added1 & H4 & H5).
    fold (Walk EquivalentType Deparse Walk_nodes checker stmt) in *.
    destruct (IH (Walk EquivalentType Deparse Walk_nodes checker stmt))
      as (I1 & I2 & I3 & added & I4 & I5).
    cbn zeta in *. rewrite I1, I2, I3, I4, H1, H2, H3, H4.
    repeat split. eexists. rewrite <- app_assoc. split; [reflexivity|].
    apply Forall_app. split; [done|by rewrite <- H1, <- H2].
Qed.

(** X28.  The result of Check.  An AST that is no list of nodes gives the error
    [failed to convert to Node]; a level or a payload that cannot be decoded
    gives the error of the decoder, the level being decoded first.
    Otherwise Check gives a list of advices that is never empty: the single
    advice OK of status Success, or only advices of code IndexPKType that
    carry the level and the type of the rule. *)
Theorem Check_result (ctx : Context DataType) :
  let result :=
    Check EquivalentType Deparse NewStatusBySQLReviewRuleLevel
      UnmarshalStringArrayTypeRulePayload Walk_nodes ctx in
  match AST ctx with
  | None => result = Err (errors_New "failed to convert to Node")
  | Some _ =>
      match NewStatusBySQLReviewRuleLevel (Rule_Level ctx) with
      | Err err => result = Err err
      | Ok level =>
          match UnmarshalStringArrayTypeRulePayload (Rule_Payload ctx) with
          | Err err => result = Err err
          | Ok _ =>
              exists advices,
                result = Ok advices /\
                advices <> [] /\
                (advices = [advice_OK] \/
                 Forall (reported level (Rule_Type ctx)) advices)
          end
      end
  end.
Proof.
  unfold Check. cbn zeta.
  destruct (AST ctx) as [stmtList|]; [|done].
  destruct (NewStatusBySQLReviewRuleLevel _) as [status|err]; [|done].
  destruct (UnmarshalStringArrayTypeRulePayload _) as [payload_List|err];
    [|done].
  match goal with
  | |- context [fold_left _ stmtList ?c] =>
      destruct (fold_Walk_adds stmtList c) as (_ & _ & _ & added & H & Hall)
  end.
  cbn zeta in H. cbn [adviceList level title app] in H, Hall. rewrite H.
  destruct added as [|advice added]; eexists; (split; [reflexivity|]).
  - split; [done|by left].
  - split; [done|by right].
Qed.

End PrimaryKeyTypeAllowlist.

Lemma Visit_reports_twice_witness :
  let advice := advice_for sample_Deparse sample_checker sample_id in
  exists first second,
    adviceList (Visit sample_EquivalentType sample_Deparse sample_checker
                  (Node_CreateTableStmt sample_stmt))
    = first ++ second /\
    In advice first /\ In advice second.
Proof.
  exact (Visit_reports_twice string sample_EquivalentType sample_Deparse
           sample_checker sample_stmt sample_id (primary_key ["id"]) "id"
           (or_introl eq_refl) eq_refl eq_refl (or_introl eq_refl)
           eq_refl (or_introl eq_refl) eq_refl).
Defined.

End AdvisorFacts.
